(** * discord-open-tools: webhook relays from GitHub and Trello to Discord

    A shallow embedding of the repository's JavaScript
    ([functions/src/utils/discord.js], [functions/src/utils/config.js],
    [functions/src/github/webhook.js], [functions/src/trello/integration.js],
    [functions/src/trello/registration.js], [functions/index.js]) and the
    properties of its specification that were checked against it.

    Payloads are the values [JSON.parse] produces; a property read, a method
    call or a template literal on such a value either yields a value or throws,
    and the embedding keeps both outcomes. *)

From Stdlib Require Import String Ascii List ZArith Lia Bool DecimalString.
Import ListNotations.
Open Scope string_scope.
Open Scope Z_scope.

(* ================================================================= *)
(** ** The fragment of ECMAScript the handlers rely on *)

Module JS.

(** Values reachable from a parsed JSON body, plus [undefined], which only
    arises from reading a property that is not there. A character of a
    [string] stands for one UTF-16 code unit (the range 0..255); a number is
    integer valued. An object keeps its own properties in insertion order. *)
#[warning="-register-all"]
Inductive val : Type :=
| VUndef
| VNull
| VBool (b : bool)
| VNum (n : Z)
| VStr (s : string)
| VArr (l : list val)
| VObj (m : list (string * val)).

(** Exceptions: the engine's own, [new Error(message)], and a rejected axios
    call with its [message] and [response?.data] ([undefined] when there was
    no response). *)
Inductive error : Type :=
| TypeError
| RangeError
| ReferenceError (ident : string)
| Error (message : string)
| AxiosError (message : string) (response_data : val).

(** Completion of an evaluation: a value, or an exception in flight. *)
Inductive result (A : Type) : Type :=
| Ok (a : A)
| Throw (e : error).
Arguments Ok {A} a.
Arguments Throw {A} e.

Definition bind {A B : Type} (r : result A) (k : A -> result B) : result B :=
  match r with
  | Ok a => k a
  | Throw e => Throw e
  end.

Notation "x <- c ;; k" := (bind c (fun x => k))
  (at level 61, c at next level, right associativity).

(** Own data property [k] of an object literal. *)
Fixpoint own (m : list (string * val)) (k : string) : option val :=
  match m with
  | [] => None
  | (k', v) :: m' => if String.eqb k' k then Some v else own m' k
  end.

Definition has_own (m : list (string * val)) (k : string) : bool :=
  match own m k with Some _ => true | None => false end.

(** [v.k] for a data key [k] (none of the keys the handlers read is a member
    of [Object.prototype], [String.prototype] or [Array.prototype] other than
    [length]). Reading from [undefined] or [null] throws. *)
Definition get (v : val) (k : string) : result val :=
  match v with
  | VUndef | VNull => Throw TypeError
  | VObj m => Ok (match own m k with Some x => x | None => VUndef end)
  | VStr s => Ok (if String.eqb k "length" then VNum (Z.of_nat (String.length s)) else VUndef)
  | VArr l => Ok (if String.eqb k "length" then VNum (Z.of_nat (List.length l)) else VUndef)
  | VBool _ | VNum _ => Ok VUndef
  end.

(** [v?.k] *)
Definition get_opt (v : val) (k : string) : result val :=
  match v with
  | VUndef | VNull => Ok VUndef
  | _ => get v k
  end.

(** ToBoolean *)
Definition truthy (v : val) : bool :=
  match v with
  | VUndef | VNull => false
  | VBool b => b
  | VNum n => negb (n =? 0)
  | VStr s => negb (String.eqb s "")
  | VArr _ | VObj _ => true
  end.

(** [a || b] *)
Definition or_else (a b : val) : val := if truthy a then a else b.

(** Number::toString of an integer (below 10^21 in size, where the decimal
    form is used). *)
Definition Number_toString (n : Z) : string :=
  NilZero.string_of_int (Z.to_int n).

(** ToString, as applied by a template literal [`${v}`]. An array joins its
    elements with commas ([null] prints as the empty string); an object
    prints through [Object.prototype.toString] unless an own [toString] data
    property hides it, in which case OrdinaryToPrimitive finds nothing
    callable that yields a primitive and throws. *)
Fixpoint ToString (v : val) : result string :=
  match v with
  | VUndef => Ok "undefined"
  | VNull => Ok "null"
  | VBool true => Ok "true"
  | VBool false => Ok "false"
  | VNum n => Ok (Number_toString n)
  | VStr s => Ok s
  | VArr l =>
      (fix join (l : list val) : result string :=
         match l with
         | [] => Ok ""
         | x :: r =>
             s <- match x with VUndef | VNull => Ok "" | _ => ToString x end ;;
             match r with
             | [] => Ok s
             | _ :: _ => t <- join r ;; Ok (s ++ "," ++ t)
             end
         end) l
  | VObj m => if has_own m "toString" then Throw TypeError else Ok "[object Object]"
  end.

(** [s.replace(pat, rep)] with a string pattern: the first occurrence only
    ([rep] holds no [$] pattern). Any receiver but a string has no callable
    [replace]. *)
Definition String_replace (s pat rep : string) : string :=
  match String.index 0 pat s with
  | Some i =>
      String.substring 0 i s ++ rep ++
      String.substring (i + String.length pat) (String.length s - (i + String.length pat)) s
  | None => s
  end%nat.

Definition replace (v : val) (pat rep : string) : result string :=
  match v with
  | VStr s => Ok (String_replace s pat rep)
  | _ => Throw TypeError
  end.

(** [s.startsWith(pat)] *)
Fixpoint String_startsWith (s pat : string) : bool :=
  match pat, s with
  | EmptyString, _ => true
  | String _ _, EmptyString => false
  | String a pat', String b s' => Ascii.eqb a b && String_startsWith s' pat'
  end.

(** [s.includes(pat)] *)
Fixpoint String_includes (s pat : string) : bool :=
  String_startsWith s pat
  || match s with
     | EmptyString => false
     | String _ r => String_includes r pat
     end.

(** The text before the first [c] (all of it when there is none), and the
    text after it. *)
Fixpoint before (c : ascii) (s : string) : string :=
  match s with
  | EmptyString => EmptyString
  | String a r => if Ascii.eqb a c then EmptyString else String a (before c r)
  end.

Fixpoint after (c : ascii) (s : string) : string :=
  match s with
  | EmptyString => EmptyString
  | String a r => if Ascii.eqb a c then r else after c r
  end.

(** [v.substring(0, n)] *)
Definition substring0 (v : val) (n : nat) : result string :=
  match v with
  | VStr s => Ok (String.substring 0 n s)
  | _ => Throw TypeError
  end.

(** [s.split(c)] for a one-character separator: never empty. *)
Fixpoint String_split (c : ascii) (s : string) : list string :=
  match s with
  | EmptyString => [EmptyString]
  | String a r =>
      if Ascii.eqb a c then EmptyString :: String_split c r
      else match String_split c r with
           | h :: t => String a h :: t
           | [] => [String a EmptyString]
           end
  end.

Definition split (v : val) (c : ascii) : result (list string) :=
  match v with
  | VStr s => Ok (String_split c s)
  | _ => Throw TypeError
  end.

(** [v.slice(0, n)]: arrays and strings both have it. *)
Definition slice0 (v : val) (n : nat) : result val :=
  match v with
  | VArr l => Ok (VArr (firstn n l))
  | VStr s => Ok (VStr (String.substring 0 n s))
  | _ => Throw TypeError
  end.

(** [v.hasOwnProperty(k)] for a non-index key [k]: every non-nullish value
    inherits the method, and an object may hide it behind an own data
    property, which is not callable. *)
Definition hasOwnProperty (v : val) (k : string) : result bool :=
  match v with
  | VUndef | VNull => Throw TypeError
  | VObj m => if has_own m "hasOwnProperty" then Throw TypeError else Ok (has_own m k)
  | VStr _ | VArr _ => Ok (String.eqb k "length")
  | VBool _ | VNum _ => Ok false
  end.

(** What the engine and the surroundings of one request supply: number
    parsing, date formatting, the clock, the digest, the process environment,
    the deployment parameters, and the outcome of outbound HTTP. *)
Class Host : Type := {
  (** ToNumber(s) > n, for a string [s] *)
  StringToNumber_gt : string -> Z -> bool;
  (** [new Date(v).toLocaleString()], for a primitive [v] *)
  Date_toLocaleString : val -> string;
  (** [new Date().toISOString()] *)
  Date_now_toISOString : string;
  (** [crypto.createHmac("sha256", key).update(data).digest("hex")] *)
  hmac_sha256_hex : string -> string -> string;
  (** [JSON.stringify(v)] and [JSON.stringify(v, null, 2)], as text *)
  JSON_stringify : val -> string;
  JSON_stringify_pretty : val -> string;
  (** [process.env[name]] *)
  process_env : string -> option string;
  (** [defineString(name, ...).value()] *)
  firebase_param : string -> string;
  (** the [message] of an exception the engine raised itself *)
  engine_message : error -> string;
  (** [(await axios.post(url, data, {params})).data], or the rejection *)
  axios_post : string -> val -> list (string * val) -> result val;
  (** [(await axios.get(url, {params})).data], or the rejection *)
  axios_get : string -> list (string * val) -> result val
}.

(** [e.message] *)
Definition message `{Host} (e : error) : string :=
  match e with
  | Error m | AxiosError m _ => m
  | _ => engine_message e
  end.

(** [v > n] against a number literal: ToPrimitive with hint number, then
    ToNumber; a comparison with NaN is false. *)
Definition gt `{Host} (v : val) (n : Z) : result bool :=
  match v with
  | VUndef => Ok false
  | VNull => Ok (0 >? n)
  | VBool b => Ok ((if b then 1 else 0) >? n)
  | VNum x => Ok (x >? n)
  | VStr s => Ok (StringToNumber_gt s n)
  | VArr _ => s <- ToString v ;; Ok (StringToNumber_gt s n)
  | VObj _ => _ <- ToString v ;; Ok false
  end.

(** Outbound HTTP calls one request performed, oldest first. *)
Inductive call : Type :=
| POST (url : string) (data : val) (params : list (string * val))
| GET (url : string) (params : list (string * val)).

(** An asynchronous computation: the calls it made and how it completed. *)
Definition io (A : Type) : Type := list call * result A.

Definition pure {A : Type} (r : result A) : io A := ([], r).

Definition io_bind {A B : Type} (m : io A) (k : A -> io B) : io B :=
  match m with
  | (t, Ok a) => let (t', r) := k a in ((t ++ t')%list, r)
  | (t, Throw e) => (t, Throw e)
  end.

(** [try { m } catch (e) { h e }] *)
Definition try_catch {A : Type} (m : io A) (h : error -> io A) : io A :=
  match m with
  | (t, Ok a) => (t, Ok a)
  | (t, Throw e) => let (t', r) := h e in ((t ++ t')%list, r)
  end.

Notation "x <~ c ;; k" := (io_bind c (fun x => k))
  (at level 61, c at next level, right associativity).

End JS.
Import JS.

(* ================================================================= *)
(** ** functions/src/utils/config.js *)

Module Config.
Section WithHost.
Context `{Host}.

Definition isTestMode : bool :=
  match process_env "NODE_ENV" with
  | Some v => String.eqb v "test"
  | None => false
  end.

(** [process.env[name] || fallback] *)
Definition env_or (name fallback : string) : string :=
  match process_env name with
  | Some v => if String.eqb v "" then fallback else v
  | None => fallback
  end.

Definition getDiscordWebhookUrl : string :=
  if isTestMode then env_or "DISCORD_WEBHOOK_URL_TEST" ""
  else firebase_param "DISCORD_WEBHOOK_URL".

Definition getGithubSecret : string :=
  if isTestMode then env_or "GITHUB_SECRET_TEST" ""
  else firebase_param "GITHUB_SECRET".

Definition getTrelloApiKey : string :=
  if isTestMode then env_or "TRELLO_API_KEY_TEST" ""
  else firebase_param "TRELLO_API_KEY".

Definition getTrelloApiUrl : string :=
  if isTestMode then env_or "TRELLO_API_URL_TEST" "http://localhost:5000/trello-mock-api"
  else firebase_param "TRELLO_API_URL".

Definition getTrelloSecret : string :=
  if isTestMode then env_or "TRELLO_SECRET_TEST" ""
  else firebase_param "TRELLO_SECRET".

(** The keys of the [FIREBASE_PARAMS] table *)
Definition FIREBASE_PARAMS : list string :=
  [ "DISCORD_WEBHOOK_URL"; "GITHUB_SECRET"; "TRELLO_API_KEY"; "TRELLO_SECRET";
    "TRELLO_API_URL" ].

(** [getConfig(name, defaultValue)]: outside test mode [FIREBASE_PARAMS[name]]
    is [undefined] for any other name, or has no callable [value], and the
    call throws. *)
Definition getConfig (name defaultValue : string) : result string :=
  if isTestMode then Ok (env_or (name ++ "_TEST") defaultValue)
  else if existsb (String.eqb name) FIREBASE_PARAMS then Ok (firebase_param name)
  else Throw TypeError.

End WithHost.
End Config.

(* ================================================================= *)
(** ** functions/src/utils/discord.js *)

Module Discord.

Record Footer : Type := { text : string; footer_icon_url : string }.
Record Author : Type := { author_name : val; author_url : val; icon_url : val }.
Record Field : Type := { name : string; value : val; inline : option bool }.

(** A Discord embed, the notification card. *)
Record Card : Type := {
  title : string;
  description : string;
  url : val;
  color : Z;
  timestamp : string;
  footer : Footer;
  author : option Author;
  fields : list Field
}.

Definition Field_val (f : Field) : val :=
  VObj ([("name", VStr (name f)); ("value", value f)]
        ++ match inline f with Some b => [("inline", VBool b)] | None => [] end)%list.

Definition Card_val (c : Card) : val :=
  VObj ([("title", VStr (title c)); ("description", VStr (description c));
         ("url", url c); ("color", VNum (color c)); ("timestamp", VStr (timestamp c));
         ("footer", VObj [("text", VStr (text (footer c)));
                          ("icon_url", VStr (footer_icon_url (footer c)))])]
        ++ match author c with
           | Some a => [("author", VObj [("name", author_name a); ("url", author_url a);
                                         ("icon_url", icon_url a)])]
           | None => []
           end
        ++ [("fields", VArr (map Field_val (fields c)))])%list.

Definition LF : ascii := "010"%char.

Section WithHost.
Context `{Host}.

(** [b.length > 1000 ? b.substring(0, 997) + "..." : b], the expression every
    body and comment goes through. *)
Definition truncate (b : val) : result val :=
  len <- get b "length" ;;
  long <- gt len 1000 ;;
  if long then s <- substring0 b 997 ;; Ok (VStr (s ++ "...")) else Ok b.

(** The callback of [commits.forEach] in the push branch. *)
Definition commit_field (commit : val) : result Field :=
  id <- get commit "id" ;;
  short <- substring0 id 7 ;;
  message <- get commit "message" ;;
  lines <- split message LF ;;
  u <- get commit "url" ;;
  us <- ToString u ;;
  a <- get commit "author" ;;
  an <- get a "name" ;;
  ans <- ToString an ;;
  Ok {| name := short;
        value := VStr ("[" ++ nth 0 lines "" ++ "](" ++ us ++ ") - " ++ ans);
        inline := None |}.

(** [l.forEach(c => fields.push(f c))], stopping at the first exception. *)
Fixpoint forEach_push (f : val -> result Field) (l : list val) (fields : list Field)
  : result (list Field) :=
  match l with
  | [] => Ok fields
  | c :: r => x <- f c ;; forEach_push f r (fields ++ [x])%list
  end.

Definition GitHub_footer : Footer :=
  {| text := "GitHub";
     footer_icon_url := "https://github.githubassets.com/assets/GitHub-Mark-ea2971cee799.png" |}.

(** [payload.sender ? payload.sender.k : fallback] *)
Definition sender_or (payload : val) (k : string) (fallback : val) : result val :=
  sender <- get payload "sender" ;;
  if truthy sender then get sender k else Ok fallback.

Definition formatGitHubMessage (payload : val) (eventType : string) : result Card :=
  a_name <- sender_or payload "login" (VStr "Unknown") ;;
  a_url <- sender_or payload "html_url" (VStr "") ;;
  a_icon <- sender_or payload "avatar_url" (VStr "") ;;
  let embed :=
    {| title := ""; description := ""; url := VStr ""; color := 0x2EA44F;
       timestamp := Date_now_toISOString; footer := GitHub_footer;
       author := Some {| author_name := a_name; author_url := a_url; icon_url := a_icon |};
       fields := [] |} in
  let set t d u c fs :=
    {| title := t; description := d; url := u; color := c;
       timestamp := timestamp embed; footer := footer embed; author := author embed;
       fields := fs |} in
  if String.eqb eventType "push" then
    ref <- get payload "ref" ;;
    branch <- replace ref "refs/heads/" "" ;;
    repo <- get payload "repository" ;;
    rn <- get repo "name" ;;
    rs <- ToString rn ;;
    let t := "[" ++ rs ++ "] Push to " ++ branch in
    compare <- get payload "compare" ;;
    all <- get payload "commits" ;;
    commits <- slice0 all 5 ;;
    len <- get commits "length" ;;
    some <- gt len 0 ;;
    if some then
      total <- get all "length" ;;
      ts <- ToString total ;;
      let d := ts ++ " commit(s) pushed" in
      match commits, total with
      | VArr l, VNum n =>
          fs <- forEach_push commit_field l [] ;;
          if n >? 5 then
            Ok (set t d compare (color embed)
                  (fs ++ [{| name := "...";
                             value := VStr (Number_toString (n - 5) ++ " more commits not shown");
                             inline := None |}])%list)
          else Ok (set t d compare (color embed) fs)
      | _, _ => Throw TypeError   (* a string has [slice] but no [forEach] *)
      end
    else Ok (set t "" compare (color embed) [])
  else if String.eqb eventType "pull_request" then
    action <- get payload "action" ;;
    repo <- get payload "repository" ;;
    rn <- get repo "name" ;;
    rs <- ToString rn ;;
    acts <- ToString action ;;
    let t := "[" ++ rs ++ "] Pull Request " ++ acts in
    pr <- get payload "pull_request" ;;
    u <- get pr "html_url" ;;
    num <- get pr "number" ;;
    nums <- ToString num ;;
    ti <- get pr "title" ;;
    tis <- ToString ti ;;
    us <- ToString u ;;
    let d := "[#" ++ nums ++ ": " ++ tis ++ "](" ++ us ++ ")" in
    state <- get pr "state" ;;
    merged <- get pr "merged" ;;
    let fs := [ {| name := "State"; value := state; inline := Some true |};
                {| name := "Merged"; value := VStr (if truthy merged then "Yes" else "No");
                   inline := Some true |} ] in
    body <- get pr "body" ;;
    if truthy body then
      dv <- truncate body ;;
      Ok (set t d u (color embed)
            (fs ++ [{| name := "Description"; value := dv; inline := None |}])%list)
    else Ok (set t d u (color embed) fs)
  else if String.eqb eventType "issues" then
    repo <- get payload "repository" ;;
    rn <- get repo "name" ;;
    rs <- ToString rn ;;
    action <- get payload "action" ;;
    acts <- ToString action ;;
    let t := "[" ++ rs ++ "] Issue " ++ acts in
    issue <- get payload "issue" ;;
    u <- get issue "html_url" ;;
    num <- get issue "number" ;;
    nums <- ToString num ;;
    ti <- get issue "title" ;;
    tis <- ToString ti ;;
    us <- ToString u ;;
    let d := "[#" ++ nums ++ ": " ++ tis ++ "](" ++ us ++ ")" in
    body <- get issue "body" ;;
    if truthy body then
      dv <- truncate body ;;
      Ok (set t d u 0xE99455 [{| name := "Description"; value := dv; inline := None |}])
    else Ok (set t d u 0xE99455 [])
  else if String.eqb eventType "issue_comment" then
    repo <- get payload "repository" ;;
    rn <- get repo "name" ;;
    rs <- ToString rn ;;
    issue <- get payload "issue" ;;
    num <- get issue "number" ;;
    nums <- ToString num ;;
    let t := "[" ++ rs ++ "] Comment on issue #" ++ nums in
    comment <- get payload "comment" ;;
    u <- get comment "html_url" ;;
    user <- get comment "user" ;;
    login <- get user "login" ;;
    logins <- ToString login ;;
    ti <- get issue "title" ;;
    tis <- ToString ti ;;
    iu <- get issue "html_url" ;;
    ius <- ToString iu ;;
    let d := logins ++ " commented on [#" ++ nums ++ ": " ++ tis ++ "](" ++ ius ++ ")" in
    body <- get comment "body" ;;
    if truthy body then
      cv <- truncate body ;;
      Ok (set t d u (color embed) [{| name := "Comment"; value := cv; inline := None |}])
    else Ok (set t d u (color embed) [])
  else
    repo <- get payload "repository" ;;
    rn <- get repo "name" ;;
    rs <- ToString rn ;;
    Ok (set ("[" ++ rs ++ "] " ++ eventType ++ " event received") "Unsupported event type"
          (url embed) (color embed) []).

Definition Trello_footer : Footer :=
  {| text := "Trello";
     footer_icon_url := "https://d2k1ftgv7pobq7.cloudfront.net/meta/u/res/images/trello-header-logos/76ceb1faa939ede03abacb6efacdde16/trello-logo-blue.svg" |}.

Definition filteredTypes : list string :=
  [ "createCheckItem"; "updateCheckItem"; "addAttachmentToCard";
    "addChecklistToCard"; "updateCheckItemStateOnCard" ].

(** [l.includes(v)] on a list of string literals *)
Definition includes (l : list string) (v : val) : bool :=
  match v with
  | VStr s => existsb (String.eqb s) l
  | _ => false
  end.

(** [v === "lit"], the test of a [case] label *)
Definition strict_eq (v : val) (lit : string) : bool :=
  match v with
  | VStr s => String.eqb s lit
  | _ => false
  end.

(** [`[${action.data.card.name}](${data.model.url})`], the tail of every
    card description. *)
Definition card_link (action data : val) : result string :=
  adata <- get action "data" ;;
  card <- get adata "card" ;;
  cn <- get card "name" ;;
  cns <- ToString cn ;;
  model <- get data "model" ;;
  mu <- get model "url" ;;
  mus <- ToString mu ;;
  Ok ("[" ++ cns ++ "](" ++ mus ++ ")").

(** [new Date(v).toLocaleString()]: the constructor first takes an array or
    an object to a primitive, as [ToString] does. *)
Definition toLocaleString (v : val) : result string :=
  match v with
  | VArr _ | VObj _ => s <- ToString v ;; Ok (Date_toLocaleString (VStr s))
  | _ => Ok (Date_toLocaleString v)
  end.

(** [v ? new Date(v).toLocaleString() : "None"] *)
Definition due_text (v : val) : result string :=
  if truthy v then toLocaleString v else Ok "None".

(** [None] is the source's [null]: acknowledge, do not relay. *)
Definition formatTrelloMessage (data : val) : result (option Card) :=
  action <- get data "action" ;;
  actionType <- (if truthy action then get action "type" else Ok VUndef) ;;
  (* [data.model?.url || ""] is read by both object literals below; [data]
     is not nullish past the first line, so the read cannot throw *)
  model <- get data "model" ;;
  mu <- get_opt model "url" ;;
  let embed t d fs :=
    {| title := t; description := d; url := or_else mu (VStr ""); color := 0x0079BF;
       timestamp := Date_now_toISOString; footer := Trello_footer; author := None;
       fields := fs |} in
  if negb (truthy action) || negb (truthy actionType) then
    Ok (Some (embed "Trello Activity" "Unrecognized Trello event" []))
  else if includes filteredTypes actionType then Ok None
  else
    mc <- get action "memberCreator" ;;
    memberName <- (if truthy mc then get mc "fullName" else Ok (VStr "Unknown")) ;;
    if strict_eq actionType "createCard" then
      ms <- ToString memberName ;;
      link <- card_link action data ;;
      adata <- get action "data" ;;
      list <- get adata "list" ;;
      if truthy list then
        ln <- get list "name" ;;
        Ok (Some (embed "Card Created" (ms ++ " created card " ++ link)
                    [{| name := "List"; value := ln; inline := Some true |}]))
      else Ok (Some (embed "Card Created" (ms ++ " created card " ++ link) []))
    else if strict_eq actionType "updateCard" then
      adata <- get action "data" ;;
      before <- get adata "listBefore" ;;
      after <- (if truthy before then get adata "listAfter" else Ok before) ;;
      if truthy before && truthy after then
        ms <- ToString memberName ;;
        link <- card_link action data ;;
        bn <- get before "name" ;;
        an <- get after "name" ;;
        Ok (Some (embed "Card Moved" (ms ++ " moved card " ++ link)
                    [{| name := "From"; value := bn; inline := Some true |};
                     {| name := "To"; value := an; inline := Some true |}]))
      else
        old <- get adata "old" ;;
        due_changed <- (if truthy old then hasOwnProperty old "due" else Ok false) ;;
        if due_changed then
          ms <- ToString memberName ;;
          link <- card_link action data ;;
          card <- get adata "card" ;;
          due <- get card "due" ;;
          newDue <- due_text due ;;
          odue <- get old "due" ;;
          oldDue <- due_text odue ;;
          Ok (Some (embed "Due Date Changed" (ms ++ " updated due date for card " ++ link)
                      [{| name := "From"; value := VStr oldDue; inline := Some true |};
                       {| name := "To"; value := VStr newDue; inline := Some true |}]))
        else
          ms <- ToString memberName ;;
          link <- card_link action data ;;
          Ok (Some (embed "Card Updated" (ms ++ " updated card " ++ link) []))
    else if strict_eq actionType "commentCard" then
      ms <- ToString memberName ;;
      link <- card_link action data ;;
      adata <- get action "data" ;;
      txt <- get adata "text" ;;
      if truthy txt then
        cv <- truncate txt ;;
        Ok (Some (embed "Comment Added" (ms ++ " commented on card " ++ link)
                    [{| name := "Comment"; value := cv; inline := None |}]))
      else Ok (Some (embed "Comment Added" (ms ++ " commented on card " ++ link) []))
    else if strict_eq actionType "addMemberToCard" then
      ms <- ToString memberName ;;
      adata <- get action "data" ;;
      member <- get adata "member" ;;
      mn <- get member "name" ;;
      mns <- ToString mn ;;
      link <- card_link action data ;;
      Ok (Some (embed "Member Added to Card" (ms ++ " added " ++ mns ++ " to card " ++ link) []))
    else if strict_eq actionType "removeMemberFromCard" then
      ms <- ToString memberName ;;
      adata <- get action "data" ;;
      member <- get adata "member" ;;
      mn <- get member "name" ;;
      mns <- ToString mn ;;
      link <- card_link action data ;;
      Ok (Some (embed "Member Removed from Card"
                  (ms ++ " removed " ++ mns ++ " from card " ++ link) []))
    else if strict_eq actionType "addLabelToCard" then
      ms <- ToString memberName ;;
      link <- card_link action data ;;
      adata <- get action "data" ;;
      label <- get adata "label" ;;
      if truthy label then
        ln <- get label "name" ;;
        lc <- get label "color" ;;
        Ok (Some (embed "Label Added" (ms ++ " added label to card " ++ link)
                    [{| name := "Label"; value := or_else ln lc; inline := Some true |}]))
      else Ok (Some (embed "Label Added" (ms ++ " added label to card " ++ link) []))
    else
      ms <- ToString memberName ;;
      ts <- ToString actionType ;;
      Ok (Some (embed "Trello Activity" (ms ++ " performed action: " ++ ts) [])).

(** Names bound where the [catch] block of [sendDiscordMessage] runs: the
    catch parameter, the function's parameters, the module's own bindings.
    [payload] is declared with [const] inside the [try] block and is not in
    scope there. *)
Definition catch_scope (webhookUrl : string) (embed : Card) (e : error)
  : list (string * val) :=
  [ ("error", VObj [("message", VStr (message e))]);
    ("webhookUrl", VStr webhookUrl);
    ("embed", Card_val embed);
    ("axios", VObj []); ("config", VObj []);
    ("sendDiscordMessage", VObj []); ("formatGitHubMessage", VObj []);
    ("formatTrelloMessage", VObj []) ].

(** Evaluation of an identifier reference. *)
Definition resolve (scope : list (string * val)) (x : string) : result val :=
  match own scope x with
  | Some v => Ok v
  | None => Throw (ReferenceError x)
  end.

Definition sendDiscordMessage (webhookUrl : string) (embed : Card) : io val :=
  let payload := VObj [("embeds", VArr [Card_val embed])] in
  try_catch
    ([POST webhookUrl payload []], axios_post webhookUrl payload [])
    (fun error =>
       if Config.isTestMode then
         let scope := catch_scope webhookUrl embed error in
         pure (echo <- resolve scope "payload" ;;
               Ok (VObj [("success", VBool true); ("echo", echo);
                         ("mocked", VBool true); ("error", VStr (message error))]))
       else pure (Throw error)).

End WithHost.
End Discord.

(* ================================================================= *)
(** ** Express requests and responses *)

Module Express.

Record Request : Type := {
  method : string;
  (** header names in lower case, as Node delivers them *)
  headers : list (string * string);
  (** the parsed JSON body *)
  body : val;
  (** the parsed query string *)
  query : list (string * string);
  protocol : string;
  hostname : string
}.

Fixpoint lookup (m : list (string * string)) (k : string) : option string :=
  match m with
  | [] => None
  | (k', v) :: m' => if String.eqb k' k then Some v else lookup m' k
  end.

(** ToBoolean of a header or query value that may be missing *)
Definition present (v : option string) : bool :=
  match v with
  | Some s => negb (String.eqb s "")
  | None => false
  end.

(** Pages [registerBoard] renders, by the values interpolated into their
    markup. *)
Inductive page : Type :=
| TokenPromotionPage (boardId : string)
| SuccessPage (details : string)
| ErrorPage (message details boardId : string).

(** The one response a handler sends. *)
Inductive reply : Type :=
| Send (status : Z) (text : string)       (* [res.status(n).send(text)]  *)
| SendPage (status : Z) (html : page)     (* [res.status(n).send(`<html>...`)] *)
| Json (status : Z) (v : val)             (* [res.status(n).json(v)]     *)
| Redirect (status : Z) (location : string) (* [res.redirect(url)]       *)
| End_ (status : Z).                      (* [res.status(n).end()]       *)

End Express.
Import Express.

(* ================================================================= *)
(** ** Node's Buffer and crypto.timingSafeEqual *)

Module Node.

(** UTF-8 bytes of one code unit below 256 *)
Definition utf8 (c : ascii) : list N :=
  let n := N_of_ascii c in
  if (n <? 128)%N then [n] else [192 + n / 64; 128 + n mod 64]%N.

(** [Buffer.from(s)] *)
Fixpoint Buffer_from (s : string) : list N :=
  match s with
  | EmptyString => []
  | String c r => (utf8 c ++ Buffer_from r)%list
  end.

Fixpoint bytes_eqb (a b : list N) : bool :=
  match a, b with
  | [], [] => true
  | x :: a', y :: b' => (x =? y)%N && bytes_eqb a' b'
  | _, _ => false
  end.

(** [crypto.timingSafeEqual(a, b)]: buffers of different byte length are an
    error, not a mismatch. *)
Definition timingSafeEqual (a b : list N) : result bool :=
  if Nat.eqb (List.length a) (List.length b) then Ok (bytes_eqb a b)
  else Throw RangeError.

End Node.

(* ================================================================= *)
(** ** functions/src/github/webhook.js *)

Module GitHub.
Section WithHost.
Context `{Host}.

Definition verifyGitHubSignature (req : Request) (secret : string) : result bool :=
  if String.eqb secret "" then Ok true
  else
    let signature := lookup (headers req) "x-hub-signature-256" in
    match signature with
    | None => Ok false
    | Some sig =>
        if String.eqb sig "" then Ok false
        else
          match body req with
          | VUndef => Throw TypeError   (* [hmac.update(undefined)] *)
          | b =>
              let digest := "sha256=" ++ hmac_sha256_hex secret (JSON_stringify b) in
              Node.timingSafeEqual (Node.Buffer_from sig) (Node.Buffer_from digest)
          end
    end.

Definition supportedEvents : list string :=
  [ "push"; "pull_request"; "issues"; "issue_comment" ].

Definition handleWebhook (req : Request) (discordWebhookUrl secret : string) : io reply :=
  if negb (String.eqb (method req) "POST") then pure (Ok (Send 405 "Method not allowed"))
  else
    invalid <~ pure (if negb (String.eqb secret "") && negb Config.isTestMode
                     then ok <- verifyGitHubSignature req secret ;; Ok (negb ok)
                     else Ok false) ;;
    if (invalid : bool) then pure (Ok (Send 403 "Invalid signature"))
    else
      let eventType := lookup (headers req) "x-github-event" in
      match eventType with
      | None => pure (Ok (Send 400 "No event type specified"))
      | Some ev =>
          if String.eqb ev "" then pure (Ok (Send 400 "No event type specified"))
          else if existsb (String.eqb ev) supportedEvents then
            let payload := body req in
            try_catch
              (embed <~ pure (Discord.formatGitHubMessage payload ev) ;;
               discordResponse <~ Discord.sendDiscordMessage discordWebhookUrl embed ;;
               if Config.isTestMode then
                 pure (Ok (Json 200 (VObj [("message", VStr "Webhook processed successfully");
                                           ("discord_response", discordResponse)])))
               else pure (Ok (Send 200 "Webhook processed successfully")))
              (fun _ => pure (Ok (Send 500 "Error processing webhook")))
          else pure (Ok (Send 202 "Event type not processed"))
      end.

End WithHost.
End GitHub.

(* ================================================================= *)
(** ** functions/src/trello/integration.js *)

Module Trello.
Section WithHost.
Context `{Host}.

Definition handleTrelloEvent (req : Request) (discordWebhookUrl : string) : io reply :=
  shapeless <~ pure (if negb Config.isTestMode then
                       if negb (truthy (body req)) then Ok true
                       else a <- get (body req) "action" ;; Ok (negb (truthy a))
                     else Ok false) ;;
  if (shapeless : bool) then pure (Ok (Send 400 "Invalid Trello payload"))
  else
    try_catch
      (embed <~ pure (Discord.formatTrelloMessage (body req)) ;;
       match embed with
       | None => pure (Ok (Send 200 "Trello event filtered (notification not sent)"))
       | Some card =>
           discordResponse <~ Discord.sendDiscordMessage discordWebhookUrl card ;;
           if Config.isTestMode then
             pure (Ok (Json 200 (VObj [("message", VStr "Trello event processed successfully");
                                       ("discord_response", discordResponse)])))
           else pure (Ok (Send 200 "Trello event processed successfully"))
       end)
      (fun _ => pure (Ok (Send 500 "Error processing Trello event"))).

Definition handleTrelloWebhookVerification (req : Request) : reply :=
  if String.eqb (method req) "HEAD" then Send 200 "Webhook verification successful"
  else Send 405 "Method not allowed".

End WithHost.
End Trello.

(* ================================================================= *)
(** ** functions/src/trello/registration.js *)

Module Registration.

Definition in_range (lo hi n : N) : bool := ((lo <=? n) && (n <=? hi))%N.

(** Characters [encodeURIComponent] leaves alone *)
Definition unreserved (c : ascii) : bool :=
  let n := N_of_ascii c in
  in_range 65 90 n || in_range 97 122 n || in_range 48 57 n
  || existsb (Ascii.eqb c) (list_ascii_of_string "-_.!~*'()").

Definition hex_digit (n : N) : ascii :=
  nth (N.to_nat n) (list_ascii_of_string "0123456789ABCDEF") "0"%char.

Definition percent (b : N) : string :=
  String "%" (String (hex_digit (b / 16)) (String (hex_digit (b mod 16)) EmptyString)).

Fixpoint encodeURIComponent (s : string) : string :=
  match s with
  | EmptyString => EmptyString
  | String c r =>
      (if unreserved c then String c EmptyString
       else String.concat "" (map percent (Node.utf8 c)))
      ++ encodeURIComponent r
  end.

Section WithHost.
Context `{Host}.

(** [e.response?.data] *)
Definition response_data (e : error) : val :=
  match e with
  | AxiosError _ d => d
  | _ => VUndef
  end.

(** The third hop: both [boardId] and [token] arrived as query parameters. *)
Definition registerWebhook (req : Request) (boardId token apiKey : string) : io reply :=
  let baseUrl := protocol req ++ "://" ++ hostname req in
  let callbackUrl := baseUrl ++ "/trelloNotification" in
  let description :=
    "Discord notification webhook (created: " ++ Date_now_toISOString ++ ")" in
  try_catch
    (let trelloApiUrl := Config.getTrelloApiUrl in
     let board_url := trelloApiUrl ++ "/boards/" ++ boardId in
     let board_params :=
       [("key", VStr apiKey); ("token", VStr token); ("fields", VStr "name,id")] in
     fullBoardId <~
       try_catch
         (data <~ ([GET board_url board_params], axios_get board_url board_params) ;;
          pure (nm <- get data "name" ;;
                _ <- ToString nm ;;
                id <- get data "id" ;;
                _ <- ToString id ;;
                if truthy id then Ok id
                else Throw (Error "Couldn't retrieve the full board ID")))
         (fun boardError =>
            pure (m <- get_opt (response_data boardError) "message" ;;
                  ms <- ToString (or_else m (VStr (message boardError))) ;;
                  Throw (Error ("Board verification failed: " ++ ms
                                ++ ". Make sure the board ID is correct and you have access to it.")))) ;;
     let webhookData :=
       VObj [("callbackURL", VStr callbackUrl); ("idModel", fullBoardId);
             ("description", VStr description)] in
     let hook_url := trelloApiUrl ++ "/webhooks" in
     let hook_params := [("key", VStr apiKey); ("token", VStr token)] in
     response <~ ([POST hook_url webhookData hook_params],
                  axios_post hook_url webhookData hook_params) ;;
     pure (Ok (SendPage 200 (SuccessPage (JSON_stringify_pretty response)))))
    (fun trelloError =>
       pure (Ok (SendPage 500
                   (ErrorPage (message trelloError)
                      (JSON_stringify_pretty (or_else (response_data trelloError) (VObj [])))
                      boardId)))).

(** No token among the query parameters: either the return from the
    authorization page, recognised by its referer, or the first visit. *)
Definition authorize (req : Request) (boardId apiKey : string) : io reply :=
  let referer := lookup (headers req) "referer" in
  if present referer
     && String_includes (match referer with Some r => r | None => "" end)
          "trello.com/1/authorize"
  then pure (Ok (SendPage 200 (TokenPromotionPage boardId)))
  else
    let redirectUri :=
      protocol req ++ "://" ++ hostname req ++ "/registerTrelloBoard?boardId=" ++ boardId in
    let scope := "read,write" in
    let expiration := "never" in
    let name := "Discord Notifications" in
    let trelloApiUrl := Config.getTrelloApiUrl in
    let trelloDomain :=
      if String_includes trelloApiUrl "localhost" then trelloApiUrl else "https://trello.com" in
    let authUrl :=
      trelloDomain ++ "/1/authorize?expiration=" ++ expiration ++ "&scope=" ++ scope
      ++ "&response_type=token&name=" ++ encodeURIComponent name ++ "&key=" ++ apiKey
      ++ "&return_url=" ++ encodeURIComponent redirectUri in
    pure (Ok (Redirect 302 authUrl)).

Definition registerBoard (req : Request) : io reply :=
  try_catch
    (match lookup (query req) "boardId" with
     | None =>
         pure (Ok (Json 400 (VObj [("error", VStr "Missing required parameter: boardId");
                                   ("usage", VStr "Add ?boardId=YOUR_BOARD_ID to the URL")])))
     | Some boardId =>
         if String.eqb boardId "" then
           pure (Ok (Json 400 (VObj [("error", VStr "Missing required parameter: boardId");
                                     ("usage", VStr "Add ?boardId=YOUR_BOARD_ID to the URL")])))
         else
           let token := lookup (query req) "token" in
           let apiKey := Config.getTrelloApiKey in
           if String.eqb apiKey "" then
             pure (Ok (Json 500
                         (VObj [("error", VStr "Trello API key not configured");
                                ("message", VStr "The server administrator needs to set up a Trello API key first.")])))
           else
             match token with
             | Some tok =>
                 if String.eqb tok "" then authorize req boardId apiKey
                 else registerWebhook req boardId tok apiKey
             | None => authorize req boardId apiKey
             end
     end)
    (fun error =>
       pure (Ok (Json 500 (VObj [("error", VStr "Server error");
                                 ("message", VStr (message error))])))).

End WithHost.
End Registration.

(* ================================================================= *)
(** ** The script of the token promotion page, and the request it causes *)

Module Browser.

Definition amp : ascii := "&"%char.

(** The longest prefix free of [&]: what [[^&]+] captures. *)
Fixpoint span_token (s : string) : string :=
  match s with
  | EmptyString => EmptyString
  | String c r => if Ascii.eqb c amp then EmptyString else String c (span_token r)
  end.

Definition drop (n : nat) (s : string) : string :=
  String.substring n (String.length s - n) s.

(** [hash.match(/#token=([^&]+)/)], the capture of the leftmost match *)
Fixpoint tokenMatch (hash : string) : option string :=
  match hash with
  | EmptyString => None
  | String _ r =>
      let captured := span_token (drop 7 hash) in
      if String_startsWith hash "#token=" && negb (String.eqb captured "")
      then Some captured
      else tokenMatch r
  end.

(** Characters that end or escape a double-quoted string literal *)
Definition breaks_literal (c : ascii) : bool :=
  existsb (Ascii.eqb c) ["034"; "092"; "010"; "013"]%char.

Fixpoint plain_literal (s : string) : bool :=
  match s with
  | EmptyString => true
  | String c r => negb (breaks_literal c) && plain_literal r
  end.

(** Value of the literal the server wrote as [const boardId = "${boardId}"]:
    the text itself when nothing in it ends or escapes the literal. A text
    that does is another program than the one in the source and has no
    value here. *)
Definition boardId_literal (text : string) : option string :=
  if plain_literal text && negb (String_includes text "</script")
  then Some text else None.

(** The script of the page, run at a location whose fragment is [hash]: the
    address assigned to [window.location.href], if any. *)
Definition run (p : page) (hash : string) : option string :=
  match p with
  | TokenPromotionPage text =>
      match tokenMatch hash, boardId_literal text with
      | Some token, Some boardId =>
          Some ("/registerTrelloBoard?boardId=" ++ boardId ++ "&token=" ++ token)
      | _, _ => None
      end
  | _ => None
  end.

(** Path and query of the request a navigation to [href] sends: the fragment
    stays in the browser. *)
Definition request_target (href : string) : string * string :=
  let sent := before "#" href in
  (before "?" sent, after "?" sent).

Definition hex_value (c : ascii) : option N :=
  let n := N_of_ascii c in
  if Registration.in_range 48 57 n then Some (n - 48)%N
  else if Registration.in_range 65 70 n then Some (n - 55)%N
  else if Registration.in_range 97 102 n then Some (n - 87)%N
  else None.

(** Decoding of one query component: [+] is a space and [%XX] a byte (exact
    for escapes of ASCII characters). *)
Fixpoint decode (s : string) : string :=
  match s with
  | EmptyString => EmptyString
  | String c r =>
      if Ascii.eqb c "+" then String " " (decode r)
      else
        match c, r with
        | "%"%char, String h (String l r') =>
            match hex_value h, hex_value l with
            | Some x, Some y =>
                if (16 * x + y <? 128)%N then String (ascii_of_N (16 * x + y)) (decode r')
                else String c (decode r)
            | _, _ => String c (decode r)
            end
        | _, _ => String c (decode r)
        end
  end.

Definition parse_pair (p : string) : string * string :=
  (decode (before "=" p), decode (after "=" p)).

(** The flat part of Express's query parser: pairs split at [&], each at its
    first [=]. *)
Definition parse_query (q : string) : list (string * string) :=
  map parse_pair
      (filter (fun p => negb (String.eqb p "")) (JS.String_split amp q)).

End Browser.

(* ================================================================= *)
(** ** functions/index.js *)

Module Index.
Section WithHost.
Context `{Host}.

Definition githubNotification (req : Request) : io reply :=
  try_catch
    (let webhookUrl := Config.getDiscordWebhookUrl in
     let githubSecret := Config.getGithubSecret in
     GitHub.handleWebhook req webhookUrl githubSecret)
    (fun _ => pure (Ok (Send 500 "Error processing webhook"))).

Definition trelloNotification (req : Request) : io reply :=
  try_catch
    (if String.eqb (method req) "HEAD" then pure (Ok (End_ 200))
     else if String.eqb (method req) "GET" then
       pure (Ok (Send 200 "Webhook validation successful"))
     else
       let webhookUrl := Config.getDiscordWebhookUrl in
       Trello.handleTrelloEvent req webhookUrl)
    (fun _ => pure (Ok (Send 500 "Error processing Trello event"))).

Definition registerTrelloBoard (req : Request) : io reply :=
  Registration.registerBoard req.

End WithHost.
End Index.

(* ================================================================= *)
(** ** Payload shapes

    The senders' payload formats, as far as the formatters read them. A
    field that is missing reads as [undefined]. *)

Module Shape.

Definition field (v : val) (k : string) : val :=
  match get v k with
  | Ok x => x
  | Throw _ => VUndef
  end.

Definition is_object (v : val) : bool :=
  match v with VObj _ => true | _ => false end.

Definition is_string (v : val) : bool :=
  match v with VStr _ => true | _ => false end.

(** A leaf: anything but an array or an object. *)
Definition scalar (v : val) : bool :=
  match v with VArr _ | VObj _ => false | _ => true end.

(** A text that may be missing, [null] or empty. *)
Definition optional_text (v : val) : bool :=
  is_string v || negb (truthy v).

(** The text of a string, and the printed form of a leaf. *)
Definition str (v : val) : string :=
  match v with VStr s => s | _ => "" end.

Definition text (v : val) : string :=
  match ToString v with Ok s => s | Throw _ => "" end.

Definition repository_ok (payload : val) : bool :=
  is_object payload
  && is_object (field payload "repository")
  && scalar (field (field payload "repository") "name").

Definition commit_ok (c : val) : bool :=
  is_object c
  && is_string (field c "id") && is_string (field c "message")
  && scalar (field c "url")
  && is_object (field c "author") && scalar (field (field c "author") "name").

Definition commits_of (payload : val) : list val :=
  match field payload "commits" with VArr l => l | _ => [] end.

Definition push_ok (payload : val) : bool :=
  is_string (field payload "ref")
  && match field payload "commits" with
     | VArr l => forallb commit_ok l
     | _ => false
     end.

(** A pull request or an issue *)
Definition thread_ok (t : val) : bool :=
  is_object t
  && scalar (field t "number") && scalar (field t "title") && scalar (field t "html_url").

Definition pull_request_ok (payload : val) : bool :=
  scalar (field payload "action")
  && thread_ok (field payload "pull_request")
  && optional_text (field (field payload "pull_request") "body").

Definition issues_ok (payload : val) : bool :=
  scalar (field payload "action")
  && thread_ok (field payload "issue")
  && optional_text (field (field payload "issue") "body").

Definition issue_comment_ok (payload : val) : bool :=
  thread_ok (field payload "issue")
  && let comment := field payload "comment" in
     is_object comment
     && is_object (field comment "user") && scalar (field (field comment "user") "login")
     && optional_text (field comment "body").

(** A payload of the shape GitHub sends for [eventType]. *)
Definition GitHub_payload_ok (eventType : string) (payload : val) : bool :=
  repository_ok payload
  && if String.eqb eventType "push" then push_ok payload
     else if String.eqb eventType "pull_request" then pull_request_ok payload
     else if String.eqb eventType "issues" then issues_ok payload
     else if String.eqb eventType "issue_comment" then issue_comment_ok payload
     else true.

(** [old], the previous values of an updated card *)
Definition old_ok (old : val) : bool :=
  match old with
  | VObj m => negb (has_own m "hasOwnProperty")
  | _ => true
  end
  && scalar (field old "due").

(** A Trello action that is relayed: who did it, to which card, and the
    sub-fields that depend on its type. The list, the label and the comment
    text may each be missing. *)
Definition action_ok (action : val) : bool :=
  let type := field action "type" in
  let creator := field action "memberCreator" in
  let data := field action "data" in
  is_object action && scalar type
  && scalar (field creator "fullName")
  && is_object data
  && is_object (field data "card")
  && scalar (field (field data "card") "name") && scalar (field (field data "card") "due")
  && optional_text (field data "text")
  && old_ok (field data "old")
  && (if Discord.strict_eq type "addMemberToCard" || Discord.strict_eq type "removeMemberFromCard"
      then is_object (field data "member") && scalar (field (field data "member") "name")
      else true).

(** A payload of the shape Trello sends: an object whose action is either
    unusable (no [type]), or filtered, or relayed together with the board as
    [model]. *)
Definition Trello_payload_ok (data : val) : bool :=
  let action := field data "action" in
  is_object data
  && (negb (truthy action) || negb (truthy (field action "type"))
      || Discord.includes Discord.filteredTypes (field action "type")
      || is_object (field data "model") && scalar (field (field data "model") "url")
         && action_ok action).

(** A relayed action: usable, not filtered, and well shaped. *)
Definition relayed (data : val) : Prop :=
  is_object data = true
  /\ is_object (field data "model") = true
  /\ scalar (field (field data "model") "url") = true
  /\ truthy (field (field data "action") "type") = true
  /\ Discord.includes Discord.filteredTypes (field (field data "action") "type") = false
  /\ action_ok (field data "action") = true.

End Shape.
Import Shape.

(* ================================================================= *)
(** ** What the specification says the formatters produce *)

Module Spec.

Definition first_line (message : string) : string := before Discord.LF message.

(** The field of one commit of a push. *)
Definition commit_line (c : val) : Discord.Field :=
  {| Discord.name := String.substring 0 7 (str (field c "id"));
     Discord.value :=
       VStr ("[" ++ first_line (str (field c "message")) ++ "](" ++ text (field c "url")
             ++ ") - " ++ text (field (field c "author") "name"));
     Discord.inline := None |}.

(** The description of a push of the commits [l]. *)
Definition push_description (l : list val) : string :=
  match l with
  | [] => ""
  | _ :: _ => Number_toString (Z.of_nat (List.length l)) ++ " commit(s) pushed"
  end.

(** The field that stands for the commits past the fifth, of [n]. *)
Definition more_commits (n : nat) : list Discord.Field :=
  if (5 <? n)%nat then
    [ {| Discord.name := "...";
         Discord.value := VStr (Number_toString (Z.of_nat n - 5) ++ " more commits not shown");
         Discord.inline := None |} ]
  else [].

(** A body cut to 1000 characters, the last three of them dots. *)
Definition ellipsis (b : string) : string :=
  if (1000 <? String.length b)%nat then String.substring 0 997 b ++ "..." else b.

(** The field of a body or comment, none when it is missing or empty. *)
Definition body_field (label : string) (b : val) : list Discord.Field :=
  if truthy b then
    [ {| Discord.name := label; Discord.value := VStr (ellipsis (str b));
         Discord.inline := None |} ]
  else [].

(** [payload.sender ? payload.sender.k : fallback], on an object *)
Definition sender_value (payload : val) (k : string) (fallback : val) : val :=
  if truthy (field payload "sender") then field (field payload "sender") k else fallback.

(** What every GitHub card shares, around the parts a branch sets. *)
Definition GitHub_card `{Host} (payload : val) (t d : string) (u : val) (c : Z)
    (fs : list Discord.Field) : Discord.Card :=
  {| Discord.title := t; Discord.description := d; Discord.url := u; Discord.color := c;
     Discord.timestamp := Date_now_toISOString; Discord.footer := Discord.GitHub_footer;
     Discord.author :=
       Some {| Discord.author_name := sender_value payload "login" (VStr "Unknown");
               Discord.author_url := sender_value payload "html_url" (VStr "");
               Discord.icon_url := sender_value payload "avatar_url" (VStr "") |};
     Discord.fields := fs |}.

Definition repository_name (payload : val) : string :=
  text (field (field payload "repository") "name").

(** [[#<number>: <title>](<html_url>)], the link to a pull request or issue *)
Definition thread_link (t : val) : string :=
  "[#" ++ text (field t "number") ++ ": " ++ text (field t "title") ++ "]("
  ++ text (field t "html_url") ++ ")".

(** What every Trello card shares. *)
Definition Trello_card `{Host} (data : val) (t d : string) (fs : list Discord.Field)
  : Discord.Card :=
  {| Discord.title := t; Discord.description := d;
     Discord.url := or_else (field (field data "model") "url") (VStr "");
     Discord.color := 0x0079BF;
     Discord.timestamp := Date_now_toISOString; Discord.footer := Discord.Trello_footer;
     Discord.author := None; Discord.fields := fs |}.

(** Who acted: the creator's full name, or [Unknown]. *)
Definition member_name (action : val) : val :=
  let creator := field action "memberCreator" in
  if truthy creator then field creator "fullName" else VStr "Unknown".

(** [[<card name>](<board url>)] *)
Definition card_link (action data : val) : string :=
  "[" ++ text (field (field (field action "data") "card") "name") ++ "]("
  ++ text (field (field data "model") "url") ++ ")".

(** The field of an optional named sub-object (the list of a new card). *)
Definition named_field (label : string) (v : val) : list Discord.Field :=
  if truthy v then
    [ {| Discord.name := label; Discord.value := field v "name";
         Discord.inline := Some true |} ]
  else [].

(** The field of an optional label: its name, or else its colour. *)
Definition label_field (v : val) : list Discord.Field :=
  if truthy v then
    [ {| Discord.name := "Label";
         Discord.value := or_else (field v "name") (field v "color");
         Discord.inline := Some true |} ]
  else [].

(** Characters of a board id that mean nothing to a string literal, to a
    page's markup or to a query string: letters, digits, [-] and [_]. *)
Definition id_char (c : ascii) : bool :=
  let n := N_of_ascii c in
  Registration.in_range 48 57 n || Registration.in_range 65 90 n
  || Registration.in_range 97 122 n || Ascii.eqb c "-" || Ascii.eqb c "_".

Fixpoint plain_id (s : string) : bool :=
  match s with
  | EmptyString => true
  | String c r => id_char c && plain_id r
  end.

(** No character of [s] is [c]. *)
Fixpoint avoids (c : ascii) (s : string) : bool :=
  match s with
  | EmptyString => true
  | String a r => negb (Ascii.eqb a c) && avoids c r
  end.

End Spec.

(* ================================================================= *)
(** ** A deployment to evaluate the handlers in *)

Module Sample.

(** A host in or out of test mode, with the given secret and API key, whose
    every outbound call completes as [network]. The digest is a stand-in of
    the right length. *)
Definition host (test : bool) (secret apiKey : string) (network : result val) : Host :=
  {| StringToNumber_gt := fun _ _ => false;
     Date_toLocaleString := fun _ => "Invalid Date";
     Date_now_toISOString := "2025-01-01T00:00:00.000Z";
     hmac_sha256_hex := fun _ _ =>
       "0000000000000000000000000000000000000000000000000000000000000000";
     JSON_stringify := fun _ => "{}";
     JSON_stringify_pretty := fun _ => "{}";
     process_env := fun n =>
       if String.eqb n "NODE_ENV" then (if test then Some "test" else None)
       else if String.eqb n "DISCORD_WEBHOOK_URL_TEST" then Some "http://localhost:5000/api/webhooks/1/t"
       else if String.eqb n "GITHUB_SECRET_TEST" then Some secret
       else if String.eqb n "TRELLO_API_KEY_TEST" then Some apiKey
       else None;
     firebase_param := fun n =>
       if String.eqb n "DISCORD_WEBHOOK_URL" then "https://discord.com/api/webhooks/1/t"
       else if String.eqb n "GITHUB_SECRET" then secret
       else if String.eqb n "TRELLO_API_KEY" then apiKey
       else if String.eqb n "TRELLO_API_URL" then "https://api.trello.com/1"
       else "";
     engine_message := fun _ => "";
     axios_post := fun _ _ _ => network;
     axios_get := fun _ _ => network |}.

Definition production : Host := host false "s3cret" "key" (Ok (VObj [])).
Definition offline_test : Host := host true "" "key" (Throw (AxiosError "connect ECONNREFUSED" VUndef)).

Definition request (m : string) (hs : list (string * string)) (b : val)
    (q : list (string * string)) : Request :=
  {| method := m; headers := hs; body := b; query := q;
     protocol := "https"; hostname := "example.web.app" |}.

Definition hook : string := "https://discord.com/api/webhooks/1/t".

Definition obj := VObj.
Definition s := VStr.

Definition push (commits : list val) : val :=
  obj [ ("ref", s "refs/heads/main");
        ("repository", obj [("name", s "test-repo")]);
        ("commits", VArr commits);
        ("sender", obj [("login", s "testuser")]);
        ("compare", s "https://github.com/user/test-repo/compare/abc...def") ].

Definition commit (id : string) : val :=
  obj [ ("id", s id); ("message", s "Test commit message");
        ("url", s "https://github.com/user/test-repo/commit/1234567");
        ("author", obj [("name", s "Test User")]) ].

Definition pull_request (body : val) : val :=
  obj [ ("action", s "opened");
        ("repository", obj [("name", s "test-repo")]);
        ("pull_request", obj [ ("number", VNum 123); ("title", s "Test Pull Request");
                               ("html_url", s "https://github.com/user/test-repo/pull/123");
                               ("body", body); ("state", s "open"); ("merged", VBool false) ]) ].

Definition issue_event (body : val) : val :=
  obj [ ("action", s "opened");
        ("repository", obj [("name", s "test-repo")]);
        ("issue", obj [ ("number", VNum 7); ("title", s "Test Issue");
                        ("html_url", s "https://github.com/user/test-repo/issues/7");
                        ("body", body) ]) ].

Definition issue_comment (body : val) : val :=
  obj [ ("action", s "created");
        ("repository", obj [("name", s "test-repo")]);
        ("issue", obj [ ("number", VNum 7); ("title", s "Test Issue");
                        ("html_url", s "https://github.com/user/test-repo/issues/7") ]);
        ("comment", obj [ ("html_url", s "https://github.com/user/test-repo/issues/7#c1");
                          ("user", obj [("login", s "testuser")]);
                          ("body", body) ]) ].

Definition trello (type : string) (data : list (string * val)) : val :=
  obj [ ("action", obj [ ("type", s type);
                         ("memberCreator", obj [("fullName", s "Test User")]);
                         ("data", obj (("card", obj [("name", s "Test Card")]) :: data)) ]);
        ("model", obj [("url", s "https://trello.com/b/abc123/board")]) ].

(** A text of [n] letters *)
Fixpoint letters (n : nat) : string :=
  match n with
  | O => EmptyString
  | S n' => String "a" (letters n')
  end.

End Sample.

(* ================================================================= *)
(** ** What a caller observes of a handler *)

Module Observe.


(** The body [sendDiscordMessage] posts: [{ embeds: [card] }] *)
Definition envelope (card : Discord.Card) : val :=
  VObj [("embeds", VArr [Discord.Card_val card])].

(** Every character is below 128. *)
Fixpoint ascii_only (s : string) : bool :=
  match s with
  | EmptyString => true
  | String c r => (N_of_ascii c <? 128)%N && ascii_only r
  end.

(** The action types [formatTrelloMessage] has a [case] for *)
Definition dispatched : list string :=
  [ "createCard"; "updateCard"; "commentCard"; "addMemberToCard";
    "removeMemberFromCard"; "addLabelToCard" ].

(** [old && old.hasOwnProperty("due")], where the call returns *)
Definition due_changed (old : val) : bool :=
  truthy old && match hasOwnProperty old "due" with Ok b => b | Throw _ => false end.

Section WithHost.
Context `{Host}.

(** The value the signature header is compared with *)
Definition digest (req : Request) (secret : string) : string :=
  "sha256=" ++ hmac_sha256_hex secret (JSON_stringify (body req)).

(** The signature check of [handleWebhook] lets the request through. *)
Definition gate_open (req : Request) (secret : string) : Prop :=
  secret = "" \/ Config.isTestMode = true
  \/ GitHub.verifyGitHubSignature req secret = Ok true.

(** The responses of a relayed event, by mode *)
Definition relayed_reply (text : string) (discordResponse : val) : reply :=
  if Config.isTestMode
  then Json 200 (VObj [("message", VStr text); ("discord_response", discordResponse)])
  else Send 200 text.

(** The address the authorization page is asked to return to *)
Definition redirectUri (req : Request) (boardId : string) : string :=
  protocol req ++ "://" ++ hostname req ++ "/registerTrelloBoard?boardId=" ++ boardId.

(** The two outbound calls of the third hop *)
Definition board_lookup (boardId token : string) : call :=
  GET (Config.getTrelloApiUrl ++ "/boards/" ++ boardId)
      [("key", VStr Config.getTrelloApiKey); ("token", VStr token);
       ("fields", VStr "name,id")].

Definition webhook_registration (req : Request) (fullBoardId : val) (token : string) : call :=
  POST (Config.getTrelloApiUrl ++ "/webhooks")
       (VObj [("callbackURL",
               VStr (protocol req ++ "://" ++ hostname req ++ "/trelloNotification"));
              ("idModel", fullBoardId);
              ("description",
               VStr ("Discord notification webhook (created: "
                     ++ Date_now_toISOString ++ ")"))])
       [("key", VStr Config.getTrelloApiKey); ("token", VStr token)].

(** How the board host answers them *)
Definition board_answer (boardId token : string) : result val :=
  axios_get (Config.getTrelloApiUrl ++ "/boards/" ++ boardId)
    [("key", VStr Config.getTrelloApiKey); ("token", VStr token);
     ("fields", VStr "name,id")].

Definition webhook_answer (req : Request) (fullBoardId : val) (token : string) : result val :=
  axios_post (Config.getTrelloApiUrl ++ "/webhooks")
    (VObj [("callbackURL",
            VStr (protocol req ++ "://" ++ hostname req ++ "/trelloNotification"));
           ("idModel", fullBoardId);
           ("description",
            VStr ("Discord notification webhook (created: "
                  ++ Date_now_toISOString ++ ")"))])
    [("key", VStr Config.getTrelloApiKey); ("token", VStr token)].

(** The message of the error page after a failed board lookup *)
Definition verification_failed (reason : string) : string :=
  "Board verification failed: " ++ reason
  ++ ". Make sure the board ID is correct and you have access to it.".

End WithHost.
End Observe.

(* ================================================================= *)
(** * Properties *)

(** ** Reading fields of well-shaped values *)

Module Facts.
Section WithHost.
Context `{Host}.

Lemma get_object (v : val) (k : string) :
  is_object v = true -> get v k = Ok (field v k).
Proof. destruct v; simpl; try discriminate; reflexivity. Qed.

Lemma get_truthy (v : val) (k : string) :
  truthy v = true -> get v k = Ok (field v k).
Proof. destruct v; simpl; try discriminate; reflexivity. Qed.

Lemma ToString_scalar (v : val) :
  scalar v = true -> ToString v = Ok (text v).
Proof.
  destruct v as [| |[]| | | |]; simpl; try discriminate; reflexivity.
Qed.

Lemma replace_string (v : val) (pat rep : string) :
  is_string v = true -> replace v pat rep = Ok (String_replace (str v) pat rep).
Proof. destruct v; simpl; try discriminate; reflexivity. Qed.

Lemma substring0_string (v : val) (n : nat) :
  is_string v = true -> substring0 v n = Ok (String.substring 0 n (str v)).
Proof. destruct v; simpl; try discriminate; reflexivity. Qed.

Lemma split_string (v : val) (c : ascii) :
  is_string v = true -> split v c = Ok (String_split c (str v)).
Proof. destruct v; simpl; try discriminate; reflexivity. Qed.

Lemma get_length_array (l : list val) :
  get (VArr l) "length" = Ok (VNum (Z.of_nat (List.length l))).
Proof. reflexivity. Qed.

Lemma get_length_string (s : string) :
  get (VStr s) "length" = Ok (VNum (Z.of_nat (String.length s))).
Proof. reflexivity. Qed.

Lemma sender_or_object (payload : val) (k : string) (d : val) :
  is_object payload = true ->
  Discord.sender_or payload k d = Ok (Spec.sender_value payload k d).
Proof.
  intros Hp. unfold Discord.sender_or, Spec.sender_value.
  rewrite get_object by assumption. cbn [bind].
  destruct (truthy (field payload "sender")) eqn:Hs; [|reflexivity].
  now apply get_truthy.
Qed.

(** [split("\n")[0]] is the first line. *)
Lemma split_first_line (s : string) :
  nth 0 (String_split Discord.LF s) "" = Spec.first_line s.
Proof.
  unfold Spec.first_line.
  induction s as [|a r IH]; [reflexivity|].
  cbn [String_split before].
  destruct (Ascii.eqb a Discord.LF) eqn:Ha; [reflexivity|].
  destruct (String_split Discord.LF r) as [|h t]; cbn [nth] in *; now rewrite <- IH.
Qed.

Lemma length_substring0 (n : nat) (s : string) :
  String.length (String.substring 0 n s) = Nat.min n (String.length s).
Proof.
  revert n. induction s as [|a r IH]; intros [|n]; simpl; try reflexivity.
  now rewrite IH.
Qed.

Lemma length_append (a b : string) :
  String.length (a ++ b) = (String.length a + String.length b)%nat.
Proof. induction a as [|c a IH]; simpl; [reflexivity|now rewrite IH]. Qed.

End WithHost.
End Facts.

(** Splitting a shape into its conjuncts, and running the formatter one
    read at a time. *)
Ltac shape :=
  repeat match goal with
         | H : _ && _ = true |- _ => apply andb_prop in H; destruct H
         end.

Ltac step :=
  first [ rewrite Facts.sender_or_object by assumption
        | rewrite Facts.get_object by assumption
        | rewrite Facts.get_truthy by assumption
        | rewrite Facts.ToString_scalar by assumption
        | rewrite Facts.replace_string by assumption
        | rewrite Facts.substring0_string by assumption
        | rewrite Facts.split_string by assumption ];
  cbn [bind].

(* ================================================================= *)
(** ** The cards of formatGitHubMessage *)

Module GitHubCards.
Section WithHost.
Context `{Host}.

Lemma truncate_string (s : string) :
  Discord.truncate (VStr s) = Ok (VStr (Spec.ellipsis s)).
Proof.
  unfold Discord.truncate, Spec.ellipsis.
  rewrite Facts.get_length_string. cbn [bind gt].
  destruct (Z.gtb_spec (Z.of_nat (String.length s)) 1000) as [Hl|Hl];
    destruct (Nat.ltb_spec 1000 (String.length s)) as [Hn|Hn]; try lia; reflexivity.
Qed.

(** A body that is a text, when it is there, is cut as its field says. *)
Lemma truncate_optional (b : val) :
  optional_text b = true -> truthy b = true ->
  Discord.truncate b = Ok (VStr (Spec.ellipsis (str b))).
Proof.
  intros Hb Ht. unfold optional_text in Hb. rewrite Ht in Hb.
  destruct b; try discriminate Hb. apply truncate_string.
Qed.

Lemma commit_field_ok (c : val) :
  commit_ok c = true -> Discord.commit_field c = Ok (Spec.commit_line c).
Proof.
  unfold commit_ok, Discord.commit_field, Spec.commit_line. intros Hc. shape.
  repeat step.
  now rewrite Facts.split_first_line.
Qed.

Lemma forEach_push_ok (l : list val) (acc : list Discord.Field) :
  forallb commit_ok l = true ->
  Discord.forEach_push Discord.commit_field l acc
  = Ok (acc ++ map Spec.commit_line l)%list.
Proof.
  revert acc. induction l as [|c l IH]; intros acc Hl; cbn [Discord.forEach_push map].
  - now rewrite app_nil_r.
  - cbn [forallb] in Hl. shape.
    rewrite commit_field_ok by assumption. cbn [bind].
    rewrite IH by assumption. now rewrite <- app_assoc.
Qed.

Lemma forallb_firstn {A : Type} (p : A -> bool) (n : nat) (l : list A) :
  forallb p l = true -> forallb p (firstn n l) = true.
Proof.
  revert n. induction l as [|a l IH]; intros [|n] Hl; simpl in *; try reflexivity.
  shape. now rewrite H0, IH.
Qed.

Lemma push_card (payload : val) (l : list val) :
  repository_ok payload = true ->
  is_string (field payload "ref") = true ->
  field payload "commits" = VArr l ->
  forallb commit_ok l = true ->
  Discord.formatGitHubMessage payload "push"
  = Ok (Spec.GitHub_card payload
          ("[" ++ Spec.repository_name payload ++ "] Push to "
           ++ String_replace (str (field payload "ref")) "refs/heads/" "")
          (Spec.push_description l) (field payload "compare") 0x2EA44F
          (map Spec.commit_line (firstn 5 l) ++ Spec.more_commits (List.length l))%list).
Proof.
  intros Hr Href Hc Hl. unfold repository_ok in Hr. shape.
  unfold Discord.formatGitHubMessage.
  do 3 step. cbn [String.eqb Ascii.eqb Bool.eqb].
  do 7 step. rewrite Hc. cbn [slice0 bind]. rewrite !Facts.get_length_array.
  cbn [bind gt ToString].
  destruct l as [|c l].
  - reflexivity.
  - assert (Hpos : (Z.of_nat (List.length (firstn 5 (c :: l))) >? 0) = true)
      by (cbn [firstn List.length]; apply Z.gtb_lt; lia).
    rewrite Hpos.
    rewrite forEach_push_ok by now apply forallb_firstn.
    cbn [bind app]. unfold Spec.more_commits, Spec.GitHub_card, Spec.push_description.
    destruct (Z.gtb_spec (Z.of_nat (List.length (c :: l))) 5) as [Hn|Hn];
      destruct (Nat.ltb_spec 5 (List.length (c :: l))) as [Hm|Hm]; try lia.
    + reflexivity.
    + now rewrite app_nil_r.
Qed.

Lemma pull_request_card (payload : val) :
  repository_ok payload = true ->
  pull_request_ok payload = true ->
  let pr := field payload "pull_request" in
  Discord.formatGitHubMessage payload "pull_request"
  = Ok (Spec.GitHub_card payload
          ("[" ++ Spec.repository_name payload ++ "] Pull Request "
           ++ text (field payload "action"))
          (Spec.thread_link pr) (field pr "html_url") 0x2EA44F
          ([ {| Discord.name := "State"; Discord.value := field pr "state";
                Discord.inline := Some true |};
             {| Discord.name := "Merged";
                Discord.value := VStr (if truthy (field pr "merged") then "Yes" else "No");
                Discord.inline := Some true |} ]
           ++ Spec.body_field "Description" (field pr "body"))%list).
Proof.
  intros Hr Hp pr. unfold repository_ok in Hr. unfold pull_request_ok, thread_ok in Hp.
  shape. unfold Discord.formatGitHubMessage.
  do 3 step. cbn [String.eqb Ascii.eqb Bool.eqb].
  repeat step.
  unfold Spec.body_field. destruct (truthy (field _ "body")) eqn:Hb; [|reflexivity].
  now rewrite truncate_optional.
Qed.

Lemma issues_card (payload : val) :
  repository_ok payload = true ->
  issues_ok payload = true ->
  let issue := field payload "issue" in
  Discord.formatGitHubMessage payload "issues"
  = Ok (Spec.GitHub_card payload
          ("[" ++ Spec.repository_name payload ++ "] Issue " ++ text (field payload "action"))
          (Spec.thread_link issue) (field issue "html_url") 0xE99455
          (Spec.body_field "Description" (field issue "body"))).
Proof.
  intros Hr Hp issue. unfold repository_ok in Hr. unfold issues_ok, thread_ok in Hp.
  shape. unfold Discord.formatGitHubMessage.
  do 3 step. cbn [String.eqb Ascii.eqb Bool.eqb].
  repeat step.
  unfold Spec.body_field. destruct (truthy (field _ "body")) eqn:Hb; [|reflexivity].
  now rewrite truncate_optional.
Qed.

Lemma issue_comment_card (payload : val) :
  repository_ok payload = true ->
  issue_comment_ok payload = true ->
  let issue := field payload "issue" in
  let comment := field payload "comment" in
  Discord.formatGitHubMessage payload "issue_comment"
  = Ok (Spec.GitHub_card payload
          ("[" ++ Spec.repository_name payload ++ "] Comment on issue #"
           ++ text (field issue "number"))
          (text (field (field comment "user") "login") ++ " commented on "
           ++ Spec.thread_link issue)
          (field comment "html_url") 0x2EA44F
          (Spec.body_field "Comment" (field comment "body"))).
Proof.
  intros Hr Hp issue comment. unfold repository_ok in Hr.
  unfold issue_comment_ok, thread_ok in Hp.
  shape. unfold Discord.formatGitHubMessage.
  do 3 step. cbn [String.eqb Ascii.eqb Bool.eqb].
  repeat step.
  unfold Spec.body_field. destruct (truthy (field _ "body")) eqn:Hb; [|reflexivity].
  now rewrite truncate_optional.
Qed.

Lemma other_event_card (payload : val) (eventType : string) :
  repository_ok payload = true ->
  existsb (String.eqb eventType) GitHub.supportedEvents = false ->
  Discord.formatGitHubMessage payload eventType
  = Ok (Spec.GitHub_card payload
          ("[" ++ Spec.repository_name payload ++ "] " ++ eventType ++ " event received")
          "Unsupported event type" (VStr "") 0x2EA44F []).
Proof.
  intros Hr He. unfold repository_ok in Hr. shape.
  cbn [existsb GitHub.supportedEvents] in He.
  repeat (apply orb_false_elim in He; destruct He as [? He]).
  unfold Discord.formatGitHubMessage.
  do 3 step.
  repeat match goal with E : String.eqb eventType _ = false |- _ => rewrite E; clear E end.
  now do 3 step.
Qed.

End WithHost.
End GitHubCards.

(* ================================================================= *)
(** ** The cards of formatTrelloMessage *)

Module TrelloCards.
Section WithHost.
Context `{Host}.

Lemma type_read (action : val) :
  (if truthy action then get action "type" else Ok VUndef) = Ok (field action "type").
Proof. destruct action as [| |[]|n|s| |]; try reflexivity; simpl.
  - now destruct (n =? 0).
  - now destruct s.
Qed.

Lemma member_read (action : val) :
  let mc := field action "memberCreator" in
  (if truthy mc then get mc "fullName" else Ok (VStr "Unknown"))
  = Ok (Spec.member_name action).
Proof.
  intros mc. unfold Spec.member_name. fold mc.
  destruct (truthy mc) eqn:Hm; [|reflexivity]. now apply Facts.get_truthy.
Qed.

Lemma member_scalar (action : val) :
  scalar (field (field action "memberCreator") "fullName") = true ->
  scalar (Spec.member_name action) = true.
Proof. intros Hs. unfold Spec.member_name. now destruct (truthy _). Qed.

Lemma field_string_object (v : val) (k t : string) :
  field v k = VStr t -> is_object v = true.
Proof.
  unfold field, get.
  destruct v; try discriminate; try reflexivity;
    destruct (String.eqb k "length"); discriminate.
Qed.

Lemma field_object_object (v : val) (k : string) :
  is_object (field v k) = true -> is_object v = true.
Proof.
  unfold field, get.
  destruct v; try discriminate; try reflexivity;
    destruct (String.eqb k "length"); discriminate.
Qed.

Lemma includes_string (l : list string) (v : val) :
  Discord.includes l v = true -> exists t, v = VStr t.
Proof. destruct v; simpl; try discriminate. eauto. Qed.

Lemma card_link_ok (action data : val) :
  is_object action = true ->
  is_object (field action "data") = true ->
  is_object (field (field action "data") "card") = true ->
  scalar (field (field (field action "data") "card") "name") = true ->
  is_object data = true ->
  is_object (field data "model") = true ->
  scalar (field (field data "model") "url") = true ->
  Discord.card_link action data = Ok (Spec.card_link action data).
Proof. intros. unfold Discord.card_link. now repeat step. Qed.

(** The common opening of [formatTrelloMessage], up to the dispatch. *)
Lemma unrecognized_card (data : val) :
  is_object data = true ->
  truthy (field data "action") && truthy (field (field data "action") "type") = false ->
  Discord.formatTrelloMessage data
  = Ok (Some (Spec.Trello_card data "Trello Activity" "Unrecognized Trello event" [])).
Proof.
  intros Hd Ha. unfold Discord.formatTrelloMessage.
  step. rewrite type_read. cbn [bind]. step.
  assert (Hm : get_opt (field data "model") "url" = Ok (field (field data "model") "url"))
    by now destruct (field data "model").
  rewrite Hm. cbn [bind].
  rewrite <- negb_andb, Ha. reflexivity.
Qed.

Lemma filtered_null (data : val) :
  Discord.includes Discord.filteredTypes (field (field data "action") "type") = true ->
  Discord.formatTrelloMessage data = Ok None.
Proof.
  intros Hf. destruct (includes_string _ _ Hf) as [t Ht].
  pose proof (field_string_object _ _ _ Ht) as Ha.
  pose proof (field_object_object _ _ Ha) as Hd.
  unfold Discord.formatTrelloMessage.
  step. rewrite type_read. cbn [bind]. step.
  assert (Hm : get_opt (field data "model") "url" = Ok (field (field data "model") "url"))
    by now destruct (field data "model").
  rewrite Hm. cbn [bind]. rewrite Hf.
  assert (Htt : truthy (field (field data "action") "type") = true).
  { rewrite Ht in *. simpl in Hf |- *.
    destruct (String.eqb t "") eqn:E; [|reflexivity].
    apply String.eqb_eq in E. subst t. discriminate Hf. }
  rewrite Htt. destruct (field data "action"); try discriminate Ha. reflexivity.
Qed.

Lemma get_opt_object (v : val) (k : string) :
  is_object v = true -> get_opt v k = Ok (field v k).
Proof. destruct v; simpl; try discriminate; reflexivity. Qed.

End WithHost.
End TrelloCards.

(** From a relayed action to the dispatch on its type. *)
Ltac relay H :=
  destruct H as (Hd & Hm & Hu & Ht & Hf & Ha);
  unfold action_ok in Ha; shape;
  unfold Discord.formatTrelloMessage;
  step; rewrite TrelloCards.type_read; cbn [bind]; step;
  rewrite TrelloCards.get_opt_object by assumption; cbn [bind];
  match goal with
  | Ho : is_object ?a = true |- context [truthy ?a] =>
      replace (truthy a) with true by (now destruct a)
  end;
  rewrite Ht, Hf; cbn [negb orb];
  step; rewrite TrelloCards.member_read; cbn [bind];
  match goal with
  | Hs : scalar (field (field ?a "memberCreator") "fullName") = true |- _ =>
      apply TrelloCards.member_scalar in Hs
  end.

Module TrelloBranches.
Section WithHost.
Context `{Host}.

Lemma createCard_card (data : val) :
  relayed data ->
  field (field data "action") "type" = VStr "createCard" ->
  let action := field data "action" in
  Discord.formatTrelloMessage data
  = Ok (Some (Spec.Trello_card data "Card Created"
                (text (Spec.member_name action) ++ " created card "
                 ++ Spec.card_link action data)
                (Spec.named_field "List" (field (field action "data") "list")))).
Proof.
  intros Hr Hty action. unfold action. relay Hr.
  rewrite Hty. cbn [Discord.strict_eq String.eqb Ascii.eqb Bool.eqb].
  step. rewrite TrelloCards.card_link_ok by assumption. cbn [bind].
  do 2 step. unfold Spec.named_field.
  destruct (truthy (field _ "list")) eqn:Hl; [|reflexivity].
  now step.
Qed.

Lemma commentCard_card (data : val) :
  relayed data ->
  field (field data "action") "type" = VStr "commentCard" ->
  let action := field data "action" in
  Discord.formatTrelloMessage data
  = Ok (Some (Spec.Trello_card data "Comment Added"
                (text (Spec.member_name action) ++ " commented on card "
                 ++ Spec.card_link action data)
                (Spec.body_field "Comment" (field (field action "data") "text")))).
Proof.
  intros Hr Hty action. unfold action. relay Hr.
  rewrite Hty. cbn [Discord.strict_eq String.eqb Ascii.eqb Bool.eqb].
  step. rewrite TrelloCards.card_link_ok by assumption. cbn [bind].
  do 2 step. unfold Spec.body_field.
  destruct (truthy (field _ "text")) eqn:Hl; [|reflexivity].
  now rewrite GitHubCards.truncate_optional.
Qed.

Lemma addLabelToCard_card (data : val) :
  relayed data ->
  field (field data "action") "type" = VStr "addLabelToCard" ->
  let action := field data "action" in
  Discord.formatTrelloMessage data
  = Ok (Some (Spec.Trello_card data "Label Added"
                (text (Spec.member_name action) ++ " added label to card "
                 ++ Spec.card_link action data)
                (Spec.label_field (field (field action "data") "label")))).
Proof.
  intros Hr Hty action. unfold action. relay Hr.
  rewrite Hty. cbn [Discord.strict_eq String.eqb Ascii.eqb Bool.eqb].
  step. rewrite TrelloCards.card_link_ok by assumption. cbn [bind].
  do 2 step. unfold Spec.label_field.
  destruct (truthy (field _ "label")) eqn:Hl; [|reflexivity].
  now do 2 step.
Qed.

Lemma due_text_scalar (v : val) :
  scalar v = true -> exists s, Discord.due_text v = Ok s.
Proof.
  intros Hv. unfold Discord.due_text, Discord.toLocaleString.
  destruct (truthy v); [|eauto]. destruct v; try discriminate; eauto.
Qed.

Lemma hasOwnProperty_old (old : val) :
  old_ok old = true -> truthy old = true ->
  exists b, hasOwnProperty old "due" = Ok b.
Proof.
  unfold old_ok. intros Ho Ht. shape.
  destruct old; try discriminate; simpl; eauto.
  destruct (has_own m "hasOwnProperty"); [discriminate|eauto].
Qed.

(** Every relayed action yields a card. *)
Lemma relayed_returns (data : val) :
  relayed data -> exists card, Discord.formatTrelloMessage data = Ok (Some card).
Proof.
  intros Hr. relay Hr.
  assert (Hlink : Discord.card_link (field data "action") data
                  = Ok (Spec.card_link (field data "action") data))
    by now apply TrelloCards.card_link_ok.
  destruct (Discord.strict_eq _ "createCard").
  { step. rewrite Hlink. cbn [bind]. do 2 step.
    destruct (truthy (field _ "list")) eqn:Hl; [step|]; now eexists. }
  destruct (Discord.strict_eq _ "updateCard").
  { do 2 step.
    destruct (truthy (field _ "listBefore")) eqn:Hb; [step|cbn [bind]].
    - destruct (truthy (field _ "listAfter")) eqn:Hafter; cbn [andb].
      + step. rewrite Hlink. cbn [bind]. do 2 step. now eexists.
      + step.
        destruct (truthy (field _ "old")) eqn:Ho.
        * destruct (hasOwnProperty_old _ ltac:(eassumption) Ho) as [b Hb']. rewrite Hb'.
          cbn [bind]. unfold old_ok in *. shape.
          destruct b.
          -- step. rewrite Hlink. cbn [bind]. do 2 step.
             destruct (due_text_scalar (field (field (field (field data "action") "data") "card") "due")) as [s1 E1];
               [assumption|]. rewrite E1. cbn [bind]. step.
             destruct (due_text_scalar (field (field (field (field data "action") "data") "old") "due")) as [s2 E2];
               [assumption|]. rewrite E2. cbn [bind]. now eexists.
          -- step. rewrite Hlink. cbn [bind]. now eexists.
        * cbn [bind]. step. rewrite Hlink. cbn [bind]. now eexists.
    - rewrite Hb. cbn [andb]. step.
      destruct (truthy (field _ "old")) eqn:Ho.
      * destruct (hasOwnProperty_old _ ltac:(eassumption) Ho) as [b Hb']. rewrite Hb'.
        cbn [bind]. unfold old_ok in *. shape.
        destruct b.
        -- step. rewrite Hlink. cbn [bind]. do 2 step.
           destruct (due_text_scalar (field (field (field (field data "action") "data") "card") "due")) as [s1 E1];
             [assumption|]. rewrite E1. cbn [bind]. step.
           destruct (due_text_scalar (field (field (field (field data "action") "data") "old") "due")) as [s2 E2];
             [assumption|]. rewrite E2. cbn [bind]. now eexists.
        -- step. rewrite Hlink. cbn [bind]. now eexists.
      * cbn [bind]. step. rewrite Hlink. cbn [bind]. now eexists. }
  destruct (Discord.strict_eq _ "commentCard").
  { step. rewrite Hlink. cbn [bind]. do 2 step.
    destruct (truthy (field _ "text")) eqn:Hl; [|now eexists].
    rewrite GitHubCards.truncate_optional by assumption. cbn [bind]. now eexists. }
  destruct (Discord.strict_eq _ "addMemberToCard").
  { cbn [orb] in *. shape. repeat step. rewrite Hlink. cbn [bind]. now eexists. }
  destruct (Discord.strict_eq _ "removeMemberFromCard").
  { cbn [orb] in *. shape. repeat step. rewrite Hlink. cbn [bind]. now eexists. }
  destruct (Discord.strict_eq _ "addLabelToCard").
  { step. rewrite Hlink. cbn [bind]. do 2 step.
    destruct (truthy (field _ "label")) eqn:Hl; [do 2 step|]; now eexists. }
  do 2 step. now eexists.
Qed.

End WithHost.
End TrelloBranches.

(* ================================================================= *)
(** ** The formatters *)

Module Formatter.
Section WithHost.
Context `{Host}.

(** C1, as the code has it: [formatGitHubMessage] returns a card for every
    event type and every payload of the shape GitHub sends for that type (a
    [repository] object with a name, and the objects and texts the branch of
    the type reads); for an event type outside push, pull_request, issues and
    issue_comment the card is the default one, titled with the repository
    name and the raw event type. *)
Theorem formatGitHubMessage_returns_on_shaped_payloads
    (payload : val) (eventType : string) :
  GitHub_payload_ok eventType payload = true ->
  exists card,
    Discord.formatGitHubMessage payload eventType = Ok card
    /\ (existsb (String.eqb eventType) GitHub.supportedEvents = false ->
        Discord.title card
        = "[" ++ Spec.repository_name payload ++ "] " ++ eventType ++ " event received"
        /\ Discord.description card = "Unsupported event type"
        /\ Discord.fields card = []).
Proof.
  unfold GitHub_payload_ok. intros Hp. apply andb_prop in Hp. destruct Hp as [Hr Hb].
  destruct (String.eqb eventType "push") eqn:E1.
  { apply String.eqb_eq in E1. subst eventType.
    unfold push_ok in Hb. apply andb_prop in Hb. destruct Hb as [Href Hc].
    destruct (field payload "commits") as [| | | | |l|] eqn:Ec; try discriminate Hc.
    eexists. split; [now apply (GitHubCards.push_card payload l)|discriminate]. }
  destruct (String.eqb eventType "pull_request") eqn:E2.
  { apply String.eqb_eq in E2. subst eventType.
    eexists. split; [now apply GitHubCards.pull_request_card|discriminate]. }
  destruct (String.eqb eventType "issues") eqn:E3.
  { apply String.eqb_eq in E3. subst eventType.
    eexists. split; [now apply GitHubCards.issues_card|discriminate]. }
  destruct (String.eqb eventType "issue_comment") eqn:E4.
  { apply String.eqb_eq in E4. subst eventType.
    eexists. split; [now apply GitHubCards.issue_comment_card|discriminate]. }
  eexists. split.
  - apply GitHubCards.other_event_card; [assumption|].
    cbn [existsb GitHub.supportedEvents]. now rewrite E1, E2, E3, E4.
  - intros _. repeat split.
Qed.

(** C5: a push of N well-formed commits yields min(N,5) commit fields, each
    named by the first seven characters of the commit id and valued
    [[<first line of the message>](<url>) - <author name>], followed, when
    N > 5, by one field that counts the N-5 commits left out. *)
Theorem push_lists_at_most_five_commits (payload : val) :
  GitHub_payload_ok "push" payload = true ->
  let commits := commits_of payload in
  let N := List.length commits in
  exists card,
    Discord.formatGitHubMessage payload "push" = Ok card
    /\ Discord.fields card
       = (map Spec.commit_line (firstn 5 commits) ++ Spec.more_commits N)%list
    /\ List.length (map Spec.commit_line (firstn 5 commits)) = Nat.min N 5
    /\ ((5 < N)%nat ->
        Spec.more_commits N
        = [ {| Discord.name := "...";
               Discord.value :=
                 VStr (Number_toString (Z.of_nat N - 5) ++ " more commits not shown");
               Discord.inline := None |} ])
    /\ ((N <= 5)%nat -> Spec.more_commits N = []).
Proof.
  intros Hp commits N. unfold GitHub_payload_ok in Hp.
  cbn [String.eqb Ascii.eqb Bool.eqb] in Hp. apply andb_prop in Hp. destruct Hp as [Hr Hb].
  unfold push_ok in Hb. apply andb_prop in Hb. destruct Hb as [Href Hc].
  subst N commits. unfold commits_of.
  destruct (field payload "commits") as [| | | | |l|] eqn:Ec; try discriminate Hc.
  eexists. split; [now apply (GitHubCards.push_card payload l)|].
  split; [reflexivity|]. split; [|split].
  - rewrite length_map, length_firstn. apply Nat.min_comm.
  - intros Hn. unfold Spec.more_commits.
    now destruct (Nat.ltb_spec 5 (List.length l)); [|lia].
  - intros Hn. unfold Spec.more_commits.
    now destruct (Nat.ltb_spec 5 (List.length l)); [lia|].
Qed.

(** C6: a pull-request body, an issue body, an issue-comment body and a
    board comment text [b] are each rendered as the value of their field
    (Description, Description, Comment, Comment): the first 997 characters
    followed by three dots, 1000 characters in all, when [b] is longer than
    1000 characters, and [b] unchanged otherwise. *)
Theorem bodies_are_cut_to_1000_characters
    (b : string) (pull_request issue comment board : val) :
  b <> "" ->
  GitHub_payload_ok "pull_request" pull_request = true ->
  field (field pull_request "pull_request") "body" = VStr b ->
  GitHub_payload_ok "issues" issue = true ->
  field (field issue "issue") "body" = VStr b ->
  GitHub_payload_ok "issue_comment" comment = true ->
  field (field comment "comment") "body" = VStr b ->
  relayed board ->
  field (field board "action") "type" = VStr "commentCard" ->
  field (field (field board "action") "data") "text" = VStr b ->
  let rendered (label : string) :=
    {| Discord.name := label; Discord.value := VStr (Spec.ellipsis b);
       Discord.inline := None |} in
  (exists card, Discord.formatGitHubMessage pull_request "pull_request" = Ok card
                /\ last (Discord.fields card) (rendered "") = rendered "Description")
  /\ (exists card, Discord.formatGitHubMessage issue "issues" = Ok card
                   /\ Discord.fields card = [rendered "Description"])
  /\ (exists card, Discord.formatGitHubMessage comment "issue_comment" = Ok card
                   /\ Discord.fields card = [rendered "Comment"])
  /\ (exists card, Discord.formatTrelloMessage board = Ok (Some card)
                   /\ Discord.fields card = [rendered "Comment"])
  /\ ((1000 < String.length b)%nat ->
      Spec.ellipsis b = String.substring 0 997 b ++ "..."
      /\ String.length (Spec.ellipsis b) = 1000%nat)
  /\ ((String.length b <= 1000)%nat -> Spec.ellipsis b = b).
Proof.
  intros Hne Hpr Epr His Eis Hco Eco Hbo Ety Ebo rendered.
  assert (Htruthy : truthy (VStr b) = true).
  { simpl. destruct (String.eqb b "") eqn:E; [|reflexivity].
    apply String.eqb_eq in E. contradiction. }
  unfold GitHub_payload_ok in Hpr, His, Hco.
  cbn [String.eqb Ascii.eqb Bool.eqb] in Hpr, His, Hco.
  apply andb_prop in Hpr, His, Hco.
  destruct Hpr as [Hpr1 Hpr2], His as [His1 His2], Hco as [Hco1 Hco2].
  repeat split.
  - eexists. split; [now apply GitHubCards.pull_request_card|].
    cbn [Discord.fields Spec.GitHub_card]. rewrite Epr. unfold Spec.body_field.
    rewrite Htruthy. reflexivity.
  - eexists. split; [now apply GitHubCards.issues_card|].
    cbn [Discord.fields Spec.GitHub_card]. rewrite Eis. unfold Spec.body_field.
    rewrite Htruthy. reflexivity.
  - eexists. split; [now apply GitHubCards.issue_comment_card|].
    cbn [Discord.fields Spec.GitHub_card]. rewrite Eco. unfold Spec.body_field.
    rewrite Htruthy. reflexivity.
  - eexists. split; [now apply TrelloBranches.commentCard_card|].
    cbn [Discord.fields Spec.Trello_card]. rewrite Ebo. unfold Spec.body_field.
    rewrite Htruthy. reflexivity.
  - unfold Spec.ellipsis. now destruct (Nat.ltb_spec 1000 (String.length b)); [|lia].
  - unfold Spec.ellipsis. destruct (Nat.ltb_spec 1000 (String.length b)); [|lia].
    rewrite Facts.length_append, Facts.length_substring0.
    change (String.length "...") with 3%nat. lia.
  - intros Hle. unfold Spec.ellipsis.
    now destruct (Nat.ltb_spec 1000 (String.length b)); [lia|].
Qed.

(** C2: on every payload of the shape Trello sends, [formatTrelloMessage]
    returns (a card, or the filtered marker) and does not throw; and when the
    list of a created card, the text of a comment or the label of a labelled
    card is missing, the card is produced with its title and description and
    without that field. *)
Theorem formatTrelloMessage_returns_on_shaped_payloads (data : val) :
  Trello_payload_ok data = true ->
  let action := field data "action" in
  let type := field action "type" in
  let missing (k : string) := truthy (field (field action "data") k) = false in
  let bare (r : option Discord.Card) (t verb : string) :=
    exists card,
      r = Some card
      /\ Discord.title card = t
      /\ Discord.description card
         = text (Spec.member_name action) ++ verb ++ Spec.card_link action data
      /\ Discord.fields card = [] in
  exists r,
    Discord.formatTrelloMessage data = Ok r
    /\ (type = VStr "createCard" -> missing "list" ->
        bare r "Card Created" " created card ")
    /\ (type = VStr "commentCard" -> missing "text" ->
        bare r "Comment Added" " commented on card ")
    /\ (type = VStr "addLabelToCard" -> missing "label" ->
        bare r "Label Added" " added label to card ").
Proof.
  intros Hp action type missing bare. subst action type missing bare.
  unfold Trello_payload_ok in Hp. cbv zeta in Hp.
  apply andb_prop in Hp. destruct Hp as [Hd Hcases].
  destruct (truthy (field data "action") && truthy (field (field data "action") "type"))
    eqn:Husable.
  2:{ eexists. split; [now apply TrelloCards.unrecognized_card|].
      repeat split; intros Hty _; exfalso;
        pose proof (TrelloCards.field_string_object _ _ _ Hty) as Ho;
        rewrite Hty in Husable; destruct (field data "action"); discriminate. }
  destruct (Discord.includes Discord.filteredTypes (field (field data "action") "type"))
    eqn:Hfiltered.
  { eexists. split; [now apply TrelloCards.filtered_null|].
    repeat split; intros Hty _; rewrite Hty in Hfiltered; discriminate. }
  apply andb_prop in Husable. destruct Husable as [Hact Hty].
  rewrite Hact, Hty in Hcases. cbn [negb orb] in Hcases.
  apply andb_prop in Hcases. destruct Hcases as [Hcases Ha].
  apply andb_prop in Hcases. destruct Hcases as [Hm Hu].
  assert (Hr : relayed data) by (unfold relayed; auto 10).
  destruct (TrelloBranches.relayed_returns data Hr) as [card Hcard].
  exists (Some card). split; [assumption|].
  repeat split; intros Ety Hmiss.
  - rewrite (TrelloBranches.createCard_card data Hr Ety) in Hcard.
    injection Hcard as <-. unfold Spec.named_field. rewrite Hmiss.
    eexists. repeat split.
  - rewrite (TrelloBranches.commentCard_card data Hr Ety) in Hcard.
    injection Hcard as <-. unfold Spec.body_field. rewrite Hmiss.
    eexists. repeat split.
  - rewrite (TrelloBranches.addLabelToCard_card data Hr Ety) in Hcard.
    injection Hcard as <-. unfold Spec.label_field. rewrite Hmiss.
    eexists. repeat split.
Qed.

(** C7: for an action whose type is one of createCheckItem, updateCheckItem,
    addAttachmentToCard, addChecklistToCard and updateCheckItemStateOnCard,
    [formatTrelloMessage] returns null, and [handleTrelloEvent] answers 200
    without any outbound call. *)
Theorem filtered_actions_are_acknowledged_not_relayed
    (req : Request) (discordWebhookUrl type : string) :
  In type Discord.filteredTypes ->
  field (field (body req) "action") "type" = VStr type ->
  Discord.formatTrelloMessage (body req) = Ok None
  /\ Trello.handleTrelloEvent req discordWebhookUrl
     = ([], Ok (Send 200 "Trello event filtered (notification not sent)")).
Proof.
  intros Hin Hty.
  assert (Hf : Discord.includes Discord.filteredTypes
                 (field (field (body req) "action") "type") = true).
  { rewrite Hty. cbn [Discord.includes]. apply existsb_exists.
    exists type. split; [assumption|apply String.eqb_refl]. }
  pose proof (TrelloCards.filtered_null _ Hf) as Hnull.
  split; [assumption|].
  pose proof (TrelloCards.field_string_object _ _ _ Hty) as Ha.
  pose proof (TrelloCards.field_object_object _ _ Ha) as Hb.
  unfold Trello.handleTrelloEvent. rewrite Hnull.
  destruct Config.isTestMode; cbn [negb].
  - reflexivity.
  - replace (truthy (body req)) with true by (now destruct (body req)).
    cbn [negb]. rewrite Facts.get_object by assumption. cbn [bind].
    replace (truthy (field (body req) "action")) with true
      by (now destruct (field (body req) "action")).
    reflexivity.
Qed.

End WithHost.
End Formatter.

(* ================================================================= *)
(** ** The GitHub webhook handler and the sender *)

Module Handler.

Lemma bytes_eqb_eq (a b : list N) : Node.bytes_eqb a b = true <-> a = b.
Proof.
  revert b. induction a as [|x a IH]; intros [|y b]; simpl; split; intros E;
    try discriminate; try reflexivity.
  - apply andb_prop in E. destruct E as [E1 E2].
    apply N.eqb_eq in E1. apply IH in E2. now subst.
  - injection E as -> ->. rewrite N.eqb_refl. now apply IH.
Qed.

Lemma utf8_prefix_free (c d : ascii) (r s : list N) :
  (Node.utf8 c ++ r = Node.utf8 d ++ s)%list -> c = d /\ r = s.
Proof.
  unfold Node.utf8. cbv zeta.
  pose proof (N_ascii_bounded c) as Hc. pose proof (N_ascii_bounded d) as Hd.
  assert (Hinj : N_of_ascii c = N_of_ascii d -> c = d).
  { intros E. rewrite <- (ascii_N_embedding c), <- (ascii_N_embedding d). now rewrite E. }
  pose proof (N.div_mod (N_of_ascii c) 64 ltac:(discriminate)) as Dc.
  pose proof (N.div_mod (N_of_ascii d) 64 ltac:(discriminate)) as Dd.
  pose proof (N.mod_lt (N_of_ascii c) 64 ltac:(discriminate)) as Mc.
  pose proof (N.mod_lt (N_of_ascii d) 64 ltac:(discriminate)) as Md.
  remember (N_of_ascii c / 64)%N as qc eqn:Eqc.
  remember (N_of_ascii c mod 64)%N as mc eqn:Emc.
  remember (N_of_ascii d / 64)%N as qd eqn:Eqd.
  remember (N_of_ascii d mod 64)%N as md eqn:Emd.
  remember (192 + qc)%N as c1 eqn:Ec1.
  remember (128 + mc)%N as c2 eqn:Ec2.
  remember (192 + qd)%N as d1 eqn:Ed1.
  remember (128 + md)%N as d2 eqn:Ed2.
  destruct (N.ltb_spec (N_of_ascii c) 128) as [Lc|Lc];
    destruct (N.ltb_spec (N_of_ascii d) 128) as [Ld|Ld];
    cbn [app]; intros E.
  - injection E as E1 E2. auto.
  - injection E as E1 E2. exfalso. lia.
  - injection E as E1 E2. exfalso. lia.
  - injection E as E1 E2 E3. split; [|assumption]. apply Hinj. lia.
Qed.

Lemma Buffer_from_injective (a b : string) :
  Node.Buffer_from a = Node.Buffer_from b -> a = b.
Proof.
  revert b. induction a as [|c a IH]; intros [|d b] E; cbn [Node.Buffer_from] in E.
  - reflexivity.
  - exfalso. unfold Node.utf8 in E. destruct (_ <? _)%N; discriminate.
  - exfalso. unfold Node.utf8 in E. destruct (_ <? _)%N; discriminate.
  - apply utf8_prefix_free in E. destruct E as [-> E]. now rewrite (IH b E).
Qed.

Section WithHost.
Context `{Host}.

(** The digest [verifyGitHubSignature] compares the header with. *)
Lemma verifyGitHubSignature_of_header (req : Request) (secret sig : string) :
  secret <> "" -> sig <> "" -> body req <> VUndef ->
  lookup (headers req) "x-hub-signature-256" = Some sig ->
  GitHub.verifyGitHubSignature req secret
  = Node.timingSafeEqual (Node.Buffer_from sig)
      (Node.Buffer_from ("sha256=" ++ hmac_sha256_hex secret (JSON_stringify (body req)))).
Proof.
  intros Hs Hg Hb Hh. unfold GitHub.verifyGitHubSignature.
  apply String.eqb_neq in Hs, Hg. rewrite Hs, Hh, Hg.
  destruct (body req); [contradiction| | | | | |]; reflexivity.
Qed.

(** What does hold of the signature check: a request without the header, or
    with a header of the digest's byte length that differs from it, is
    answered 403 and nothing is sent out. *)
Lemma unsigned_or_wrong_signature_is_forbidden
    (req : Request) (discordWebhookUrl secret : string) :
  String.eqb (method req) "POST" = true ->
  secret <> "" -> Config.isTestMode = false -> body req <> VUndef ->
  let digest := "sha256=" ++ hmac_sha256_hex secret (JSON_stringify (body req)) in
  (present (lookup (headers req) "x-hub-signature-256") = false
   \/ exists sig,
        lookup (headers req) "x-hub-signature-256" = Some sig /\ sig <> digest
        /\ List.length (Node.Buffer_from sig) = List.length (Node.Buffer_from digest)) ->
  GitHub.handleWebhook req discordWebhookUrl secret
  = ([], Ok (Send 403 "Invalid signature")).
Proof.
  intros Hm Hs Ht Hb digest Hsig.
  assert (Hv : GitHub.verifyGitHubSignature req secret = Ok false).
  { destruct Hsig as [Hmiss|(sig & Hh & Hne & Hlen)].
    - unfold GitHub.verifyGitHubSignature. apply String.eqb_neq in Hs. rewrite Hs.
      destruct (lookup (headers req) "x-hub-signature-256") as [sig|]; [|reflexivity].
      simpl in Hmiss. apply negb_false_iff in Hmiss. now rewrite Hmiss.
    - assert (Hg : sig <> "").
      { intros ->. subst digest. discriminate Hlen. }
      rewrite (verifyGitHubSignature_of_header req secret sig) by assumption.
      unfold Node.timingSafeEqual. fold digest. rewrite Hlen, Nat.eqb_refl.
      f_equal. destruct (Node.bytes_eqb _ _) eqn:E; [|reflexivity].
      apply bytes_eqb_eq, Buffer_from_injective in E. contradiction. }
  unfold GitHub.handleWebhook. rewrite Hm. cbn [negb].
  apply String.eqb_neq in Hs. rewrite Hs, Ht, Hv. reflexivity.
Qed.

(** C3, at its failing input: with a secret configured and test mode off, a
    signature header whose byte length differs from the digest's makes
    [crypto.timingSafeEqual] throw; [handleWebhook] rejects with a RangeError
    instead of answering 403, and the endpoint answers 500. Nothing is sent
    out. *)
Theorem signature_of_another_length_is_not_answered_403 (req : Request) (sig : string) :
  String.eqb (method req) "POST" = true ->
  Config.getGithubSecret <> "" -> Config.isTestMode = false -> body req <> VUndef ->
  lookup (headers req) "x-hub-signature-256" = Some sig -> sig <> "" ->
  List.length (Node.Buffer_from sig)
  <> List.length (Node.Buffer_from
                    ("sha256=" ++ hmac_sha256_hex Config.getGithubSecret
                                    (JSON_stringify (body req)))) ->
  GitHub.handleWebhook req Config.getDiscordWebhookUrl Config.getGithubSecret
  = ([], Throw RangeError)
  /\ Index.githubNotification req = ([], Ok (Send 500 "Error processing webhook")).
Proof.
  intros Hm Hs Ht Hb Hh Hg Hlen.
  assert (Hw : GitHub.handleWebhook req Config.getDiscordWebhookUrl Config.getGithubSecret
               = ([], Throw RangeError)).
  { unfold GitHub.handleWebhook. rewrite Hm. cbn [negb].
    rewrite (verifyGitHubSignature_of_header req _ sig) by assumption.
    apply String.eqb_neq in Hs. rewrite Hs, Ht.
    unfold Node.timingSafeEqual. apply Nat.eqb_neq in Hlen. rewrite Hlen. reflexivity. }
  split; [assumption|].
  unfold Index.githubNotification. rewrite Hw. reflexivity.
Qed.

(** C4, as the code has it: a POST without the event-type header is answered
    400 when the signature check lets it through, that is when no secret is
    configured, or in test mode, or when the signature verifies. *)
Theorem missing_event_type_is_a_bad_request
    (req : Request) (discordWebhookUrl secret : string) :
  String.eqb (method req) "POST" = true ->
  present (lookup (headers req) "x-github-event") = false ->
  secret = "" \/ Config.isTestMode = true
  \/ GitHub.verifyGitHubSignature req secret = Ok true ->
  GitHub.handleWebhook req discordWebhookUrl secret
  = ([], Ok (Send 400 "No event type specified")).
Proof.
  intros Hm He Hpass. unfold GitHub.handleWebhook. rewrite Hm. cbn [negb].
  assert (Hcheck :
    (if negb (String.eqb secret "") && negb Config.isTestMode
     then ok <- GitHub.verifyGitHubSignature req secret ;; Ok (negb ok)
     else Ok false) = Ok false).
  { destruct Hpass as [-> | [-> | ->]]; try reflexivity.
    - now rewrite andb_false_r.
    - now destruct (negb _ && negb _). }
  rewrite Hcheck. cbn [pure io_bind app].
  destruct (lookup (headers req) "x-github-event") as [ev|]; [|reflexivity].
  simpl in He. apply negb_false_iff in He. now rewrite He.
Qed.

(** C8, at its failing input: in test mode, when the delivery fails, the
    catch block of [sendDiscordMessage] builds its mock response from
    [payload], which is not in scope there; the call ends in a ReferenceError
    and no response is returned. *)
Theorem failed_delivery_in_test_mode_throws
    (webhookUrl : string) (embed : Discord.Card) (e : error) :
  Config.isTestMode = true ->
  let payload := VObj [("embeds", VArr [Discord.Card_val embed])] in
  axios_post webhookUrl payload [] = Throw e ->
  Discord.sendDiscordMessage webhookUrl embed
  = ([POST webhookUrl payload []], Throw (ReferenceError "payload")).
Proof.
  intros Ht payload Hfail. unfold Discord.sendDiscordMessage. fold payload.
  rewrite Hfail. cbn [try_catch]. rewrite Ht. reflexivity.
Qed.

End WithHost.
End Handler.

(* ================================================================= *)
(** ** Board registration *)

Module Flow.

Lemma before_avoids (c : ascii) (x r : string) :
  Spec.avoids c x = true -> before c (x ++ r) = x ++ before c r.
Proof.
  induction x as [|a x IH]; cbn [Spec.avoids append before]; intros Hx; [reflexivity|].
  apply andb_prop in Hx. destruct Hx as [Ha Hx]. apply negb_true_iff in Ha.
  now rewrite Ha, IH.
Qed.

Lemma split_avoids (c : ascii) (x r : string) :
  Spec.avoids c x = true ->
  String_split c (x ++ String c r) = x :: String_split c r.
Proof.
  induction x as [|a x IH]; cbn [Spec.avoids append String_split]; intros Hx.
  - now rewrite Ascii.eqb_refl.
  - apply andb_prop in Hx. destruct Hx as [Ha Hx]. apply negb_true_iff in Ha.
    now rewrite Ha, IH.
Qed.

(** An id character is none of the characters the page, the address or the
    query parser give a meaning to. *)
Lemma id_char_plain (c : ascii) :
  Spec.id_char c = true ->
  Browser.breaks_literal c = false
  /\ existsb (Ascii.eqb c) ["<"; "#"; "?"; "&"; "="; "+"; "%"]%char = false.
Proof.
  destruct c as [[] [] [] [] [] [] [] []]; vm_compute; intros E;
    first [discriminate E | split; reflexivity].
Qed.

Lemma plain_id_avoids (c : ascii) (b : string) :
  In c ["<"; "#"; "?"; "&"; "="; "+"; "%"]%char ->
  Spec.plain_id b = true -> Spec.avoids c b = true.
Proof.
  intros Hc. induction b as [|a b IH]; cbn [Spec.plain_id Spec.avoids]; intros Hb;
    [reflexivity|].
  apply andb_prop in Hb. destruct Hb as [Ha Hb]. rewrite (IH Hb), andb_true_r.
  apply id_char_plain in Ha. destruct Ha as [_ Ha]. apply negb_true_iff.
  destruct (Ascii.eqb a c) eqn:E; [|reflexivity].
  apply Ascii.eqb_eq in E. subst a. exfalso.
  cbn [In] in Hc. cbn [existsb] in Ha.
  repeat (destruct Hc as [<-|Hc]; [rewrite Ascii.eqb_refl in Ha; cbn in Ha;
                                    rewrite ?orb_true_r in Ha; discriminate Ha|]).
  contradiction.
Qed.

Lemma plain_id_literal (b : string) :
  Spec.plain_id b = true -> Browser.boardId_literal b = Some b.
Proof.
  intros Hb. unfold Browser.boardId_literal.
  assert (Hl : Browser.plain_literal b = true).
  { induction b as [|a b IH]; [reflexivity|]. cbn [Spec.plain_id] in Hb.
    apply andb_prop in Hb. destruct Hb as [Ha Hb]. cbn [Browser.plain_literal].
    apply id_char_plain in Ha. destruct Ha as [-> _]. now rewrite IH. }
  assert (Hs : String_includes b "</script" = false).
  { pose proof (plain_id_avoids "<" b ltac:(cbn; auto) Hb) as Hlt. clear Hb Hl.
    induction b as [|a b IH]; [reflexivity|]. cbn [Spec.avoids] in Hlt.
    apply andb_prop in Hlt. destruct Hlt as [Ha Hlt]. apply negb_true_iff in Ha.
    cbn [String_includes String_startsWith].
    rewrite Ascii.eqb_sym, Ha. now rewrite IH. }
  now rewrite Hl, Hs.
Qed.

Lemma decode_plain (b : string) : Spec.plain_id b = true -> Browser.decode b = b.
Proof.
  induction b as [|a b IH]; [reflexivity|]. cbn [Spec.plain_id]. intros Hb.
  apply andb_prop in Hb. destruct Hb as [Ha Hb]. specialize (IH Hb).
  destruct a as [[] [] [] [] [] [] [] []]; vm_compute in Ha; try discriminate Ha;
    cbn [Browser.decode Ascii.eqb Bool.eqb andb]; now rewrite IH.
Qed.

Lemma target_of_promotion (b t : string) :
  Spec.plain_id b = true ->
  Browser.request_target ("/registerTrelloBoard?boardId=" ++ b ++ "&token=" ++ t)
  = ("/registerTrelloBoard", "boardId=" ++ b ++ "&token=" ++ before "#" t).
Proof.
  intros Hb. unfold Browser.request_target.
  assert (Hsent : before "#" ("/registerTrelloBoard?boardId=" ++ b ++ "&token=" ++ t)
                  = "/registerTrelloBoard?boardId=" ++ b ++ "&token=" ++ before "#" t).
  { cbn [append before Ascii.eqb Bool.eqb].
    rewrite before_avoids by (apply plain_id_avoids; [cbn; auto|assumption]).
    reflexivity. }
  rewrite Hsent. reflexivity.
Qed.

Lemma boardId_of_query (b rest : string) :
  Spec.plain_id b = true ->
  lookup (Browser.parse_query ("boardId=" ++ b ++ "&" ++ rest)) "boardId" = Some b.
Proof.
  intros Hb. unfold Browser.parse_query.
  assert (Hsplit : String_split Browser.amp ("boardId=" ++ b ++ "&" ++ rest)
                   = ("boardId=" ++ b) :: String_split Browser.amp rest).
  { change ("boardId=" ++ b ++ "&" ++ rest)
      with (("boardId=" ++ b) ++ String Browser.amp rest).
    apply split_avoids. cbn [append Spec.avoids Ascii.eqb Bool.eqb negb andb].
    apply plain_id_avoids; [cbn; auto|assumption]. }
  rewrite Hsplit. cbn [filter append String.eqb negb map lookup].
  unfold Browser.parse_pair.
  cbn [append before after Ascii.eqb Bool.eqb Browser.decode fst snd lookup].
  rewrite (decode_plain b Hb). reflexivity.
Qed.

Section WithHost.
Context `{Host}.

(** C9: [registerBoard] first rejects a request without a board id, 400 with
    an error that says which parameter is missing, whatever the token and the
    API key; then, the board id being there, rejects a deployment without an
    API key, 500, whatever the token and the referer, so before any redirect.
    Neither makes an outbound call. *)
Theorem registerBoard_checks_board_id_then_api_key (req : Request) :
  (present (lookup (query req) "boardId") = false ->
   exists v,
     Registration.registerBoard req = ([], Ok (Json 400 v))
     /\ String_includes (str (field v "error")) "Missing required parameter" = true)
  /\ (present (lookup (query req) "boardId") = true ->
      Config.getTrelloApiKey = "" ->
      exists v,
        Registration.registerBoard req = ([], Ok (Json 500 v))
        /\ field v "error" = VStr "Trello API key not configured").
Proof.
  unfold Registration.registerBoard. split.
  - intros Hb. eexists. split.
    + destruct (lookup (query req) "boardId") as [b|]; [|reflexivity].
      cbn [present] in Hb. apply negb_false_iff in Hb. rewrite Hb. reflexivity.
    + reflexivity.
  - intros Hb Hk. eexists. split.
    + destruct (lookup (query req) "boardId") as [b|]; [|discriminate Hb].
      cbn [present] in Hb. apply negb_true_iff in Hb. rewrite Hb, Hk. reflexivity.
    + reflexivity.
Qed.

(** C10, as the code has it: on the return hop recognised by the referer, a
    board id made of letters, digits, [-] and [_] is written into the
    promotion page, and the request that page issues, to the same endpoint,
    carries that board id unchanged next to the token. *)
Theorem plain_board_id_survives_token_promotion
    (req : Request) (boardId referer hash token : string) :
  lookup (query req) "boardId" = Some boardId ->
  boardId <> "" -> Spec.plain_id boardId = true ->
  present (lookup (query req) "token") = false ->
  Config.getTrelloApiKey <> "" ->
  lookup (headers req) "referer" = Some referer ->
  String_includes referer "trello.com/1/authorize" = true ->
  Browser.tokenMatch hash = Some token ->
  let href := "/registerTrelloBoard?boardId=" ++ boardId ++ "&token=" ++ token in
  Registration.registerBoard req = ([], Ok (SendPage 200 (TokenPromotionPage boardId)))
  /\ Browser.run (TokenPromotionPage boardId) hash = Some href
  /\ fst (Browser.request_target href) = "/registerTrelloBoard"
  /\ lookup (Browser.parse_query (snd (Browser.request_target href))) "boardId"
     = Some boardId.
Proof.
  intros Hq Hne Hplain Htok Hkey Href Hinc Hmatch href.
  split; [|split; [|split]].
  - unfold Registration.registerBoard. rewrite Hq.
    apply String.eqb_neq in Hne, Hkey. rewrite Hne, Hkey.
    assert (Hauth : Registration.authorize req boardId Config.getTrelloApiKey
                    = ([], Ok (SendPage 200 (TokenPromotionPage boardId)))).
    { unfold Registration.authorize. rewrite Href, Hinc.
      destruct referer; [discriminate Hinc|reflexivity]. }
    destruct (lookup (query req) "token") as [tok|]; [|now rewrite Hauth].
    cbn [present] in Htok. apply negb_false_iff in Htok. now rewrite Htok, Hauth.
  - unfold Browser.run. now rewrite Hmatch, (plain_id_literal boardId Hplain).
  - subst href. now rewrite target_of_promotion.
  - subst href. rewrite target_of_promotion by assumption. cbn [snd].
    now apply (boardId_of_query boardId ("token=" ++ before "#" token)).
Qed.

End WithHost.
End Flow.

(* ================================================================= *)
(** ** The properties at concrete requests *)

Module Checks.

(** C1 as stated fails: a payload without [repository], here the empty
    object, makes [formatGitHubMessage] throw on [payload.repository.name]. *)
Lemma formatGitHubMessage_throws_without_repository :
  @Discord.formatGitHubMessage Sample.production (VObj []) "ping" = Throw TypeError.
Proof. reflexivity. Qed.

(** C1 at a ping event of the test repository. *)
Lemma formatGitHubMessage_returns_on_shaped_payloads_witness :
  GitHub_payload_ok "ping" (Sample.push []) = true
  /\ exists card,
       @Discord.formatGitHubMessage Sample.production (Sample.push []) "ping" = Ok card
       /\ Discord.title card = "[test-repo] ping event received".
Proof.
  split; [reflexivity|].
  destruct (@Formatter.formatGitHubMessage_returns_on_shaped_payloads
              Sample.production (Sample.push []) "ping" eq_refl) as (card & Hc & Ht).
  exists card. split; [exact Hc|]. exact (proj1 (Ht eq_refl)).
Defined.

(** C2 at a created card without a list. *)
Lemma formatTrelloMessage_returns_on_shaped_payloads_witness :
  Trello_payload_ok (Sample.trello "createCard" []) = true
  /\ exists card,
       @Discord.formatTrelloMessage Sample.production (Sample.trello "createCard" [])
       = Ok (Some card)
       /\ Discord.title card = "Card Created" /\ Discord.fields card = [].
Proof.
  split; [reflexivity|].
  destruct (@Formatter.formatTrelloMessage_returns_on_shaped_payloads
              Sample.production (Sample.trello "createCard" []) eq_refl)
    as (r & Hr & Hcreate & _).
  destruct (Hcreate eq_refl eq_refl) as (card & -> & Ht & _ & Hf).
  exists card. auto.
Defined.

(** C3 at a signature of ten bytes, where the digest has seventy-one. *)
Lemma signature_of_another_length_is_not_answered_403_witness :
  let req := Sample.request "POST"
               [("x-github-event", "push"); ("x-hub-signature-256", "sha256=abc")]
               (Sample.push []) [] in
  @Index.githubNotification Sample.production req
  = ([], Ok (Send 500 "Error processing webhook")).
Proof.
  intros req.
  refine (proj2 (@Handler.signature_of_another_length_is_not_answered_403
                   Sample.production req "sha256=abc" eq_refl _ eq_refl _ eq_refl _ _));
    vm_compute; discriminate.
Defined.

(** C4 as stated fails: with a secret configured and test mode off, a POST
    that carries neither the event type nor a signature is answered 403. *)
Lemma unsigned_request_without_event_type_is_forbidden :
  let req := Sample.request "POST" [] (Sample.push []) [] in
  lookup (headers req) "x-github-event" = None
  /\ @GitHub.handleWebhook Sample.production req Sample.hook "s3cret"
     = ([], Ok (Send 403 "Invalid signature")).
Proof. split; reflexivity. Qed.

(** C4 at a deployment without a secret. *)
Lemma missing_event_type_is_a_bad_request_witness :
  let req := Sample.request "POST" [] (Sample.push []) [] in
  @GitHub.handleWebhook Sample.production req Sample.hook ""
  = ([], Ok (Send 400 "No event type specified")).
Proof.
  intros req.
  exact (@Handler.missing_event_type_is_a_bad_request Sample.production req Sample.hook ""
           eq_refl eq_refl (or_introl eq_refl)).
Defined.

(** C5 at a push of seven commits. *)
Lemma push_lists_at_most_five_commits_witness :
  let payload := Sample.push (repeat (Sample.commit "1234567890abcdef") 7) in
  GitHub_payload_ok "push" payload = true
  /\ exists card,
       @Discord.formatGitHubMessage Sample.production payload "push" = Ok card
       /\ List.length (Discord.fields card) = 6%nat
       /\ nth 5 (map Discord.value (Discord.fields card)) VUndef
          = VStr "2 more commits not shown".
Proof.
  intros payload. split; [reflexivity|].
  destruct (@Formatter.push_lists_at_most_five_commits Sample.production payload eq_refl)
    as (card & Hc & Hf & _).
  exists card. split; [exact Hc|]. rewrite Hf. split; reflexivity.
Defined.

(** C6 at bodies of 1001 letters. *)
Lemma bodies_are_cut_to_1000_characters_witness :
  let b := Sample.letters 1001 in
  String.length (Spec.ellipsis b) = 1000%nat
  /\ exists card,
       @Discord.formatTrelloMessage Sample.production
         (Sample.trello "commentCard" [("text", VStr b)]) = Ok (Some card)
       /\ map Discord.value (Discord.fields card)
          = [VStr (Sample.letters 997 ++ "...")].
Proof.
  intros b.
  assert (Hb : b <> "") by discriminate.
  assert (Hr : relayed (Sample.trello "commentCard" [("text", VStr b)]))
    by (repeat split; reflexivity).
  destruct (@Formatter.bodies_are_cut_to_1000_characters Sample.production b
              (Sample.pull_request (VStr b)) (Sample.issue_event (VStr b))
              (Sample.issue_comment (VStr b))
              (Sample.trello "commentCard" [("text", VStr b)])
              Hb eq_refl eq_refl eq_refl eq_refl eq_refl eq_refl Hr eq_refl eq_refl)
    as (_ & _ & _ & (card & Hc & Hf) & Hlong & _).
  split.
  - apply Hlong. vm_compute. reflexivity.
  - exists card. split; [exact Hc|]. rewrite Hf. vm_compute. reflexivity.
Defined.

(** C7 at a created check item, in production. *)
Lemma filtered_actions_are_acknowledged_not_relayed_witness :
  let req := Sample.request "POST" [] (Sample.trello "createCheckItem" []) [] in
  @Trello.handleTrelloEvent Sample.production req Sample.hook
  = ([], Ok (Send 200 "Trello event filtered (notification not sent)")).
Proof.
  intros req.
  refine (proj2 (@Formatter.filtered_actions_are_acknowledged_not_relayed
                   Sample.production req Sample.hook "createCheckItem" _ eq_refl)).
  cbn. auto.
Defined.

(** C8 in test mode with nothing listening at the webhook address. *)
Lemma failed_delivery_in_test_mode_throws_witness :
  exists calls,
    @Discord.sendDiscordMessage Sample.offline_test Sample.hook
      (@Spec.Trello_card Sample.offline_test (VObj []) "Trello Activity" "" [])
    = (calls, Throw (ReferenceError "payload")).
Proof.
  eexists.
  exact (@Handler.failed_delivery_in_test_mode_throws Sample.offline_test Sample.hook
           (@Spec.Trello_card Sample.offline_test (VObj []) "Trello Activity" "" [])
           (AxiosError "connect ECONNREFUSED" VUndef) eq_refl eq_refl).
Defined.

(** C9 at a request without a board id, and at a deployment without key. *)
Lemma registerBoard_checks_board_id_then_api_key_witness :
  (exists v,
     @Registration.registerBoard (Sample.host false "" "" (Ok VNull))
       (Sample.request "GET" [] VUndef [("token", "t1")]) = ([], Ok (Json 400 v)))
  /\ (exists v,
        @Registration.registerBoard (Sample.host false "" "" (Ok VNull))
          (Sample.request "GET" [] VUndef [("boardId", "b1")]) = ([], Ok (Json 500 v))).
Proof.
  split.
  - destruct (proj1 (@Flow.registerBoard_checks_board_id_then_api_key
                       (Sample.host false "" "" (Ok VNull))
                       (Sample.request "GET" [] VUndef [("token", "t1")])) eq_refl)
      as (v & Hv & _).
    now exists v.
  - destruct (proj2 (@Flow.registerBoard_checks_board_id_then_api_key
                       (Sample.host false "" "" (Ok VNull))
                       (Sample.request "GET" [] VUndef [("boardId", "b1")]))
                eq_refl eq_refl)
      as (v & Hv & _).
    now exists v.
Defined.

(** C10 as stated fails: the board id [a&b] reaches the promotion page, and
    the request the page issues carries the board id [a]. *)
Lemma board_id_with_ampersand_is_cut_by_token_promotion :
  let req := Sample.request "GET"
               [("referer", "https://trello.com/1/authorize?response_type=token")]
               VUndef [("boardId", "a&b")] in
  let href := "/registerTrelloBoard?boardId=a&b&token=t1" in
  @Registration.registerBoard Sample.production req
  = ([], Ok (SendPage 200 (TokenPromotionPage "a&b")))
  /\ Browser.run (TokenPromotionPage "a&b") "#token=t1" = Some href
  /\ lookup (Browser.parse_query (snd (Browser.request_target href))) "boardId"
     = Some "a".
Proof. repeat split. Qed.

(** C10 at the board id [b1]. *)
Lemma plain_board_id_survives_token_promotion_witness :
  let req := Sample.request "GET"
               [("referer", "https://trello.com/1/authorize?response_type=token")]
               VUndef [("boardId", "b1")] in
  @Registration.registerBoard Sample.production req
  = ([], Ok (SendPage 200 (TokenPromotionPage "b1")))
  /\ lookup (Browser.parse_query
               (snd (Browser.request_target "/registerTrelloBoard?boardId=b1&token=t1")))
       "boardId" = Some "b1".
Proof.
  intros req.
  assert (Hk : @Config.getTrelloApiKey Sample.production <> "") by (vm_compute; discriminate).
  assert (Hn : "b1" <> "") by discriminate.
  destruct (@Flow.plain_board_id_survives_token_promotion Sample.production req "b1"
              "https://trello.com/1/authorize?response_type=token" "#token=t1" "t1"
              eq_refl Hn eq_refl eq_refl Hk eq_refl eq_refl eq_refl)
    as (Hpage & _ & _ & Hid).
  split; [exact Hpage|exact Hid].
Defined.

(** The repository's integration tests, on the embedding. *)

Example push_event_is_relayed_in_test_mode :
  let echo := VObj [("success", VBool true)] in
  let req := Sample.request "POST"
               [("x-github-event", "push");
                ("x-hub-signature-256", "sha256=invalid_signature")]
               (Sample.push [Sample.commit "1234567890abcdef1234567890abcdef12345678"]) [] in
  exists calls,
    @Index.githubNotification (Sample.host true "test-github-secret" "" (Ok echo)) req
    = (calls, Ok (Json 200 (VObj [("message", VStr "Webhook processed successfully");
                                  ("discord_response", echo)])))
    /\ List.length calls = 1%nat.
Proof. eexists. split; reflexivity. Qed.

Example push_card_of_the_test_payload :
  exists card,
    @Discord.formatGitHubMessage Sample.production
      (Sample.push [Sample.commit "1234567890abcdef1234567890abcdef12345678"]) "push"
    = Ok card
    /\ Discord.title card = "[test-repo] Push to main"
    /\ Discord.description card = "1 commit(s) pushed"
    /\ map Discord.name (Discord.fields card) = ["1234567"].
Proof. eexists. repeat split. Qed.

Example get_is_not_allowed :
  @Index.githubNotification Sample.production (Sample.request "GET" [] VUndef [])
  = ([], Ok (Send 405 "Method not allowed")).
Proof. reflexivity. Qed.

Example unsupported_event_is_accepted :
  @Index.githubNotification (Sample.host false "" "" (Ok VNull))
    (Sample.request "POST" [("x-github-event", "unsupported_event")] (Sample.push []) [])
  = ([], Ok (Send 202 "Event type not processed")).
Proof. reflexivity. Qed.

Example board_liveness_checks :
  @Index.trelloNotification Sample.production (Sample.request "HEAD" [] VUndef [])
  = ([], Ok (End_ 200))
  /\ @Index.trelloNotification Sample.production (Sample.request "GET" [] VUndef [])
     = ([], Ok (Send 200 "Webhook validation successful")).
Proof. split; reflexivity. Qed.

Example first_visit_redirects_to_the_authorization_page :
  exists location,
    @Index.registerTrelloBoard Sample.production
      (Sample.request "GET" [] VUndef [("boardId", "b1")])
    = ([], Ok (Redirect 302 location))
    /\ String_includes location "https://trello.com/1/authorize" = true
    /\ String_includes location "boardId%3Db1" = true.
Proof. eexists. repeat split. Qed.

End Checks.

(* ================================================================= *)
(** * Further properties of the handlers *)

(** ** functions/src/github/webhook.js and the sender *)

Module Webhook.
Section WithHost.
Context `{Host}.

Lemma gate_lets_through (req : Request) (secret : string) :
  Observe.gate_open req secret ->
  (if negb (String.eqb secret "") && negb Config.isTestMode
   then ok <- GitHub.verifyGitHubSignature req secret ;; Ok (negb ok)
   else Ok false) = Ok false.
Proof.
  intros [-> | [-> | ->]]; try reflexivity.
  - now rewrite andb_false_r.
  - now destruct (negb _ && negb _).
Qed.

Lemma supported_not_empty (ev : string) :
  existsb (String.eqb ev) GitHub.supportedEvents = true -> String.eqb ev "" = false.
Proof. destruct ev; [discriminate|reflexivity]. Qed.

(** X1: with a secret configured and a body to sign, [verifyGitHubSignature]
    returns true exactly when the header is the digest, [sha256=] followed by
    the hex HMAC of the serialised body. *)
Theorem verifyGitHubSignature_accepts_only_the_digest
    (req : Request) (secret sig : string) :
  secret <> "" -> body req <> VUndef ->
  lookup (headers req) "x-hub-signature-256" = Some sig ->
  GitHub.verifyGitHubSignature req secret = Ok true <-> sig = Observe.digest req secret.
Proof.
  intros Hs Hb Hh. unfold Observe.digest. split.
  - intros Hv. destruct (String.eqb sig "") eqn:Eg.
    + unfold GitHub.verifyGitHubSignature in Hv.
      apply String.eqb_neq in Hs. rewrite Hs, Hh, Eg in Hv. discriminate Hv.
    + apply String.eqb_neq in Eg.
      rewrite (Handler.verifyGitHubSignature_of_header req secret sig) in Hv by assumption.
      remember ("sha256=" ++ hmac_sha256_hex secret (JSON_stringify (body req))) as d.
      unfold Node.timingSafeEqual in Hv.
      destruct (Nat.eqb _ _); [|discriminate Hv].
      assert (Hb' : Node.bytes_eqb (Node.Buffer_from sig) (Node.Buffer_from d) = true)
        by congruence.
      now apply Handler.bytes_eqb_eq, Handler.Buffer_from_injective in Hb'.
  - intros ->.
    rewrite (Handler.verifyGitHubSignature_of_header req secret
               ("sha256=" ++ hmac_sha256_hex secret (JSON_stringify (body req))))
      by (assumption || (cbn [append]; discriminate)).
    unfold Node.timingSafeEqual. rewrite Nat.eqb_refl. f_equal.
    now apply Handler.bytes_eqb_eq.
Qed.

(** X2: [sendDiscordMessage] makes exactly one call, a POST of
    [{ embeds: [card] }] to the webhook address; it returns the response data
    when the call succeeds and, outside test mode, rejects with the very
    error of the call when it fails. *)
Theorem sendDiscordMessage_posts_the_envelope_once
    (webhookUrl : string) (embed : Discord.Card) :
  let sent := Discord.sendDiscordMessage webhookUrl embed in
  let outcome := axios_post webhookUrl (Observe.envelope embed) [] in
  fst sent = [POST webhookUrl (Observe.envelope embed) []]
  /\ (forall data, outcome = Ok data -> snd sent = Ok data)
  /\ (forall e, Config.isTestMode = false -> outcome = Throw e -> snd sent = Throw e).
Proof.
  cbv zeta. unfold Discord.sendDiscordMessage, Observe.envelope.
  destruct (axios_post webhookUrl _ []) as [data|e] eqn:E; cbn [try_catch].
  - split; [reflexivity|]. split.
    + intros d Hd. now injection Hd as ->.
    + intros e' _ He. discriminate He.
  - destruct Config.isTestMode; cbn [pure fst snd app].
    + split; [reflexivity|]. split.
      * intros d Hd. discriminate Hd.
      * intros e' Ht. discriminate Ht.
    + split; [reflexivity|]. split.
      * intros d Hd. discriminate Hd.
      * intros e' _ He. now injection He as ->.
Qed.

(** X3: a POST that passes the signature check, names a supported event and
    carries a payload the formatter accepts is relayed by one call, the POST
    of the formatter's card, and answered 200: in test mode as JSON with the
    chat platform's response under [discord_response], otherwise as text. *)
Theorem supported_event_is_relayed_once
    (req : Request) (discordWebhookUrl secret ev : string)
    (card : Discord.Card) (response : val) :
  String.eqb (method req) "POST" = true ->
  Observe.gate_open req secret ->
  lookup (headers req) "x-github-event" = Some ev ->
  existsb (String.eqb ev) GitHub.supportedEvents = true ->
  Discord.formatGitHubMessage (body req) ev = Ok card ->
  axios_post discordWebhookUrl (Observe.envelope card) [] = Ok response ->
  GitHub.handleWebhook req discordWebhookUrl secret
  = ([POST discordWebhookUrl (Observe.envelope card) []],
     Ok (Observe.relayed_reply "Webhook processed successfully" response)).
Proof.
  intros Hm Hg He Hs Hf Hp. unfold GitHub.handleWebhook.
  rewrite Hm, (gate_lets_through req secret Hg), He, (supported_not_empty ev Hs), Hs, Hf.
  cbn [negb pure io_bind app]. unfold Discord.sendDiscordMessage.
  unfold Observe.envelope in Hp. rewrite Hp. unfold Observe.relayed_reply.
  cbn [try_catch io_bind]. now destruct Config.isTestMode.
Qed.

(** X4: when the formatter throws on the payload nothing is sent, and when
    the delivery fails one call was made; either way the request is answered
    500, in test mode as well. *)
Theorem relay_failures_are_answered_500
    (req : Request) (discordWebhookUrl secret ev : string) :
  String.eqb (method req) "POST" = true ->
  Observe.gate_open req secret ->
  lookup (headers req) "x-github-event" = Some ev ->
  existsb (String.eqb ev) GitHub.supportedEvents = true ->
  let answer := GitHub.handleWebhook req discordWebhookUrl secret in
  (forall e, Discord.formatGitHubMessage (body req) ev = Throw e ->
             answer = ([], Ok (Send 500 "Error processing webhook")))
  /\ (forall card e,
        Discord.formatGitHubMessage (body req) ev = Ok card ->
        axios_post discordWebhookUrl (Observe.envelope card) [] = Throw e ->
        answer = ([POST discordWebhookUrl (Observe.envelope card) []],
                  Ok (Send 500 "Error processing webhook"))).
Proof.
  intros Hm Hg He Hs answer. subst answer. unfold GitHub.handleWebhook.
  rewrite Hm, (gate_lets_through req secret Hg), He, (supported_not_empty ev Hs), Hs.
  cbn [negb pure io_bind app]. split.
  - intros e ->. reflexivity.
  - intros card e -> Hp. unfold Discord.sendDiscordMessage.
    unfold Observe.envelope in Hp. rewrite Hp.
    cbn [try_catch io_bind]. now destruct Config.isTestMode.
Qed.

(** X5: a POST that passes the signature check and names an event outside
    push, pull_request, issues and issue_comment is answered 202; the payload
    is not read and nothing is sent. *)
Theorem other_events_are_accepted_not_relayed
    (req : Request) (discordWebhookUrl secret ev : string) :
  String.eqb (method req) "POST" = true ->
  Observe.gate_open req secret ->
  lookup (headers req) "x-github-event" = Some ev -> ev <> "" ->
  existsb (String.eqb ev) GitHub.supportedEvents = false ->
  GitHub.handleWebhook req discordWebhookUrl secret
  = ([], Ok (Send 202 "Event type not processed")).
Proof.
  intros Hm Hg He Hne Hs. unfold GitHub.handleWebhook.
  apply String.eqb_neq in Hne.
  now rewrite Hm, (gate_lets_through req secret Hg), He, Hne, Hs.
Qed.


End WithHost.
End Webhook.

(* ================================================================= *)
(** ** The cards, branch by branch *)

Module Cards.

Lemma substring_all (s : string) : String.substring 0 (String.length s) s = s.
Proof. induction s as [|a s IH]; [reflexivity|]. cbn [String.length String.substring]. now rewrite IH. Qed.

Lemma substring_short (n : nat) (s : string) :
  (String.length s <= n)%nat -> String.substring 0 n s = s.
Proof.
  revert n. induction s as [|a s IH]; intros [|n] Hn; cbn in *; try reflexivity; try lia.
  rewrite IH; [reflexivity|lia].
Qed.

Lemma strip_refs_heads (branch : string) :
  String_replace ("refs/heads/" ++ branch) "refs/heads/" "" = branch.
Proof.
  unfold String_replace.
  assert (E : String.index 0 "refs/heads/" ("refs/heads/" ++ branch) = Some 0%nat)
    by (cbn; destruct branch; reflexivity).
  rewrite E. cbn [append String.length String.substring Nat.add Nat.sub].
  rewrite Nat.sub_0_r. apply substring_all.
Qed.

Section WithHost.
Context `{Host}.

(** X7: a push to [refs/heads/<branch>] is titled
    [[<repo>] Push to <branch>] and links to the comparison; with commits its
    description counts all of them, and a push without commits has neither
    description nor fields. *)
Theorem push_card_names_the_branch (payload : val) (branch : string) :
  GitHub_payload_ok "push" payload = true ->
  field payload "ref" = VStr ("refs/heads/" ++ branch) ->
  let N := List.length (commits_of payload) in
  exists card,
    Discord.formatGitHubMessage payload "push" = Ok card
    /\ Discord.title card = "[" ++ Spec.repository_name payload ++ "] Push to " ++ branch
    /\ Discord.url card = field payload "compare"
    /\ (N = 0%nat -> Discord.description card = "" /\ Discord.fields card = [])
    /\ (N <> 0%nat ->
        Discord.description card = Number_toString (Z.of_nat N) ++ " commit(s) pushed").
Proof.
  intros Hp Href N. subst N. unfold GitHub_payload_ok in Hp.
  cbn [String.eqb Ascii.eqb Bool.eqb] in Hp. apply andb_prop in Hp. destruct Hp as [Hr Hb].
  unfold push_ok in Hb. apply andb_prop in Hb. destruct Hb as [Hs Hc].
  unfold commits_of.
  destruct (field payload "commits") as [| | | | |l|] eqn:Ec; try discriminate Hc.
  eexists. split; [now apply (GitHubCards.push_card payload l)|].
  cbn [Discord.title Discord.url Discord.description Discord.fields Spec.GitHub_card].
  rewrite Href. cbn [str]. rewrite strip_refs_heads.
  repeat split.
  - destruct l; [reflexivity|discriminate].
  - destruct l; [reflexivity|discriminate].
  - intros Hn. destruct l; [contradiction|reflexivity].
Qed.

(** X8: every card of [formatGitHubMessage] carries the GitHub footer, the
    time of the call, the author taken from the sender ([Unknown] without
    one), the colour orange for issues and green otherwise, and at most six
    fields. *)
Theorem GitHub_cards_share_their_frame (payload : val) (eventType : string) :
  GitHub_payload_ok eventType payload = true ->
  exists card,
    Discord.formatGitHubMessage payload eventType = Ok card
    /\ Discord.footer card = Discord.GitHub_footer
    /\ Discord.timestamp card = Date_now_toISOString
    /\ Discord.color card = (if String.eqb eventType "issues" then 0xE99455 else 0x2EA44F)
    /\ (exists a, Discord.author card = Some a
                  /\ (truthy (field payload "sender") = false ->
                      a = {| Discord.author_name := VStr "Unknown";
                             Discord.author_url := VStr "";
                             Discord.icon_url := VStr "" |})
                  /\ (truthy (field payload "sender") = true ->
                      Discord.author_name a = field (field payload "sender") "login"))
    /\ (List.length (Discord.fields card) <= 6)%nat.
Proof.
  unfold GitHub_payload_ok. intros Hp. apply andb_prop in Hp. destruct Hp as [Hr Hb].
  assert (Hframe : forall t d u c fs,
    (List.length fs <= 6)%nat ->
    c = (if String.eqb eventType "issues" then 0xE99455 else 0x2EA44F) ->
    Discord.footer (Spec.GitHub_card payload t d u c fs) = Discord.GitHub_footer
    /\ Discord.timestamp (Spec.GitHub_card payload t d u c fs) = Date_now_toISOString
    /\ Discord.color (Spec.GitHub_card payload t d u c fs)
       = (if String.eqb eventType "issues" then 0xE99455 else 0x2EA44F)
    /\ (exists a, Discord.author (Spec.GitHub_card payload t d u c fs) = Some a
                  /\ (truthy (field payload "sender") = false ->
                      a = {| Discord.author_name := VStr "Unknown";
                             Discord.author_url := VStr "";
                             Discord.icon_url := VStr "" |})
                  /\ (truthy (field payload "sender") = true ->
                      Discord.author_name a = field (field payload "sender") "login"))
    /\ (List.length (Discord.fields (Spec.GitHub_card payload t d u c fs)) <= 6)%nat).
  { intros t d u c fs Hfs ->. repeat split; [|assumption].
    eexists. split; [reflexivity|]. unfold Spec.sender_value.
    split; intros ->; reflexivity. }
  destruct (String.eqb eventType "push") eqn:E1.
  { apply String.eqb_eq in E1. subst eventType.
    unfold push_ok in Hb. apply andb_prop in Hb. destruct Hb as [Href Hc].
    destruct (field payload "commits") as [| | | | |l|] eqn:Ec; try discriminate Hc.
    eexists. split; [now apply (GitHubCards.push_card payload l)|].
    apply Hframe; [|reflexivity].
    rewrite length_app, length_map, length_firstn. unfold Spec.more_commits.
    destruct (5 <? List.length l)%nat; cbn [List.length]; lia. }
  destruct (String.eqb eventType "pull_request") eqn:E2.
  { apply String.eqb_eq in E2. subst eventType.
    eexists. split; [now apply GitHubCards.pull_request_card|].
    apply Hframe; [|reflexivity]. unfold Spec.body_field.
    rewrite ?length_app. destruct (truthy (field _ "body")); cbn [List.length]; lia. }
  destruct (String.eqb eventType "issues") eqn:E3.
  { apply String.eqb_eq in E3. subst eventType.
    eexists. split; [now apply GitHubCards.issues_card|].
    apply Hframe; [|reflexivity]. unfold Spec.body_field.
    rewrite ?length_app. destruct (truthy (field _ "body")); cbn [List.length]; lia. }
  destruct (String.eqb eventType "issue_comment") eqn:E4.
  { apply String.eqb_eq in E4. subst eventType.
    eexists. split; [now apply GitHubCards.issue_comment_card|].
    apply Hframe; [|reflexivity]. unfold Spec.body_field.
    rewrite ?length_app. destruct (truthy (field _ "body")); cbn [List.length]; lia. }
  eexists. split.
  - apply GitHubCards.other_event_card; [assumption|].
    cbn [existsb GitHub.supportedEvents]. now rewrite E1, E2, E3, E4.
  - apply Hframe; [cbn; lia|reflexivity].
Qed.

(** X9: a pull-request card is titled with the action, links the request by
    number and title, and opens with the inline fields State and Merged,
    Merged being Yes or No by the truth of [merged]; without a body these are
    its only fields. *)
Theorem pull_request_card_shows_state_and_merge (payload : val) :
  GitHub_payload_ok "pull_request" payload = true ->
  let pr := field payload "pull_request" in
  exists card,
    Discord.formatGitHubMessage payload "pull_request" = Ok card
    /\ Discord.title card
       = "[" ++ Spec.repository_name payload ++ "] Pull Request "
         ++ text (field payload "action")
    /\ Discord.description card
       = "[#" ++ text (field pr "number") ++ ": " ++ text (field pr "title") ++ "]("
         ++ text (field pr "html_url") ++ ")"
    /\ Discord.url card = field pr "html_url"
    /\ firstn 2 (Discord.fields card)
       = [ {| Discord.name := "State"; Discord.value := field pr "state";
              Discord.inline := Some true |};
           {| Discord.name := "Merged";
              Discord.value := VStr (if truthy (field pr "merged") then "Yes" else "No");
              Discord.inline := Some true |} ]
    /\ (truthy (field pr "body") = false -> List.length (Discord.fields card) = 2%nat).
Proof.
  intros Hp pr. unfold GitHub_payload_ok in Hp.
  cbn [String.eqb Ascii.eqb Bool.eqb] in Hp. apply andb_prop in Hp. destruct Hp as [Hr Hb].
  eexists. split; [now apply GitHubCards.pull_request_card|].
  cbn [Discord.title Discord.url Discord.description Discord.fields Spec.GitHub_card].
  repeat split. fold pr. intros Hbody. unfold Spec.body_field. now rewrite Hbody.
Qed.

(** X10: the field of a commit is named by its id cut to seven characters (a
    shorter id is kept whole) and shows the first line only of a message of
    several lines. *)
Theorem commit_field_shows_short_id_and_first_line (c : val) (id first rest : string) :
  commit_ok c = true ->
  field c "id" = VStr id ->
  field c "message" = VStr (first ++ String Discord.LF rest) ->
  Spec.avoids Discord.LF first = true ->
  exists f,
    Discord.commit_field c = Ok f
    /\ Discord.name f = String.substring 0 7 id
    /\ String.length (Discord.name f) = Nat.min 7 (String.length id)
    /\ ((String.length id <= 7)%nat -> Discord.name f = id)
    /\ Discord.value f
       = VStr ("[" ++ first ++ "](" ++ text (field c "url") ++ ") - "
               ++ text (field (field c "author") "name")).
Proof.
  intros Hc Hid Hmsg Hfirst.
  eexists. split; [now apply GitHubCards.commit_field_ok|].
  unfold Spec.commit_line. cbn [Discord.name Discord.value]. rewrite Hid, Hmsg. cbn [str].
  split; [reflexivity|]. split; [apply Facts.length_substring0|].
  split; [apply substring_short|].
  unfold Spec.first_line. rewrite Flow.before_avoids by assumption.
  cbn [before]. rewrite Ascii.eqb_refl.
  assert (Hnil : forall x : string, x ++ "" = x)
    by (induction x as [|a x IH]; cbn; [reflexivity|now rewrite IH]).
  now rewrite Hnil.
Qed.

End WithHost.
End Cards.

(* ================================================================= *)
(** ** The board cards and the board handler *)

Module Boards.
Section WithHost.
Context `{Host}.

Lemma link_of (data : val) :
  is_object (field data "action") = true ->
  is_object (field (field data "action") "data") = true ->
  is_object (field (field (field data "action") "data") "card") = true ->
  scalar (field (field (field (field data "action") "data") "card") "name") = true ->
  is_object data = true ->
  is_object (field data "model") = true ->
  scalar (field (field data "model") "url") = true ->
  Discord.card_link (field data "action") data
  = Ok (Spec.card_link (field data "action") data).
Proof. intros. now apply TrelloCards.card_link_ok. Qed.

(** X11: an updated card is reported as moved when both lists are there,
    whatever else changed; otherwise as a change of due date when the old
    values hold a due date, with the old and the new date (or None); and
    otherwise as updated, without fields. *)
Theorem updateCard_reports_a_move_before_a_due_date (data : val) :
  relayed data ->
  field (field data "action") "type" = VStr "updateCard" ->
  let action := field data "action" in
  let d := field action "data" in
  let moved := truthy (field d "listBefore") && truthy (field d "listAfter") in
  let says (card : Discord.Card) (t verb : string) :=
    Discord.title card = t
    /\ Discord.description card
       = text (Spec.member_name action) ++ verb ++ Spec.card_link action data in
  let pair (a b : val) :=
    [ {| Discord.name := "From"; Discord.value := a; Discord.inline := Some true |};
      {| Discord.name := "To"; Discord.value := b; Discord.inline := Some true |} ] in
  exists card,
    Discord.formatTrelloMessage data = Ok (Some card)
    /\ (moved = true ->
        says card "Card Moved" " moved card "
        /\ Discord.fields card
           = pair (field (field d "listBefore") "name") (field (field d "listAfter") "name"))
    /\ (moved = false -> Observe.due_changed (field d "old") = true ->
        says card "Due Date Changed" " updated due date for card "
        /\ exists from to,
             Discord.due_text (field (field d "old") "due") = Ok from
             /\ Discord.due_text (field (field d "card") "due") = Ok to
             /\ Discord.fields card = pair (VStr from) (VStr to))
    /\ (moved = false -> Observe.due_changed (field d "old") = false ->
        says card "Card Updated" " updated card " /\ Discord.fields card = []).
Proof.
  intros Hr Hty action d moved says pair. subst action d moved says pair.
  relay Hr. rewrite Hty. cbn [Discord.strict_eq String.eqb Ascii.eqb Bool.eqb].
  pose proof (link_of data ltac:(assumption) ltac:(assumption) ltac:(assumption)
                ltac:(assumption) ltac:(assumption) ltac:(assumption) ltac:(assumption))
    as Hlink.
  do 2 step.
  assert (Hafter :
    (if truthy (field (field (field data "action") "data") "listBefore")
     then get (field (field data "action") "data") "listAfter"
     else Ok (field (field (field data "action") "data") "listBefore"))
    = Ok (if truthy (field (field (field data "action") "data") "listBefore")
          then field (field (field data "action") "data") "listAfter"
          else field (field (field data "action") "data") "listBefore")).
  { destruct (truthy (field (field (field data "action") "data") "listBefore"));
      [now apply Facts.get_object|reflexivity]. }
  rewrite Hafter. cbn [bind].
  destruct (truthy (field (field (field data "action") "data") "listBefore")) eqn:Hb;
    [destruct (truthy (field (field (field data "action") "data") "listAfter")) eqn:Hl|];
    cbn [andb]; rewrite ?Hb; cbn [andb].
  - step. rewrite Hlink. cbn [bind]. do 2 step.
    eexists. split; [reflexivity|]. repeat split; discriminate.
  - step. unfold Observe.due_changed. unfold old_ok in *. shape.
    destruct (truthy (field (field (field data "action") "data") "old")) eqn:Ho; cbn [andb].
    + destruct (TrelloBranches.hasOwnProperty_old
                  (field (field (field data "action") "data") "old")) as [b Hb'];
        [unfold old_ok; now rewrite andb_true_iff|assumption|].
      rewrite Hb'. cbn [bind]. destruct b.
      * step. rewrite Hlink. cbn [bind]. do 2 step.
        destruct (TrelloBranches.due_text_scalar
                    (field (field (field (field data "action") "data") "card") "due"))
          as [s1 E1]; [assumption|]. rewrite E1. cbn [bind]. step.
        destruct (TrelloBranches.due_text_scalar
                    (field (field (field (field data "action") "data") "old") "due"))
          as [s2 E2]; [assumption|]. rewrite E2. cbn [bind].
        eexists. split; [reflexivity|]. repeat split; try discriminate. eauto.
      * step. rewrite Hlink. cbn [bind].
        eexists. split; [reflexivity|]. repeat split; discriminate.
    + cbn [bind]. step. rewrite Hlink. cbn [bind].
      eexists. split; [reflexivity|]. repeat split; discriminate.
  - step. unfold Observe.due_changed. unfold old_ok in *. shape.
    destruct (truthy (field (field (field data "action") "data") "old")) eqn:Ho; cbn [andb].
    + destruct (TrelloBranches.hasOwnProperty_old
                  (field (field (field data "action") "data") "old")) as [b Hb'];
        [unfold old_ok; now rewrite andb_true_iff|assumption|].
      rewrite Hb'. cbn [bind]. destruct b.
      * step. rewrite Hlink. cbn [bind]. do 2 step.
        destruct (TrelloBranches.due_text_scalar
                    (field (field (field (field data "action") "data") "card") "due"))
          as [s1 E1]; [assumption|]. rewrite E1. cbn [bind]. step.
        destruct (TrelloBranches.due_text_scalar
                    (field (field (field (field data "action") "data") "old") "due"))
          as [s2 E2]; [assumption|]. rewrite E2. cbn [bind].
        eexists. split; [reflexivity|]. repeat split; try discriminate. eauto.
      * step. rewrite Hlink. cbn [bind].
        eexists. split; [reflexivity|]. repeat split; discriminate.
    + cbn [bind]. step. rewrite Hlink. cbn [bind].
      eexists. split; [reflexivity|]. repeat split; discriminate.
Qed.

(** X12: an action that is not filtered and has no case of its own is
    reported as Trello Activity, "<member> performed action: <type>", the
    member being Unknown when the action names no creator. *)
Theorem other_actions_are_reported_by_type (data : val) (type : string) :
  relayed data ->
  field (field data "action") "type" = VStr type ->
  existsb (String.eqb type) Observe.dispatched = false ->
  let action := field data "action" in
  exists card,
    Discord.formatTrelloMessage data = Ok (Some card)
    /\ Discord.title card = "Trello Activity"
    /\ Discord.description card
       = text (Spec.member_name action) ++ " performed action: " ++ type
    /\ Discord.fields card = []
    /\ (truthy (field action "memberCreator") = false ->
        Discord.description card = "Unknown performed action: " ++ type).
Proof.
  intros Hr Hty Hother action. subst action.
  cbn [existsb Observe.dispatched] in Hother.
  repeat (apply orb_false_elim in Hother; destruct Hother as [? Hother]).
  relay Hr. rewrite Hty. cbn [Discord.strict_eq].
  repeat match goal with E : String.eqb type _ = false |- _ => rewrite E; clear E end.
  step. cbn [ToString bind].
  eexists. split; [reflexivity|]. repeat split.
  intros Hmc. cbn [Discord.description]. unfold Spec.member_name. now rewrite Hmc.
Qed.

(** X13: adding a member to a card and removing one are reported with the
    names of both the acting member and the member concerned, and without
    fields. *)
Theorem member_changes_name_both_members (data : val) (type : string) :
  relayed data ->
  field (field data "action") "type" = VStr type ->
  type = "addMemberToCard" \/ type = "removeMemberFromCard" ->
  let action := field data "action" in
  let member := text (field (field (field action "data") "member") "name") in
  exists card,
    Discord.formatTrelloMessage data = Ok (Some card)
    /\ Discord.title card
       = (if String.eqb type "addMemberToCard"
          then "Member Added to Card" else "Member Removed from Card")
    /\ Discord.description card
       = text (Spec.member_name action)
         ++ (if String.eqb type "addMemberToCard" then " added " else " removed ")
         ++ member
         ++ (if String.eqb type "addMemberToCard" then " to card " else " from card ")
         ++ Spec.card_link action data
    /\ Discord.fields card = [].
Proof.
  intros Hr Hty Hcase action member. subst action member.
  relay Hr. rewrite Hty in *.
  pose proof (link_of data ltac:(assumption) ltac:(assumption) ltac:(assumption)
                ltac:(assumption) ltac:(assumption) ltac:(assumption) ltac:(assumption))
    as Hlink.
  destruct Hcase as [-> | ->];
    cbn [Discord.strict_eq String.eqb Ascii.eqb Bool.eqb orb] in *; shape;
    repeat step; rewrite Hlink; cbn [bind];
    eexists; (split; [reflexivity|]); repeat split.
Qed.

(** The frame of a relayed card, whatever the branch. *)
Lemma relayed_card_frame (data : val) :
  relayed data ->
  exists t d fs,
    Discord.formatTrelloMessage data = Ok (Some (Spec.Trello_card data t d fs))
    /\ (List.length fs <= 2)%nat.
Proof.
  intros Hr. relay Hr.
  pose proof (link_of data ltac:(assumption) ltac:(assumption) ltac:(assumption)
                ltac:(assumption) ltac:(assumption) ltac:(assumption) ltac:(assumption))
    as Hlink.
  assert (Hdone : forall t d fs, (List.length fs <= 2)%nat ->
    exists t' d' fs',
      Ok (Some (Spec.Trello_card data t d fs))
      = Ok (Some (Spec.Trello_card data t' d' fs')) /\ (List.length fs' <= 2)%nat)
    by (intros t d fs Hfs; now exists t, d, fs).
  destruct (Discord.strict_eq _ "createCard").
  { step. rewrite Hlink. cbn [bind]. do 2 step.
    destruct (truthy (field _ "list")) eqn:Hl; [step|]; apply Hdone; cbn; lia. }
  destruct (Discord.strict_eq _ "updateCard").
  { do 2 step.
    destruct (truthy (field _ "listBefore")) eqn:Hb; [step|cbn [bind]].
    - destruct (truthy (field _ "listAfter")) eqn:Hafter; cbn [andb].
      + step. rewrite Hlink. cbn [bind]. do 2 step. apply Hdone; cbn; lia.
      + step.
        destruct (truthy (field _ "old")) eqn:Ho.
        * destruct (TrelloBranches.hasOwnProperty_old _ ltac:(eassumption) Ho) as [b Hb'].
          rewrite Hb'. cbn [bind]. unfold old_ok in *. shape.
          destruct b.
          -- step. rewrite Hlink. cbn [bind]. do 2 step.
             destruct (TrelloBranches.due_text_scalar
                         (field (field (field (field data "action") "data") "card") "due"))
               as [s1 E1]; [assumption|]. rewrite E1. cbn [bind]. step.
             destruct (TrelloBranches.due_text_scalar
                         (field (field (field (field data "action") "data") "old") "due"))
               as [s2 E2]; [assumption|]. rewrite E2. cbn [bind]. apply Hdone; cbn; lia.
          -- step. rewrite Hlink. cbn [bind]. apply Hdone; cbn; lia.
        * cbn [bind]. step. rewrite Hlink. cbn [bind]. apply Hdone; cbn; lia.
    - rewrite Hb. cbn [andb]. step.
      destruct (truthy (field _ "old")) eqn:Ho.
      * destruct (TrelloBranches.hasOwnProperty_old _ ltac:(eassumption) Ho) as [b Hb'].
        rewrite Hb'. cbn [bind]. unfold old_ok in *. shape.
        destruct b.
        -- step. rewrite Hlink. cbn [bind]. do 2 step.
           destruct (TrelloBranches.due_text_scalar
                       (field (field (field (field data "action") "data") "card") "due"))
             as [s1 E1]; [assumption|]. rewrite E1. cbn [bind]. step.
           destruct (TrelloBranches.due_text_scalar
                       (field (field (field (field data "action") "data") "old") "due"))
             as [s2 E2]; [assumption|]. rewrite E2. cbn [bind]. apply Hdone; cbn; lia.
        -- step. rewrite Hlink. cbn [bind]. apply Hdone; cbn; lia.
      * cbn [bind]. step. rewrite Hlink. cbn [bind]. apply Hdone; cbn; lia. }
  destruct (Discord.strict_eq _ "commentCard").
  { step. rewrite Hlink. cbn [bind]. do 2 step.
    destruct (truthy (field _ "text")) eqn:Hl; [|apply Hdone; cbn; lia].
    rewrite GitHubCards.truncate_optional by assumption. cbn [bind].
    apply Hdone; cbn; lia. }
  destruct (Discord.strict_eq _ "addMemberToCard").
  { cbn [orb] in *. shape. repeat step. rewrite Hlink. cbn [bind]. apply Hdone; cbn; lia. }
  destruct (Discord.strict_eq _ "removeMemberFromCard").
  { cbn [orb] in *. shape. repeat step. rewrite Hlink. cbn [bind]. apply Hdone; cbn; lia. }
  destruct (Discord.strict_eq _ "addLabelToCard").
  { step. rewrite Hlink. cbn [bind]. do 2 step.
    destruct (truthy (field _ "label")) eqn:Hl; [do 2 step|]; apply Hdone; cbn; lia. }
  do 2 step. apply Hdone; cbn; lia.
Qed.

(** X14: on a payload of the shape Trello sends, [formatTrelloMessage]
    returns null only for a filtered action type; every card it returns has
    the Trello colour and footer, the time of the call, no author, the board
    address (or the empty text) as its link, and at most two fields. *)
Theorem Trello_cards_share_their_frame (data : val) :
  Trello_payload_ok data = true ->
  exists r,
    Discord.formatTrelloMessage data = Ok r
    /\ (r = None ->
        Discord.includes Discord.filteredTypes (field (field data "action") "type") = true)
    /\ (forall card, r = Some card ->
        Discord.color card = 0x0079BF
        /\ Discord.footer card = Discord.Trello_footer
        /\ Discord.timestamp card = Date_now_toISOString
        /\ Discord.author card = None
        /\ Discord.url card = or_else (field (field data "model") "url") (VStr "")
        /\ (List.length (Discord.fields card) <= 2)%nat).
Proof.
  intros Hp. unfold Trello_payload_ok in Hp. cbv zeta in Hp.
  apply andb_prop in Hp. destruct Hp as [Hd Hcases].
  destruct (truthy (field data "action") && truthy (field (field data "action") "type"))
    eqn:Husable.
  2:{ eexists. split; [now apply TrelloCards.unrecognized_card|].
      split; [discriminate|]. intros card [= <-]. repeat split. cbn. lia. }
  destruct (Discord.includes Discord.filteredTypes (field (field data "action") "type"))
    eqn:Hfiltered.
  { eexists. split; [now apply TrelloCards.filtered_null|].
    split; [reflexivity|discriminate]. }
  apply andb_prop in Husable. destruct Husable as [Hact Hty].
  rewrite Hact, Hty in Hcases. cbn [negb orb] in Hcases.
  apply andb_prop in Hcases. destruct Hcases as [Hcases Ha].
  apply andb_prop in Hcases. destruct Hcases as [Hm Hu].
  assert (Hr : relayed data) by (unfold relayed; auto 10).
  destruct (relayed_card_frame data Hr) as (t & d & fs & Hcard & Hfs).
  eexists. split; [exact Hcard|]. split; [discriminate|].
  intros card [= <-]. repeat split. exact Hfs.
Qed.

(** X15: a body without an action is rejected 400 outside test mode, before
    anything is formatted or sent; in test mode the same body, when it is an
    object, is relayed as the card of an unrecognized event. *)
Theorem payload_without_action_is_rejected_outside_test_mode
    (req : Request) (discordWebhookUrl : string) :
  truthy (body req) && truthy (field (body req) "action") = false ->
  let unrecognized :=
    Spec.Trello_card (body req) "Trello Activity" "Unrecognized Trello event" [] in
  (Config.isTestMode = false ->
   Trello.handleTrelloEvent req discordWebhookUrl
   = ([], Ok (Send 400 "Invalid Trello payload")))
  /\ (Config.isTestMode = true -> is_object (body req) = true ->
      forall response,
        axios_post discordWebhookUrl (Observe.envelope unrecognized) [] = Ok response ->
        Trello.handleTrelloEvent req discordWebhookUrl
        = ([POST discordWebhookUrl (Observe.envelope unrecognized) []],
           Ok (Json 200 (VObj [("message", VStr "Trello event processed successfully");
                               ("discord_response", response)])))).
Proof.
  intros Hna unrecognized. subst unrecognized. unfold Trello.handleTrelloEvent. split.
  - intros ->. cbn [negb].
    destruct (truthy (body req)) eqn:Hb; cbn [negb andb] in *; [|reflexivity].
    rewrite Facts.get_truthy by assumption. cbn [bind]. now rewrite Hna.
  - intros Ht Ho response Hp. rewrite Ht. cbn [negb pure io_bind].
    rewrite TrelloCards.unrecognized_card.
    + unfold Discord.sendDiscordMessage. unfold Observe.envelope in Hp. rewrite Hp.
      cbn [try_catch io_bind app]. reflexivity.
    + assumption.
    + replace (truthy (body req)) with true in Hna by (now destruct (body req)).
      cbn [andb] in Hna. now rewrite Hna.
Qed.

(** X16: a payload that passes the shape check and that the formatter turns
    into a card is relayed by one call, the POST of that card, and answered
    200 (with the chat platform's response in test mode); when the delivery
    fails the answer is 500. *)
Theorem board_event_is_relayed_once
    (req : Request) (discordWebhookUrl : string) (card : Discord.Card) :
  Config.isTestMode = true \/ truthy (field (body req) "action") = true ->
  Discord.formatTrelloMessage (body req) = Ok (Some card) ->
  let sent := [POST discordWebhookUrl (Observe.envelope card) []] in
  let outcome := axios_post discordWebhookUrl (Observe.envelope card) [] in
  (forall response, outcome = Ok response ->
     Trello.handleTrelloEvent req discordWebhookUrl
     = (sent, Ok (Observe.relayed_reply "Trello event processed successfully" response)))
  /\ (forall e, outcome = Throw e ->
      Trello.handleTrelloEvent req discordWebhookUrl
      = (sent, Ok (Send 500 "Error processing Trello event"))).
Proof.
  intros Hpass Hf sent outcome. subst sent outcome.
  assert (Hshape :
    (if negb Config.isTestMode
     then if negb (truthy (body req)) then Ok true
          else a <- get (body req) "action" ;; Ok (negb (truthy a))
     else Ok false) = Ok false).
  { destruct Hpass as [-> | Ha]; [reflexivity|].
    destruct (negb Config.isTestMode); [|reflexivity].
    assert (Hb : truthy (body req) = true).
    { destruct (body req); try reflexivity; discriminate Ha. }
    rewrite Hb. cbn [negb]. rewrite Facts.get_truthy by assumption. cbn [bind].
    now rewrite Ha. }
  unfold Trello.handleTrelloEvent. rewrite Hshape, Hf. cbn [pure io_bind].
  unfold Discord.sendDiscordMessage, Observe.envelope, Observe.relayed_reply.
  split.
  - intros response ->. cbn [try_catch io_bind app]. now destruct Config.isTestMode.
  - intros e ->. cbn [try_catch io_bind app]. now destruct Config.isTestMode.
Qed.


End WithHost.
End Boards.

(* ================================================================= *)
(** ** The hops of the board registration *)

Module Hops.

Lemma append_nil (x : string) : x ++ "" = x.
Proof. induction x as [|a x IH]; cbn; [reflexivity|now rewrite IH]. Qed.

Lemma avoids_append (c : ascii) (x y : string) :
  Spec.avoids c (x ++ y) = Spec.avoids c x && Spec.avoids c y.
Proof.
  induction x as [|a x IH]; cbn [append Spec.avoids]; [reflexivity|].
  now rewrite IH, andb_assoc.
Qed.

Lemma before_all (c : ascii) (x : string) : Spec.avoids c x = true -> before c x = x.
Proof.
  intros Hx. rewrite <- (append_nil x) at 1. rewrite Flow.before_avoids by assumption.
  cbn [before]. apply append_nil.
Qed.

Lemma split_last (c : ascii) (x : string) :
  Spec.avoids c x = true -> String_split c x = [x].
Proof.
  induction x as [|a x IH]; cbn [Spec.avoids String_split]; intros Hx; [reflexivity|].
  apply andb_prop in Hx. destruct Hx as [Ha Hx]. apply negb_true_iff in Ha.
  now rewrite Ha, IH.
Qed.

(** What [encodeURIComponent] writes for one character, before the rest. *)
Lemma encodeURIComponent_cons (a : ascii) (r : string) :
  Registration.encodeURIComponent (String a r)
  = Registration.encodeURIComponent (String a "") ++ Registration.encodeURIComponent r.
Proof.
  cbn [Registration.encodeURIComponent]. rewrite append_nil. reflexivity.
Qed.

Lemma encoded_character_is_plain (a : ascii) :
  forallb (fun c => Spec.avoids c (Registration.encodeURIComponent (String a "")))
    ["&"; "="; "+"; "#"; "?"]%char = true.
Proof. destruct a as [[] [] [] [] [] [] [] []]; vm_compute; reflexivity. Qed.

Lemma encodeURIComponent_avoids (c : ascii) (s : string) :
  In c ["&"; "="; "+"; "#"; "?"]%char ->
  Spec.avoids c (Registration.encodeURIComponent s) = true.
Proof.
  intros Hc. induction s as [|a s IH]; [reflexivity|].
  rewrite encodeURIComponent_cons, avoids_append, IH, andb_true_r.
  pose proof (encoded_character_is_plain a) as Ha.
  rewrite forallb_forall in Ha. now apply Ha.
Qed.

Lemma decode_encoded_character (a : ascii) (rest : string) :
  (N_of_ascii a <? 128)%N = true ->
  Browser.decode (Registration.encodeURIComponent (String a "") ++ rest)
  = String a (Browser.decode rest).
Proof.
  destruct a as [[] [] [] [] [] [] [] []]; intros Ha;
    try (vm_compute in Ha; discriminate Ha); reflexivity.
Qed.

(** Decoding undoes [encodeURIComponent] on ASCII text. *)
Lemma decode_encodeURIComponent (s : string) :
  Observe.ascii_only s = true ->
  Browser.decode (Registration.encodeURIComponent s) = s.
Proof.
  induction s as [|a s IH]; [reflexivity|]. cbn [Observe.ascii_only]. intros Hs.
  apply andb_prop in Hs. destruct Hs as [Ha Hs].
  rewrite encodeURIComponent_cons, decode_encoded_character by assumption.
  now rewrite IH.
Qed.

(** The query of the authorization address, read back. *)
Lemma authorization_query (apiKey returnTo : string) :
  Spec.plain_id apiKey = true -> Observe.ascii_only returnTo = true ->
  Browser.parse_query
    ("expiration=never&scope=read,write&response_type=token&name=Discord%20Notifications&key="
     ++ apiKey ++ "&return_url=" ++ Registration.encodeURIComponent returnTo)
  = [ ("expiration", "never"); ("scope", "read,write"); ("response_type", "token");
      ("name", "Discord Notifications"); ("key", apiKey); ("return_url", returnTo) ].
Proof.
  intros Hk Hr. unfold Browser.parse_query, Browser.amp.
  set (E := Registration.encodeURIComponent returnTo).
  change ("expiration=never&scope=read,write&response_type=token&name=Discord%20Notifications&key="
          ++ apiKey ++ "&return_url=" ++ E)
    with ("expiration=never" ++ String "&"
            ("scope=read,write" ++ String "&"
               ("response_type=token" ++ String "&"
                  ("name=Discord%20Notifications" ++ String "&"
                     (("key=" ++ apiKey) ++ String "&" ("return_url=" ++ E)))))).
  assert (Hkey : Spec.avoids "&" ("key=" ++ apiKey) = true).
  { cbn [append Spec.avoids Ascii.eqb Bool.eqb negb andb].
    apply Flow.plain_id_avoids; [cbn; auto 10|assumption]. }
  assert (Hret : Spec.avoids "&" ("return_url=" ++ E) = true).
  { cbn [append Spec.avoids Ascii.eqb Bool.eqb negb andb].
    apply encodeURIComponent_avoids. cbn. auto. }
  rewrite !Flow.split_avoids by (assumption || reflexivity).
  rewrite (split_last "&" _ Hret).
  cbn [filter append String.eqb negb map].
  unfold Browser.parse_pair.
  cbn [append before after Ascii.eqb Bool.eqb].
  rewrite (Flow.decode_plain apiKey Hk).
  subst E. rewrite (decode_encodeURIComponent returnTo Hr). reflexivity.
Qed.

Section WithHost.
Context `{Host}.

(** X18: a first visit (board id, configured API key, no token, not coming
    from the authorization page) calls nothing and is redirected, 302, to the
    authorization page of trello.com, or of the configured API address when
    that names localhost. The address asks for a token that never expires
    with read and write scope, under the application name and the API key,
    and its [return_url] decodes to this endpoint with the board id. *)
Theorem first_visit_is_redirected_to_the_authorization_page
    (req : Request) (boardId : string) :
  lookup (query req) "boardId" = Some boardId -> boardId <> "" ->
  present (lookup (query req) "token") = false ->
  Config.getTrelloApiKey <> "" -> Spec.plain_id Config.getTrelloApiKey = true ->
  (forall referer, lookup (headers req) "referer" = Some referer ->
                   String_includes referer "trello.com/1/authorize" = false) ->
  Observe.ascii_only (Observe.redirectUri req boardId) = true ->
  let domain := if String_includes Config.getTrelloApiUrl "localhost"
                then Config.getTrelloApiUrl else "https://trello.com" in
  exists q,
    Registration.registerBoard req = ([], Ok (Redirect 302 (domain ++ "/1/authorize?" ++ q)))
    /\ Browser.parse_query q
       = [ ("expiration", "never"); ("scope", "read,write"); ("response_type", "token");
           ("name", "Discord Notifications"); ("key", Config.getTrelloApiKey);
           ("return_url", Observe.redirectUri req boardId) ].
Proof.
  intros Hq Hne Htok Hkey Hplain Href Hascii domain.
  eexists. split.
  - unfold Registration.registerBoard. rewrite Hq.
    apply String.eqb_neq in Hne, Hkey. rewrite Hne, Hkey.
    assert (Hauth : Registration.authorize req boardId Config.getTrelloApiKey
                    = ([], Ok (Redirect 302
                         (domain ++ "/1/authorize?"
                          ++ "expiration=never&scope=read,write&response_type=token&name=Discord%20Notifications&key="
                          ++ Config.getTrelloApiKey ++ "&return_url="
                          ++ Registration.encodeURIComponent
                               (Observe.redirectUri req boardId))))).
    { unfold Registration.authorize.
      assert (Hgate : present (lookup (headers req) "referer")
                      && String_includes
                           (match lookup (headers req) "referer" with
                            | Some r => r | None => "" end)
                           "trello.com/1/authorize" = false).
      { destruct (lookup (headers req) "referer") as [r|]; [|reflexivity].
        rewrite (Href r eq_refl). apply andb_false_r. }
      rewrite Hgate. reflexivity. }
    destruct (lookup (query req) "token") as [tok|]; [|now rewrite Hauth].
    cbn [present] in Htok. apply negb_false_iff in Htok. now rewrite Htok, Hauth.
  - now apply authorization_query.
Qed.

End WithHost.


Lemma span_token_all (s : string) :
  Spec.avoids Browser.amp s = true -> Browser.span_token s = s.
Proof.
  induction s as [|a s IH]; [reflexivity|]. cbn [Spec.avoids Browser.span_token].
  intros Hs. apply andb_prop in Hs. destruct Hs as [Ha Hs]. apply negb_true_iff in Ha.
  now rewrite Ha, IH.
Qed.


(** X20: a token of letters, digits, [-] and [_] that arrives as the
    fragment [#token=<token>] is promoted unchanged: the script captures it
    and the request it issues carries it as the [token] query parameter. *)
Theorem promotion_forwards_the_token (boardId token : string) :
  Spec.plain_id boardId = true -> Spec.plain_id token = true -> token <> "" ->
  let hash := "#token=" ++ token in
  let href := "/registerTrelloBoard?boardId=" ++ boardId ++ "&token=" ++ token in
  Browser.tokenMatch hash = Some token
  /\ Browser.run (TokenPromotionPage boardId) hash = Some href
  /\ lookup (Browser.parse_query (snd (Browser.request_target href))) "token"
     = Some token.
Proof.
  intros Hb Ht Hne hash href.
  assert (Hamp : Spec.avoids Browser.amp token = true)
    by (apply Flow.plain_id_avoids; [cbn; auto 10|assumption]).
  assert (Hmatch : Browser.tokenMatch hash = Some token).
  { subst hash. cbn [append Browser.tokenMatch].
    assert (Hdrop : Browser.drop 7 (String "#" (String "t" (String "o" (String "k"
                      (String "e" (String "n" (String "=" token))))))) = token).
    { unfold Browser.drop. cbn [String.length Nat.sub String.substring].
      rewrite ?Nat.sub_0_r. apply Cards.substring_all. }
    rewrite Hdrop, (span_token_all token Hamp).
    apply String.eqb_neq in Hne. rewrite Hne.
    cbn [String_startsWith Ascii.eqb Bool.eqb andb negb].
    destruct token; [discriminate Hne|reflexivity]. }
  split; [exact Hmatch|]. split.
  - unfold Browser.run. now rewrite Hmatch, (Flow.plain_id_literal boardId Hb).
  - subst href. rewrite Flow.target_of_promotion by assumption. cbn [snd].
    rewrite (before_all "#" token) by (apply Flow.plain_id_avoids; [cbn; auto 10|assumption]).
    unfold Browser.parse_query.
    change ("boardId=" ++ boardId ++ "&token=" ++ token)
      with (("boardId=" ++ boardId) ++ String Browser.amp ("token=" ++ token)).
    rewrite Flow.split_avoids.
    2:{ cbn [append Spec.avoids Ascii.eqb Bool.eqb negb andb].
        apply Flow.plain_id_avoids; [cbn; auto 10|assumption]. }
    rewrite split_last.
    2:{ cbn [append Spec.avoids Ascii.eqb Bool.eqb negb andb]. exact Hamp. }
    cbn [filter append String.eqb negb map lookup]. unfold Browser.parse_pair.
    cbn [append before after Ascii.eqb Bool.eqb Browser.decode fst snd lookup String.eqb].
    now rewrite (Flow.decode_plain token Ht).
Qed.

Lemma append_assoc (a b c : string) : (a ++ b) ++ c = a ++ b ++ c.
Proof. induction a as [|x a IH]; cbn; [reflexivity|now rewrite IH]. Qed.

Lemma callback_url (req : Request) :
  (protocol req ++ "://" ++ hostname req) ++ "/trelloNotification"
  = protocol req ++ "://" ++ hostname req ++ "/trelloNotification".
Proof. rewrite append_assoc. reflexivity. Qed.

Section ThirdHop.
Context `{Host}.

(** With board id, token and API key in hand [registerBoard] is its third
    hop. *)
Lemma third_hop (req : Request) (boardId token : string) :
  lookup (query req) "boardId" = Some boardId -> boardId <> "" ->
  lookup (query req) "token" = Some token -> token <> "" ->
  Config.getTrelloApiKey <> "" ->
  Registration.registerBoard req
  = try_catch (Registration.registerWebhook req boardId token Config.getTrelloApiKey)
      (fun error =>
         pure (Ok (Json 500 (VObj [("error", VStr "Server error");
                                   ("message", VStr (message error))])))).
Proof.
  intros Hq Hb Ht Hne Hk. unfold Registration.registerBoard.
  apply String.eqb_neq in Hb, Hne, Hk. now rewrite Hq, Hb, Hk, Ht, Hne.
Qed.

(** X21: with board id, token and API key, the board is looked up first, and
    the webhook is registered for the id the lookup returned, with this
    deployment's [/trelloNotification] as callback; the answer is the success
    page showing the registration response, or, when the registration call
    fails, the 500 error page with its message and the board id asked for. *)
Theorem verified_board_is_registered_by_its_full_id
    (req : Request) (boardId token : string) (board : val) :
  lookup (query req) "boardId" = Some boardId -> boardId <> "" ->
  lookup (query req) "token" = Some token -> token <> "" ->
  Config.getTrelloApiKey <> "" ->
  Observe.board_answer boardId token = Ok board ->
  is_object board = true ->
  scalar (field board "name") = true -> scalar (field board "id") = true ->
  truthy (field board "id") = true ->
  let calls := [ Observe.board_lookup boardId token;
                 Observe.webhook_registration req (field board "id") token ] in
  let outcome := Observe.webhook_answer req (field board "id") token in
  (forall response, outcome = Ok response ->
     Registration.registerBoard req
     = (calls, Ok (SendPage 200 (SuccessPage (JSON_stringify_pretty response)))))
  /\ (forall e, outcome = Throw e ->
      Registration.registerBoard req
      = (calls,
         Ok (SendPage 500
               (ErrorPage (message e)
                  (JSON_stringify_pretty (or_else (Registration.response_data e) (VObj [])))
                  boardId)))).
Proof.
  intros Hq Hb Ht Hne Hk Hboard Ho Hname Hid Htruthy calls outcome. subst calls outcome.
  rewrite (third_hop req boardId token) by assumption.
  unfold Registration.registerWebhook. cbv zeta. rewrite callback_url.
  unfold Observe.board_answer in Hboard. rewrite Hboard.
  cbn [io_bind pure try_catch app]. repeat step. rewrite Htruthy.
  cbn [io_bind pure try_catch app].
  unfold Observe.webhook_answer, Observe.board_lookup, Observe.webhook_registration.
  split.
  - intros response ->. reflexivity.
  - intros e ->. reflexivity.
Qed.

(** X22: when the board lookup fails, or returns no id, no webhook is
    registered: the lookup is the only call, and the answer is the 500 error
    page that says the verification failed, why, and for which board id. *)
Theorem failed_verification_registers_nothing
    (req : Request) (boardId token : string) :
  lookup (query req) "boardId" = Some boardId -> boardId <> "" ->
  lookup (query req) "token" = Some token -> token <> "" ->
  Config.getTrelloApiKey <> "" ->
  let page (reason : string) :=
    ([Observe.board_lookup boardId token],
     Ok (SendPage 500 (ErrorPage (Observe.verification_failed reason)
                         (JSON_stringify_pretty (VObj [])) boardId))) in
  (forall e,
     Observe.board_answer boardId token = Throw e ->
     let told := field (Registration.response_data e) "message" in
     scalar told = true ->
     Registration.registerBoard req = page (text (or_else told (VStr (message e)))))
  /\ (forall board,
        Observe.board_answer boardId token = Ok board ->
        is_object board = true ->
        scalar (field board "name") = true -> scalar (field board "id") = true ->
        truthy (field board "id") = false ->
        Registration.registerBoard req = page "Couldn't retrieve the full board ID").
Proof.
  intros Hq Hb Ht Hne Hk page. subst page.
  rewrite (third_hop req boardId token) by assumption.
  unfold Registration.registerWebhook, Observe.board_answer, Observe.board_lookup,
    Observe.verification_failed.
  split.
  - intros e -> Htold.
    cbn [io_bind pure try_catch app].
    assert (Hm : get_opt (Registration.response_data e) "message"
                 = Ok (field (Registration.response_data e) "message"))
      by (now destruct (Registration.response_data e)).
    rewrite Hm. cbn [bind].
    assert (Hs : scalar (or_else (field (Registration.response_data e) "message")
                           (VStr (message e))) = true)
      by (unfold or_else; now destruct (truthy _)).
    rewrite (Facts.ToString_scalar _ Hs). reflexivity.
  - intros board -> Ho Hname Hid Hfalsy.
    cbn [io_bind pure try_catch app]. repeat step. rewrite Hfalsy.
    cbn [io_bind pure try_catch app Registration.response_data get_opt bind or_else
         truthy ToString message].
    reflexivity.
Qed.


End ThirdHop.
End Hops.

(* ================================================================= *)
(** ** More cards, and the configuration accessor *)

Module Details.
Section WithHost.
Context `{Host}.

(** X24: the card of an issue comment is titled with the issue number, names
    the commenter before the link to the issue, links to the comment itself,
    and shows the comment, when it has a text, as its only field. *)
Theorem issue_comment_card_names_the_commenter (payload : val) :
  GitHub_payload_ok "issue_comment" payload = true ->
  let issue := field payload "issue" in
  let comment := field payload "comment" in
  exists card,
    Discord.formatGitHubMessage payload "issue_comment" = Ok card
    /\ Discord.title card
       = "[" ++ Spec.repository_name payload ++ "] Comment on issue #"
         ++ text (field issue "number")
    /\ Discord.description card
       = text (field (field comment "user") "login") ++ " commented on [#"
         ++ text (field issue "number") ++ ": " ++ text (field issue "title") ++ "]("
         ++ text (field issue "html_url") ++ ")"
    /\ Discord.url card = field comment "html_url"
    /\ (truthy (field comment "body") = false -> Discord.fields card = [])
    /\ (truthy (field comment "body") = true ->
        map Discord.name (Discord.fields card) = ["Comment"]).
Proof.
  intros Hp issue comment. unfold GitHub_payload_ok in Hp.
  cbn [String.eqb Ascii.eqb Bool.eqb] in Hp. apply andb_prop in Hp. destruct Hp as [Hr Hb].
  eexists. split; [now apply GitHubCards.issue_comment_card|].
  cbn [Discord.title Discord.url Discord.description Discord.fields Spec.GitHub_card].
  fold issue comment. unfold Spec.body_field.
  repeat split; intros ->; reflexivity.
Qed.

(** X25: the card of a labelled card shows the label by its name, or by its
    colour when the name is missing or empty, in one inline field. *)
Theorem label_card_prefers_the_name_to_the_colour (data : val) :
  relayed data ->
  field (field data "action") "type" = VStr "addLabelToCard" ->
  let label := field (field (field data "action") "data") "label" in
  truthy label = true ->
  exists card,
    Discord.formatTrelloMessage data = Ok (Some card)
    /\ Discord.title card = "Label Added"
    /\ Discord.fields card
       = [ {| Discord.name := "Label";
              Discord.value := if truthy (field label "name")
                               then field label "name" else field label "color";
              Discord.inline := Some true |} ].
Proof.
  intros Hr Hty label Hl.
  eexists. split; [now apply TrelloBranches.addLabelToCard_card|].
  cbn [Discord.title Discord.fields Spec.Trello_card]. unfold Spec.label_field.
  fold label. rewrite Hl. split; reflexivity.
Qed.

(** X26: [getConfig] under each of the five parameter names gives what the
    getter of that name gives, in and out of test mode (for the API address,
    with the getter's default); under any other name it throws outside test
    mode and falls back on the environment or the default in test mode. *)
Theorem getConfig_agrees_with_the_getters :
  Config.getConfig "DISCORD_WEBHOOK_URL" "" = Ok Config.getDiscordWebhookUrl
  /\ Config.getConfig "GITHUB_SECRET" "" = Ok Config.getGithubSecret
  /\ Config.getConfig "TRELLO_API_KEY" "" = Ok Config.getTrelloApiKey
  /\ Config.getConfig "TRELLO_SECRET" "" = Ok Config.getTrelloSecret
  /\ Config.getConfig "TRELLO_API_URL" "http://localhost:5000/trello-mock-api"
     = Ok Config.getTrelloApiUrl
  /\ (forall name fallback,
        ~ In name Config.FIREBASE_PARAMS ->
        Config.getConfig name fallback
        = if Config.isTestMode then Ok (Config.env_or (name ++ "_TEST") fallback)
          else Throw TypeError).
Proof.
  unfold Config.getConfig, Config.getDiscordWebhookUrl, Config.getGithubSecret,
    Config.getTrelloApiKey, Config.getTrelloSecret, Config.getTrelloApiUrl.
  repeat split; try (destruct Config.isTestMode; reflexivity).
  intros name fallback Hn. destruct Config.isTestMode; [reflexivity|].
  destruct (existsb (String.eqb name) Config.FIREBASE_PARAMS) eqn:E; [|reflexivity].
  apply existsb_exists in E. destruct E as (x & Hx & E).
  apply String.eqb_eq in E. subst x. contradiction.
Qed.

End WithHost.
End Details.

(* ================================================================= *)
(** ** The further properties at concrete requests *)

Module MoreChecks.

(** X1 at a request signed with the digest of its body. *)
Lemma verifyGitHubSignature_accepts_only_the_digest_witness :
  let req := Sample.request "POST"
               [("x-hub-signature-256",
                 "sha256=0000000000000000000000000000000000000000000000000000000000000000")]
               (Sample.push []) [] in
  @GitHub.verifyGitHubSignature Sample.production req "s3cret" = Ok true.
Proof.
  intros req.
  assert (Hs : "s3cret" <> "") by discriminate.
  assert (Hb : body req <> VUndef) by discriminate.
  exact (proj2 (@Webhook.verifyGitHubSignature_accepts_only_the_digest Sample.production
                  req "s3cret" _ Hs Hb eq_refl) eq_refl).
Defined.

(** X3 at the repository's push test: one POST, 200. *)
Lemma supported_event_is_relayed_once_witness :
  let echo := VObj [("success", VBool true)] in
  let req := Sample.request "POST" [("x-github-event", "push")]
               (Sample.push [Sample.commit "1234567890abcdef"]) [] in
  exists calls,
    @GitHub.handleWebhook (Sample.host false "" "" (Ok echo)) req Sample.hook ""
    = (calls, Ok (Send 200 "Webhook processed successfully"))
    /\ List.length calls = 1%nat.
Proof.
  intros echo req.
  eassert (Hf : @Discord.formatGitHubMessage (Sample.host false "" "" (Ok echo))
                  (body req) "push" = Ok _) by reflexivity.
  eexists. split.
  - exact (@Webhook.supported_event_is_relayed_once (Sample.host false "" "" (Ok echo))
             req Sample.hook "" "push" _ echo eq_refl (or_introl eq_refl) eq_refl eq_refl
             Hf eq_refl).
  - reflexivity.
Defined.

(** X4 at a push without payload, and at a push that cannot be delivered. *)
Lemma relay_failures_are_answered_500_witness :
  let down := Throw (AxiosError "connect ECONNREFUSED" VUndef) in
  (@GitHub.handleWebhook (Sample.host false "" "" down)
     (Sample.request "POST" [("x-github-event", "push")] (VObj []) []) Sample.hook ""
   = ([], Ok (Send 500 "Error processing webhook")))
  /\ exists calls,
       @GitHub.handleWebhook (Sample.host false "" "" down)
         (Sample.request "POST" [("x-github-event", "push")] (Sample.push []) [])
         Sample.hook ""
       = (calls, Ok (Send 500 "Error processing webhook"))
       /\ List.length calls = 1%nat.
Proof.
  intros down. split.
  - exact (proj1 (@Webhook.relay_failures_are_answered_500 (Sample.host false "" "" down)
                    (Sample.request "POST" [("x-github-event", "push")] (VObj []) [])
                    Sample.hook "" "push" eq_refl (or_introl eq_refl) eq_refl eq_refl)
             TypeError eq_refl).
  - eassert (Hf : @Discord.formatGitHubMessage (Sample.host false "" "" down)
                    (Sample.push []) "push" = Ok _) by reflexivity.
    eexists. split.
    + exact (proj2 (@Webhook.relay_failures_are_answered_500 (Sample.host false "" "" down)
                      (Sample.request "POST" [("x-github-event", "push")] (Sample.push []) [])
                      Sample.hook "" "push" eq_refl (or_introl eq_refl) eq_refl eq_refl)
               _ (AxiosError "connect ECONNREFUSED" VUndef) Hf eq_refl).
    + reflexivity.
Defined.

(** X5 at a ping. *)
Lemma other_events_are_accepted_not_relayed_witness :
  @GitHub.handleWebhook Sample.production
    (Sample.request "POST" [("x-github-event", "ping")] (VObj []) []) Sample.hook ""
  = ([], Ok (Send 202 "Event type not processed")).
Proof.
  assert (Hne : "ping" <> "") by discriminate.
  exact (@Webhook.other_events_are_accepted_not_relayed Sample.production
           (Sample.request "POST" [("x-github-event", "ping")] (VObj []) []) Sample.hook ""
           "ping" eq_refl (or_introl eq_refl) eq_refl Hne eq_refl).
Defined.

(** X7 at the repository's push to main. *)
Lemma push_card_names_the_branch_witness :
  exists card,
    @Discord.formatGitHubMessage Sample.production
      (Sample.push [Sample.commit "1234567890abcdef"]) "push" = Ok card
    /\ Discord.title card = "[test-repo] Push to main"
    /\ Discord.description card = "1 commit(s) pushed".
Proof.
  destruct (@Cards.push_card_names_the_branch Sample.production
              (Sample.push [Sample.commit "1234567890abcdef"]) "main" eq_refl eq_refl)
    as (card & Hc & Ht & _ & _ & Hd).
  exists card. split; [exact Hc|]. split; [exact Ht|].
  apply Hd. discriminate.
Defined.

(** X8 at an issue event. *)
Lemma GitHub_cards_share_their_frame_witness :
  exists card,
    @Discord.formatGitHubMessage Sample.production (Sample.issue_event VNull) "issues"
    = Ok card
    /\ Discord.color card = 0xE99455.
Proof.
  destruct (@Cards.GitHub_cards_share_their_frame Sample.production
              (Sample.issue_event VNull) "issues" eq_refl)
    as (card & Hc & _ & _ & Hcol & _).
  exists card. split; [exact Hc|exact Hcol].
Defined.

(** X9 at the repository's pull request, without body. *)
Lemma pull_request_card_shows_state_and_merge_witness :
  exists card,
    @Discord.formatGitHubMessage Sample.production (Sample.pull_request VNull)
      "pull_request" = Ok card
    /\ map Discord.value (firstn 2 (Discord.fields card)) = [VStr "open"; VStr "No"]
    /\ List.length (Discord.fields card) = 2%nat.
Proof.
  destruct (@Cards.pull_request_card_shows_state_and_merge Sample.production
              (Sample.pull_request VNull) eq_refl)
    as (card & Hc & _ & _ & _ & Hf & Hn).
  exists card. split; [exact Hc|]. split; [now rewrite Hf|now apply Hn].
Defined.

(** X10 at a commit with a message of two lines. *)
Lemma commit_field_shows_short_id_and_first_line_witness :
  let c := Sample.obj [ ("id", VStr "1234567890abcdef");
                        ("message", VStr ("Fix the parser" ++ String Discord.LF "Details"));
                        ("url", VStr "https://github.com/u/r/commit/1234567");
                        ("author", Sample.obj [("name", VStr "Test User")]) ] in
  exists f,
    @Discord.commit_field c = Ok f
    /\ Discord.name f = "1234567"
    /\ Discord.value f
       = VStr "[Fix the parser](https://github.com/u/r/commit/1234567) - Test User".
Proof.
  intros c.
  destruct (Cards.commit_field_shows_short_id_and_first_line c "1234567890abcdef"
              "Fix the parser" "Details" eq_refl eq_refl eq_refl eq_refl)
    as (f & Hf & Hn & _ & _ & Hv).
  exists f. split; [exact Hf|]. split; [exact Hn|exact Hv].
Defined.

(** X11 at a card moved between two lists whose due date changed as well. *)
Lemma updateCard_reports_a_move_before_a_due_date_witness :
  let data := Sample.trello "updateCard"
                [ ("listBefore", Sample.obj [("name", VStr "To Do")]);
                  ("listAfter", Sample.obj [("name", VStr "Done")]);
                  ("old", Sample.obj [("due", VNull)]) ] in
  exists card,
    @Discord.formatTrelloMessage Sample.production data = Ok (Some card)
    /\ Discord.title card = "Card Moved"
    /\ map Discord.value (Discord.fields card) = [VStr "To Do"; VStr "Done"].
Proof.
  intros data.
  assert (Hr : relayed data) by (repeat split; reflexivity).
  destruct (@Boards.updateCard_reports_a_move_before_a_due_date Sample.production data
              Hr eq_refl)
    as (card & Hc & Hmoved & _).
  destruct (Hmoved eq_refl) as [[Ht _] Hf].
  exists card. split; [exact Hc|]. split; [exact Ht|]. rewrite Hf. reflexivity.
Defined.

(** X12 at a copied card. *)
Lemma other_actions_are_reported_by_type_witness :
  exists card,
    @Discord.formatTrelloMessage Sample.production (Sample.trello "copyCard" [])
    = Ok (Some card)
    /\ Discord.description card = "Test User performed action: copyCard".
Proof.
  assert (Hr : relayed (Sample.trello "copyCard" [])) by (repeat split; reflexivity).
  destruct (@Boards.other_actions_are_reported_by_type Sample.production
              (Sample.trello "copyCard" []) "copyCard" Hr eq_refl eq_refl)
    as (card & Hc & _ & Hd & _).
  exists card. split; [exact Hc|exact Hd].
Defined.

(** X13 at a member added to a card. *)
Lemma member_changes_name_both_members_witness :
  let data := Sample.trello "addMemberToCard"
                [("member", Sample.obj [("name", VStr "New Member")])] in
  exists card,
    @Discord.formatTrelloMessage Sample.production data = Ok (Some card)
    /\ Discord.title card = "Member Added to Card"
    /\ Discord.description card
       = "Test User added New Member to card [Test Card](https://trello.com/b/abc123/board)".
Proof.
  intros data.
  assert (Hr : relayed data) by (repeat split; reflexivity).
  destruct (@Boards.member_changes_name_both_members Sample.production data
              "addMemberToCard" Hr eq_refl (or_introl eq_refl))
    as (card & Hc & Ht & Hd & _).
  exists card. split; [exact Hc|]. split; [exact Ht|exact Hd].
Defined.

(** X14 at a created card. *)
Lemma Trello_cards_share_their_frame_witness :
  exists card,
    @Discord.formatTrelloMessage Sample.production (Sample.trello "createCard" [])
    = Ok (Some card)
    /\ Discord.color card = 0x0079BF
    /\ Discord.url card = VStr "https://trello.com/b/abc123/board".
Proof.
  destruct (@Boards.Trello_cards_share_their_frame Sample.production
              (Sample.trello "createCard" []) eq_refl)
    as (r & Hr & _ & Hcard).
  destruct r as [card|]; [|discriminate Hr].
  destruct (Hcard card eq_refl) as (Hcol & _ & _ & _ & Hurl & _).
  exists card. split; [exact Hr|]. split; [exact Hcol|exact Hurl].
Defined.

(** X15 at the repository's invalid payload, outside test mode. *)
Lemma payload_without_action_is_rejected_outside_test_mode_witness :
  @Trello.handleTrelloEvent Sample.production
    (Sample.request "POST" [] (Sample.obj [("invalid", VStr "payload")]) []) Sample.hook
  = ([], Ok (Send 400 "Invalid Trello payload")).
Proof.
  exact (proj1 (@Boards.payload_without_action_is_rejected_outside_test_mode
                  Sample.production
                  (Sample.request "POST" [] (Sample.obj [("invalid", VStr "payload")]) [])
                  Sample.hook eq_refl) eq_refl).
Defined.

(** X16 at a created card, delivered. *)
Lemma board_event_is_relayed_once_witness :
  exists calls,
    @Trello.handleTrelloEvent Sample.production
      (Sample.request "POST" [] (Sample.trello "createCard" []) []) Sample.hook
    = (calls, Ok (Send 200 "Trello event processed successfully"))
    /\ List.length calls = 1%nat.
Proof.
  eassert (Hf : @Discord.formatTrelloMessage Sample.production
                  (Sample.trello "createCard" []) = Ok (Some _)) by reflexivity.
  eexists. split.
  - exact (proj1 (@Boards.board_event_is_relayed_once Sample.production
                    (Sample.request "POST" [] (Sample.trello "createCard" []) [])
                    Sample.hook _ (or_intror eq_refl) Hf) (VObj []) eq_refl).
  - reflexivity.
Defined.

(** X18 at a first visit for board b1. *)
Lemma first_visit_is_redirected_to_the_authorization_page_witness :
  exists q,
    @Registration.registerBoard Sample.production
      (Sample.request "GET" [] VUndef [("boardId", "b1")])
    = ([], Ok (Redirect 302 ("https://trello.com/1/authorize?" ++ q)))
    /\ lookup (Browser.parse_query q) "return_url"
       = Some "https://example.web.app/registerTrelloBoard?boardId=b1".
Proof.
  assert (Hb : "b1" <> "") by discriminate.
  assert (Hk : @Config.getTrelloApiKey Sample.production <> "") by discriminate.
  assert (Href : forall referer,
            lookup (headers (Sample.request "GET" [] VUndef [("boardId", "b1")])) "referer"
            = Some referer ->
            String_includes referer "trello.com/1/authorize" = false)
    by discriminate.
  destruct (@Hops.first_visit_is_redirected_to_the_authorization_page Sample.production
              (Sample.request "GET" [] VUndef [("boardId", "b1")]) "b1"
              eq_refl Hb eq_refl Hk eq_refl Href eq_refl)
    as (q & Hr & Hq).
  exists q. split; [exact Hr|]. rewrite Hq. reflexivity.
Defined.

(** X20 at board b1 and token t0k3n. *)
Lemma promotion_forwards_the_token_witness :
  Browser.run (TokenPromotionPage "b1") "#token=t0k3n"
  = Some "/registerTrelloBoard?boardId=b1&token=t0k3n".
Proof.
  assert (Hne : "t0k3n" <> "") by discriminate.
  exact (proj1 (proj2 (Hops.promotion_forwards_the_token "b1" "t0k3n" eq_refl eq_refl Hne))).
Defined.

(** X21 at a board whose lookup returns the full id full1. *)
Lemma verified_board_is_registered_by_its_full_id_witness :
  let board := VObj [("id", VStr "full1"); ("name", VStr "Board")] in
  let net := Sample.host false "" "key" (Ok board) in
  let req := Sample.request "GET" [] VUndef [("boardId", "b1"); ("token", "t0k3n")] in
  @Registration.registerBoard net req
  = ([ @Observe.board_lookup net "b1" "t0k3n";
       @Observe.webhook_registration net req (VStr "full1") "t0k3n" ],
     Ok (SendPage 200 (SuccessPage "{}"))).
Proof.
  intros board net req.
  assert (Hb : "b1" <> "") by discriminate.
  assert (Ht : "t0k3n" <> "") by discriminate.
  assert (Hk : @Config.getTrelloApiKey net <> "") by discriminate.
  exact (proj1 (@Hops.verified_board_is_registered_by_its_full_id net req "b1" "t0k3n"
                  board eq_refl Hb eq_refl Ht Hk eq_refl eq_refl eq_refl eq_refl eq_refl)
           board eq_refl).
Defined.

(** X22 at a board the lookup does not find. *)
Lemma failed_verification_registers_nothing_witness :
  let net := Sample.host false "" "key" (Throw (AxiosError "Request failed" VUndef)) in
  let req := Sample.request "GET" [] VUndef [("boardId", "b1"); ("token", "t0k3n")] in
  exists page,
    @Registration.registerBoard net req
    = ([@Observe.board_lookup net "b1" "t0k3n"], Ok (SendPage 500 page)).
Proof.
  intros net req.
  assert (Hb : "b1" <> "") by discriminate.
  assert (Ht : "t0k3n" <> "") by discriminate.
  assert (Hk : @Config.getTrelloApiKey net <> "") by discriminate.
  eexists.
  exact (proj1 (@Hops.failed_verification_registers_nothing net req "b1" "t0k3n"
                  eq_refl Hb eq_refl Ht Hk)
           (AxiosError "Request failed" VUndef) eq_refl eq_refl).
Defined.

(** X24 at the repository's issue comment. *)
Lemma issue_comment_card_names_the_commenter_witness :
  exists card,
    @Discord.formatGitHubMessage Sample.production
      (Sample.issue_comment (VStr "Looks good")) "issue_comment" = Ok card
    /\ map Discord.name (Discord.fields card) = ["Comment"].
Proof.
  destruct (@Details.issue_comment_card_names_the_commenter Sample.production
              (Sample.issue_comment (VStr "Looks good")) eq_refl)
    as (card & Hc & _ & _ & _ & _ & Hf).
  exists card. split; [exact Hc|exact (Hf eq_refl)].
Defined.

(** X25 at a label without a name. *)
Lemma label_card_prefers_the_name_to_the_colour_witness :
  let data := Sample.trello "addLabelToCard"
                [("label", Sample.obj [("name", VStr ""); ("color", VStr "green")])] in
  exists card,
    @Discord.formatTrelloMessage Sample.production data = Ok (Some card)
    /\ map Discord.value (Discord.fields card) = [VStr "green"].
Proof.
  intros data.
  assert (Hr : relayed data) by (repeat split; reflexivity).
  destruct (@Details.label_card_prefers_the_name_to_the_colour Sample.production data
              Hr eq_refl eq_refl)
    as (card & Hc & _ & Hf).
  exists card. split; [exact Hc|]. rewrite Hf. reflexivity.
Defined.

End MoreChecks.
